(** * allergy-recipe-finder: the meal combination engine and the recipe filters

    A shallow embedding of [ingredients.py] ([get_functional_tags],
    [clean_ingredient_name], [find_best_meal]) and of the two recipe checks of
    [app.py] ([check_recipe_allergens], [check_recipe_dietary]), followed by
    the properties of the specification that concern them.

    Modelling conventions.
    - A Python [str] is a [string] of ASCII characters: [lower], [upper] and
      [strip] act on the 7-bit range and leave every other byte alone;
      [upper] is only ever applied to one character.
    - A Python [float] holding a price or a weight is an exact rational [Q];
      [round(x, n)] is rounding to [n] decimals, halves to even.
    - A [dict] describing an ingredient is a record; the keys the code reads
      with [.get] or writes itself are optional fields.
    - A [set] of strings is a [gset string], a [dict] from strings a [gmap].
    - An exception is a value of [exn] carried by [result]. *)

From Stdlib Require Import Ascii String QArith Qround Lqa Permutation Sorted.
From stdpp Require Import gmap strings list.

Open Scope string_scope.

(** ** Exceptions *)

Inductive exn : Type :=
| IndexError
| KeyError.

Inductive result (A : Type) : Type :=
| Ok (a : A)
| Raise (e : exn).

Arguments Ok {A} a.
Arguments Raise {A} e.

#[global] Instance result_ret : MRet result := fun A a => Ok a.

#[global] Instance result_bind : MBind result := fun A B k r =>
  match r with
  | Ok a => k a
  | Raise e => Raise e
  end.

(** ** Python string operations *)

Module Str.

Definition code (c : ascii) : nat := nat_of_ascii c.

(** [c.isspace()] on the ASCII range. *)
Definition isspace (c : ascii) : bool :=
  let n := code c in
  ((9 <=? n)%nat && (n <=? 13)%nat) || ((28 <=? n)%nat && (n <=? 32)%nat).

(** [c.lower()] for a one-character string. *)
Definition lower_char (c : ascii) : ascii :=
  let n := code c in
  if ((65 <=? n)%nat && (n <=? 90)%nat) then ascii_of_nat (n + 32) else c.

(** [c.upper()] for a one-character string. *)
Definition upper_char (c : ascii) : ascii :=
  let n := code c in
  if ((97 <=? n)%nat && (n <=? 122)%nat) then ascii_of_nat (n - 32) else c.

(** [s.lower()] *)
Fixpoint lower (s : string) : string :=
  match s with
  | EmptyString => EmptyString
  | String c s' => String (lower_char c) (lower s')
  end.

(** [s.startswith(p)] *)
Fixpoint startswith (p s : string) {struct s} : bool :=
  match p with
  | EmptyString => true
  | String a p' =>
      match s with
      | EmptyString => false
      | String b s' => if Ascii.eqb a b then startswith p' s' else false
      end
  end.

(** [kw in s] *)
Fixpoint contains (kw s : string) : bool :=
  startswith kw s ||
  match s with
  | EmptyString => false
  | String _ s' => contains kw s'
  end.

(** [s.lstrip()] *)
Fixpoint lstrip (s : string) : string :=
  match s with
  | EmptyString => EmptyString
  | String c s' => if isspace c then lstrip s' else s
  end.

(** [s.rstrip()] *)
Fixpoint rstrip (s : string) : string :=
  match s with
  | EmptyString => EmptyString
  | String c s' =>
      match rstrip s' with
      | EmptyString => if isspace c then EmptyString else String c EmptyString
      | r => String c r
      end
  end.

(** [s.strip()] *)
Definition strip (s : string) : string := rstrip (lstrip s).

(** [s.replace(old, new)] for a non-empty [old]: the occurrences are found
    from the left and do not overlap.  [skip] counts the characters of an
    occurrence that was just replaced and are still to be passed over. *)
Fixpoint replace_from (old new : string) (skip : nat) (s : string) : string :=
  match s with
  | EmptyString => EmptyString
  | String c s' =>
      match skip with
      | S k => replace_from old new k s'
      | O =>
          if startswith old s
          then new +:+ replace_from old new (String.length old - 1) s'
          else String c (replace_from old new 0 s')
      end
  end.

(** [s.replace("", new)] puts [new] before every character and at the end. *)
Fixpoint intersperse (new s : string) : string :=
  match s with
  | EmptyString => new
  | String c s' => new +:+ String c (intersperse new s')
  end.

Definition replace (old new s : string) : string :=
  match old with
  | EmptyString => intersperse new s
  | _ => replace_from old new 0 s
  end.

(** [s.split(sep)[0]] for a one-character separator: the part before the
    first separator, the whole string when there is none. *)
Fixpoint split_head (sep : ascii) (s : string) : string :=
  match s with
  | EmptyString => EmptyString
  | String c s' => if Ascii.eqb c sep then EmptyString else String c (split_head sep s')
  end.

(** [sep.join(l)] *)
Fixpoint join (sep : string) (l : list string) : string :=
  match l with
  | [] => EmptyString
  | [s] => s
  | s :: l' => s +:+ sep +:+ join sep l'
  end.

End Str.

(** [any(word in s for word in words)] *)
Definition any_in (words : list string) (s : string) : bool :=
  existsb (fun word => Str.contains word s) words.

(** ** ingredients.py: helper functions *)

Definition add_if (b : bool) (tag : string) (tags : gset string) : gset string :=
  if b then tags ∪ {[tag]} else tags.

Definition get_functional_tags (ingredient_name : string) : gset string :=
  let name_lower := Str.lower ingredient_name in
  let tags : gset string := ∅ in
  let tags := add_if (any_in ["chicken"; "turkey"; "fish"; "pork"; "beef"; "lamb"; "egg"; "tofu"; "seitan"] name_lower) "Protein" tags in
  let tags := add_if (any_in ["rice"; "flour"; "pasta"; "noodle"; "bread"; "oats"; "potato"; "quinoa"; "starch"] name_lower) "Starch" tags in
  let tags := add_if (any_in ["oil"; "butter"; "cream"; "cheese"; "fat"; "margarine"] name_lower) "Fat/Dairy" tags in
  let tags := add_if (any_in ["tomato"; "onion"; "garlic"; "carrot"; "pepper"; "broccoli"; "spinach"; "fruit"] name_lower) "Produce" tags in
  if bool_decide (tags = ∅) then tags ∪ {["Other"]} else tags.

Definition replacements : list string :=
  ["raw"; "unprepared"; "prepared"; "unenriched"; "cooked"; "generic"; "canned"; "usda"; "frozen"].

(** One turn of the loop of [clean_ingredient_name]. *)
Definition strip_term (cleaned_name term : string) : string :=
  Str.replace ("," +:+ term) ""
    (Str.replace (" " +:+ term) ""
       (Str.replace (", " +:+ term) "" cleaned_name)).

Definition clean_ingredient_name (name : string) : result string :=
  let cleaned_name := Str.strip name in
  let cleaned_name := fold_left strip_term replacements cleaned_name in
  match cleaned_name with
  | EmptyString => Raise IndexError
  | String c rest =>
      let cleaned_name := String (Str.upper_char c) (Str.strip rest) in
      Ok (Str.strip (Str.split_head "," cleaned_name))
  end.

(** ** Numbers *)

Open Scope Q_scope.

(** The nearest integer, a half going to the even neighbour. *)
Definition round_half_even (x : Q) : Z :=
  let f := Qfloor x in
  match Qcompare (x - inject_Z f) (1 # 2) with
  | Lt => f
  | Gt => (f + 1)%Z
  | Eq => if Z.even f then f else (f + 1)%Z
  end.

(** [round(x, ndigits)] *)
Definition py_round (x : Q) (ndigits : nat) : Q :=
  let scale := Pos.pow 10 (Pos.of_nat ndigits) in
  match ndigits with
  | O => inject_Z (round_half_even x)
  | S _ => Qred (round_half_even (x * inject_Z (Zpos scale)) # scale)
  end.

(** [sum(f(item) for item in combo)] *)
Definition py_sum {A : Type} (f : A -> Q) (l : list A) : Q :=
  fold_left (fun acc item => acc + f item) l 0.

(** ** ingredients.py: records *)

Record Ingredient : Type := mkIngredient {
  name : string;
  cost_per_100g : Q;
  protein_g : Q;
  carbs_g : Q;
  fat_g : Q;
  allergy_tags : option (list string);
  functional_tags : option (gset string)
}.

Record Meal : Type := mkMeal {
  ingredients : list string;
  total_cost : Q;
  total_protein_g : Q;
  total_fat_g : Q;
  num_ingredients : nat;
  diversity_score : nat
}.

(** [ingredient['functional_tags'] = tags] *)
Definition set_functional_tags (ingredient : Ingredient) (tags : gset string) : Ingredient :=
  {| name := name ingredient;
     cost_per_100g := cost_per_100g ingredient;
     protein_g := protein_g ingredient;
     carbs_g := carbs_g ingredient;
     fat_g := fat_g ingredient;
     allergy_tags := allergy_tags ingredient;
     functional_tags := Some tags |}.

(** [item['functional_tags']] *)
Definition get_item_tags (item : Ingredient) : result (gset string) :=
  match functional_tags item with
  | Some tags => Ok tags
  | None => Raise KeyError
  end.

(** ** ingredients.py: [find_best_meal] *)

(** [tag in excluded_tags] *)
Definition str_in (tag : string) (l : list string) : bool :=
  existsb (String.eqb tag) l.

(** The test of the safety filter:
    [not any(tag in excluded_tags for tag in ingredient.get("allergy_tags", []))] *)
Definition is_safe (excluded_tags : list string) (ingredient : Ingredient) : bool :=
  negb (existsb (fun tag => str_in tag excluded_tags)
          (default [] (allergy_tags ingredient))).

(** Step 1.  The loop walks [data], writes the functional tags into every
    safe record and appends that record to [safe_ingredients].  The first
    component is [data] as the caller sees it afterwards, the second is
    [safe_ingredients]. *)
Fixpoint safety_filter (data : list Ingredient) (excluded_tags : list string)
  : list Ingredient * list Ingredient :=
  match data with
  | [] => ([], [])
  | ingredient :: data' =>
      let '(stored, safe_ingredients) := safety_filter data' excluded_tags in
      if is_safe excluded_tags ingredient
      then
        let ingredient' := set_functional_tags ingredient (get_functional_tags (name ingredient)) in
        (ingredient' :: stored, ingredient' :: safe_ingredients)
      else (ingredient :: stored, safe_ingredients)
  end.

(** [itertools.combinations(pool, r)], in the order itertools yields them. *)
Fixpoint combinations {A : Type} (r : nat) (pool : list A) : list (list A) :=
  match r with
  | O => [[]]
  | S r' =>
      match pool with
      | [] => []
      | x :: pool' => map (cons x) (combinations r' pool') ++ combinations r pool'
      end
  end.

(** [range(2, max_ingredients + 1)] *)
Definition sizes (max_ingredients : Z) : list nat :=
  map (fun i => (2 + i)%nat) (seq 0 (Z.to_nat (max_ingredients + 1 - 2))).

(** The palatability loop over the members of a combination.  [None] is
    [is_duplicate = True] (the loop was left by [break]); otherwise the
    result is [functional_tags_in_combo]. *)
Fixpoint scan_combo (combo : list Ingredient)
    (functional_tags_in_combo macro_tags_in_combo : gset string)
  : result (option (gset string)) :=
  match combo with
  | [] => Ok (Some functional_tags_in_combo)
  | item :: combo' =>
      tags ← get_item_tags item;
      if bool_decide ("Starch" ∈ tags) then
        if bool_decide ("Starch" ∈ macro_tags_in_combo) then Ok None
        else scan_combo combo' (functional_tags_in_combo ∪ tags)
               (macro_tags_in_combo ∪ {["Starch"]})
      else if bool_decide ("Protein" ∈ tags) then
        if bool_decide ("Protein" ∈ macro_tags_in_combo) then Ok None
        else scan_combo combo' (functional_tags_in_combo ∪ tags)
               (macro_tags_in_combo ∪ {["Protein"]})
      else scan_combo combo' (functional_tags_in_combo ∪ tags) macro_tags_in_combo
  end.

(** The body of the inner loop: [None] when the combination is skipped,
    the record appended to [valid_meals] otherwise. *)
Definition try_combo (max_cost min_protein max_fat : Q) (num_ingredients : nat)
    (combo : list Ingredient) : result (option Meal) :=
  scanned ← scan_combo combo ∅ ∅;
  match scanned with
  | None => Ok None
  | Some functional_tags_in_combo =>
      let diversity_score := size functional_tags_in_combo in
      if (diversity_score <? 2)%nat then Ok None
      else
        let total_cost := py_sum cost_per_100g combo in
        let total_protein := py_sum protein_g combo in
        let total_fat := py_sum fat_g combo in
        if Qle_bool total_cost max_cost
           && Qle_bool min_protein total_protein
           && Qle_bool total_fat max_fat
        then
          cleaned ← mapM (fun item => clean_ingredient_name (name item)) combo;
          Ok (Some {| ingredients := cleaned;
                      total_cost := py_round total_cost 2;
                      total_protein_g := py_round total_protein 1;
                      total_fat_g := py_round total_fat 1;
                      num_ingredients := num_ingredients;
                      diversity_score := diversity_score |})
        else Ok None
  end.

(** The two nested loops, as the list of (size, combination) pairs in the
    order the loops visit them. *)
Definition enumerate (safe_ingredients : list Ingredient) (max_ingredients : Z)
  : list (nat * list Ingredient) :=
  flat_map (fun n => map (pair n) (combinations n safe_ingredients)) (sizes max_ingredients).

(** Running the loop body over the enumeration; [valid_meals] at the end. *)
Fixpoint collect (max_cost min_protein max_fat : Q)
    (todo : list (nat * list Ingredient)) : result (list Meal) :=
  match todo with
  | [] => Ok []
  | (n, combo) :: todo' =>
      kept ← try_combo max_cost min_protein max_fat n combo;
      valid_meals ← collect max_cost min_protein max_fat todo';
      Ok (match kept with Some meal => meal :: valid_meals | None => valid_meals end)
  end.

(** The sort key [(-meal["diversity_score"], -meal["total_protein_g"], meal["total_cost"])]. *)
Definition sort_key (meal : Meal) : Z * Q * Q :=
  ((- Z.of_nat (diversity_score meal))%Z, - total_protein_g meal, total_cost meal).

(** [k1 < k2] on such tuples: the first component that differs decides. *)
Definition key_lt (k1 k2 : Z * Q * Q) : bool :=
  let '(d1, p1, c1) := k1 in
  let '(d2, p2, c2) := k2 in
  match (d1 ?= d2)%Z with
  | Lt => true
  | Gt => false
  | Eq =>
      match Qcompare p1 p2 with
      | Lt => true
      | Gt => false
      | Eq => match Qcompare c1 c2 with Lt => true | _ => false end
      end
  end.

Definition meal_lt (m1 m2 : Meal) : bool := key_lt (sort_key m1) (sort_key m2).

(** [list.sort] is stable and compares with [<] only.  It is modelled by the
    insertion it performs on short lists: each element in turn goes into the
    sorted prefix, behind every element that is not greater than it. *)
Fixpoint insert_sorted (x : Meal) (sorted : list Meal) : list Meal :=
  match sorted with
  | [] => [x]
  | y :: sorted' => if meal_lt x y then x :: sorted else y :: insert_sorted x sorted'
  end.

Definition py_sort (l : list Meal) : list Meal :=
  fold_left (fun sorted x => insert_sorted x sorted) l [].

Definition default_max_ingredients : Z := 4.

(** The function returns [None] or a list; the first component of the result
    is the caller's [data] after the call, which the function has written to
    before anything can raise. *)
Definition find_best_meal (data : list Ingredient) (max_cost min_protein max_fat : Q)
    (excluded_tags : list string) (max_ingredients : Z)
  : list Ingredient * result (option (list Meal)) :=
  let '(stored, safe_ingredients) := safety_filter data excluded_tags in
  (stored,
   valid_meals ← collect max_cost min_protein max_fat (enumerate safe_ingredients max_ingredients);
   match valid_meals with
   | [] => Ok None
   | _ => Ok (Some (take 5 (py_sort valid_meals)))
   end).

(** ** app.py: the recipe filters *)

Definition legume_keywords : list string :=
  ["bean"; "beans"; "lentil"; "lentils"; "pea"; "peas"; "chickpea"; "chickpeas";
   "garbanzo"; "soy"; "soybean"; "edamame"; "black bean"; "kidney bean";
   "pinto bean"; "navy bean"; "lima bean"; "mung bean"].

Definition peanut_keywords : list string := ["peanut"; "peanuts"; "groundnut"].

Definition treenut_keywords : list string :=
  ["almond"; "almonds"; "walnut"; "walnuts"; "cashew"; "cashews"; "pecan"; "pecans";
   "hazelnut"; "hazelnuts"; "pistachio"; "pistachios"; "brazil nut"; "macadamia"].

Definition egg_keywords : list string :=
  ["egg"; "eggs"; "mayonnaise"; "mayo"; "egg white"; "egg yolk"].

Definition dairy_keywords : list string :=
  ["milk"; "cheese"; "butter"; "yogurt"; "cream"; "whey"; "casein"].

Definition wheat_keywords : list string :=
  ["wheat"; "flour"; "bread"; "pasta"; "noodle"; "noodles"; "cereal"].

Definition gluten_keywords : list string :=
  ["wheat"; "flour"; "bread"; "pasta"; "noodle"; "noodles"; "cereal"; "barley"; "rye"; "oats"].

Definition ALLERGY_KEYWORD_MAP : gmap string (list string) :=
  list_to_map
    [("legume", legume_keywords); ("legumes", legume_keywords);
     ("peanut", peanut_keywords); ("peanuts", peanut_keywords);
     ("treenut", treenut_keywords); ("treenuts", treenut_keywords);
     ("egg", egg_keywords); ("eggs", egg_keywords);
     ("dairy", dairy_keywords);
     ("wheat", wheat_keywords);
     ("gluten", gluten_keywords)].

(** [ALLERGY_KEYWORD_MAP.get(tag_lower, {tag_lower})], as the set that
    [keywords_to_check.update] adds. *)
Definition keywords_of_tag (tag : string) : gset string :=
  let tag_lower := Str.lower tag in
  match ALLERGY_KEYWORD_MAP !! tag_lower with
  | Some keywords => list_to_set keywords
  | None => {[tag_lower]}
  end.

(** The first loop of [check_recipe_allergens]. *)
Definition keywords_to_check (excluded_tags : list string) : gset string :=
  fold_left (fun keywords tag => keywords ∪ keywords_of_tag tag) excluded_tags ∅.

Definition check_recipe_allergens (recipe_ingredients excluded_tags : list string) : bool :=
  match excluded_tags with
  | [] => true
  | _ =>
      let keywords := keywords_to_check excluded_tags in
      negb (existsb (fun ingredient_line =>
                       let ingredient_lower := Str.lower ingredient_line in
                       existsb (fun keyword => Str.contains keyword ingredient_lower)
                         (elements keywords))
              recipe_ingredients)
  end.

Definition meat_poultry_tags : list string :=
  ["meat"; "poultry"; "beef"; "pork"; "sausage"; "chicken"; "turkey"; "lamb";
   "duck"; "goose"; "venison"; "bison"].

Definition fish_shellfish_tags : list string :=
  ["fish"; "shellfish"; "salmon"; "tuna"; "cod"; "haddock"; "mackerel"; "sardine";
   "anchovy"; "trout"; "bass"; "snapper"; "halibut"; "tilapia"; "sea bass"; "shrimp";
   "prawn"; "crab"; "lobster"; "scallop"; "mussel"; "oyster"; "clam"; "squid";
   "octopus"; "crayfish"; "caviar"].

Definition check_recipe_dietary (recipe_title : string) (recipe_ingredients : list string)
    (preference : string) : bool :=
  if String.eqb preference "none" then true
  else
    let all_ingredients_lower := Str.lower (Str.join " " recipe_ingredients) in
    let title_lower := Str.lower recipe_title in
    let conflict tags :=
      existsb (fun tag => Str.contains tag all_ingredients_lower || Str.contains tag title_lower) tags in
    if String.eqb preference "vegetarian" then
      negb (conflict (meat_poultry_tags ++ fish_shellfish_tags)%list)
    else if String.eqb preference "pescetarian" then
      negb (conflict meat_poultry_tags)
    else true.

(** ** api_utils.py *)

Module ApiUtils.

(** What [d.get(key)] finds in a JSON object: no such key, [null], or a
    value of the type the code goes on to use.  The responses are taken to
    be typed in this way. *)
Inductive field (A : Type) : Type :=
| Missing
| Null
| Val (a : A).

Arguments Missing {A}.
Arguments Null {A}.
Arguments Val {A} a.

(** An entry of a food's ["foodNutrients"] list. *)
Record Nutrient : Type := mkNutrient {
  nutrientName : field string;
  nutrientNumber : field string;
  value : field Q
}.

(** A food record of the search response. *)
Record Food : Type := mkFood {
  description : field string;
  foodNutrients : field (list Nutrient)
}.

(** The dictionary in the order its keys were inserted, which is the order
    [.items()] walks it in. *)
Definition ALLERGY_TAGGING_KEYWORDS : list (string * list string) :=
  [ ("legume", ["bean"; "lentil"; "pea"; "soy"; "chickpea"; "mung"]);
    ("treenut", ["almond"; "walnut"; "cashew"; "pecan"; "pistachio"; "hazelnut"; "macadamia"]);
    ("peanut", ["peanut"]);
    ("meat", ["meat"; "beef"; "pork"; "lamb"; "veal"; "venison"; "bison"]);
    ("poultry", ["chicken"; "turkey"; "duck"; "goose"; "quail"; "pheasant"]);
    ("fish", ["fish"; "salmon"; "tuna"; "cod"; "halibut"; "mackerel"; "sardine"; "anchovy";
              "trout"; "bass"; "snapper"]);
    ("shellfish", ["shrimp"; "prawn"; "crab"; "lobster"; "scallop"; "mussel"; "oyster"; "clam";
                   "squid"; "octopus"; "crayfish"]);
    ("dairy", ["milk"; "cheese"; "butter"; "yogurt"; "cream"; "whey"; "casein"]);
    ("egg", ["egg"; "eggs"; "mayonnaise"; "mayo"]);
    ("wheat", ["wheat"; "flour"; "bread"; "pasta"; "noodle"; "cereal"]);
    ("gluten", ["wheat"; "flour"; "bread"; "pasta"; "noodle"; "cereal"; "barley"; "rye"; "oats";
                "malt"]) ].

(** [nutrient.get("nutrientName") == nutrient_name] *)
Definition name_is (nutrient_name : string) (nutrient : Nutrient) : bool :=
  match nutrientName nutrient with
  | Val s => String.eqb s nutrient_name
  | _ => false
  end.

(** [nutrient.get("nutrientNumber") == number] *)
Definition number_is (number : string) (nutrient : Nutrient) : bool :=
  match nutrientNumber nutrient with
  | Val s => String.eqb s number
  | _ => false
  end.

(** [float(nutrient.get("value", 0.0))]; [None] when [float] raises. *)
Definition read_value (nutrient : Nutrient) : option Q :=
  match value nutrient with
  | Missing => Some 0
  | Null => None
  | Val q => Some q
  end.

(** The three searches of [extract_nutrient_value], each returning from the
    first entry that passes its test.  [None] is an exception of [float]. *)
Definition extract_nutrient_value (nutrients : list Nutrient) (nutrient_name : string)
  : option Q :=
  match List.find (name_is nutrient_name) nutrients with
  | Some nutrient => read_value nutrient
  | None =>
      match (if String.eqb nutrient_name "Protein"
             then List.find (number_is "203") nutrients else None) with
      | Some nutrient => read_value nutrient
      | None =>
          match (if String.eqb nutrient_name "Fat" || String.eqb nutrient_name "Total lipid"
                 then List.find (number_is "204") nutrients else None) with
          | Some nutrient => read_value nutrient
          | None => Some 0
          end
      end
  end.

(** The loop over the items of a keyword table. *)
Fixpoint tags_of_table (table : list (string * list string)) (food_lower : string)
  : list string :=
  match table with
  | [] => []
  | (allergen, keywords) :: table' =>
      if any_in keywords food_lower
      then allergen :: tags_of_table table' food_lower
      else tags_of_table table' food_lower
  end.

Definition assign_allergy_tags_simple (food_name : string) : list string :=
  let food_lower := Str.lower food_name in
  tags_of_table ALLERGY_TAGGING_KEYWORDS food_lower.

Definition estimate_ingredient_cost (name : string) (protein_g carbs_g fat_g : Q) : Q :=
  let name_lower := Str.lower name in
  if any_in ["rice"; "grain"; "cereal"; "oats"; "quinoa"] name_lower then 0.15
  else if any_in ["chicken"; "turkey"; "poultry"] name_lower then 0.75
  else if any_in ["beef"; "pork"; "lamb"; "meat"] name_lower then 1.20
  else if any_in ["fish"; "salmon"; "tuna"; "cod"] name_lower then 1.50
  else if any_in ["egg"; "eggs"] name_lower then 0.25
  else if any_in ["milk"; "cheese"; "dairy"] name_lower then 0.40
  else if any_in ["vegetable"; "tomato"; "onion"; "carrot"; "broccoli"] name_lower then 0.30
  else if any_in ["fruit"; "apple"; "banana"; "orange"; "berry"] name_lower then 0.50
  else if any_in ["nut"; "almond"; "walnut"; "peanut"] name_lower then 2.00
  else if any_in ["bean"; "lentil"; "soy"] name_lower then 0.20
  else 0.10 + protein_g * 0.02.

(** [None] is the function's [None]: returned for a blank name, and from the
    [except] clause when anything in the [try] block raised. *)
Definition process_and_tag_food_item_simple (food : Food) : option Ingredient :=
  match description food with
  | Null => None
  | (Missing | Val _) as d =>
      let name := Str.strip (match d with Val s => s | _ => "" end) in
      match name with
      | EmptyString => None
      | _ =>
          match foodNutrients food with
          | Null => None
          | (Missing | Val _) as ns =>
              let nutrients := match ns with Val l => l | _ => [] end in
              protein_g ← extract_nutrient_value nutrients "Protein";
              fat_g ← extract_nutrient_value nutrients "Fat";
              let allergy_tags := assign_allergy_tags_simple name in
              let cost_per_100g := estimate_ingredient_cost name protein_g 0.0 fat_g in
              Some {| name := name;
                      cost_per_100g := cost_per_100g;
                      protein_g := py_round protein_g 1;
                      carbs_g := 0.0;
                      fat_g := py_round fat_g 1;
                      allergy_tags := Some allergy_tags;
                      functional_tags := None |}
          end
      end
  end.

(** *** Retrying requests *)

(** What one pass through the [try] block of [fetch_with_backoff] comes to:
    a returned body, an exception of the [except] clause, a status other than
    200 that [raise_for_status] lets pass, or an exception that the clause
    does not list. *)
Inductive outcome (J : Type) : Type :=
| Response200 (body : J)
| RequestFailed
| OtherStatus
| Unhandled.

Arguments Response200 {J} body.
Arguments RequestFailed {J}.
Arguments OtherStatus {J}.
Arguments Unhandled {J}.

Inductive fetched (J : Type) : Type :=
| Returned (body : J)
| APIError
| Propagated.

Arguments Returned {J} body.
Arguments APIError {J}.
Arguments Propagated {J}.

(** What the function does to the outside: a request, or [time.sleep]. *)
Inductive event : Type :=
| Request (attempt : Z)
| Sleep (seconds : Z).

(** [range(1, max_retries + 1)] *)
Definition attempts (max_retries : Z) : list Z :=
  map Z.of_nat (seq 1 (Z.to_nat max_retries)).

(** The loop of [fetch_with_backoff] over the attempts still to make;
    [reply attempt] is what the request of that attempt meets. *)
Fixpoint backoff_loop {J : Type} (reply : Z -> outcome J) (max_retries : Z)
    (todo : list Z) : list event * fetched J :=
  match todo with
  | [] => ([], APIError)
  | attempt :: todo' =>
      match reply attempt with
      | Response200 body => ([Request attempt], Returned body)
      | Unhandled => ([Request attempt], Propagated)
      | OtherStatus =>
          let '(trace, r) := backoff_loop reply max_retries todo' in
          (Request attempt :: trace, r)
      | RequestFailed =>
          if (attempt =? max_retries)%Z then ([Request attempt], APIError)
          else
            let delay := (2 ^ (attempt - 1))%Z in
            let '(trace, r) := backoff_loop reply max_retries todo' in
            (Request attempt :: Sleep delay :: trace, r)
      end
  end.

Definition fetch_with_backoff {J : Type} (reply : Z -> outcome J) (max_retries : Z)
  : list event * fetched J :=
  backoff_loop reply max_retries (attempts max_retries).

(** The seconds slept in a trace. *)
Fixpoint slept (trace : list event) : Z :=
  match trace with
  | [] => 0
  | Sleep seconds :: trace' => (seconds + slept trace')%Z
  | Request _ :: trace' => slept trace'
  end.

Fixpoint requests (trace : list event) : nat :=
  match trace with
  | [] => 0
  | Request _ :: trace' => S (requests trace')
  | Sleep _ :: trace' => requests trace'
  end.

(** A search response: [api_response.get("foods", [])]. *)
Record SearchResponse : Type := mkSearchResponse {
  foods : field (list Food)
}.

Definition MEAT_QUERIES : list string :=
  ["chicken beef pork turkey"; "rice wheat flour oats"; "egg dairy milk cheese"].

(** The loop over the foods of one response; the result is
    [(all_ingredients, total_fetched)] when the loop is left. *)
Fixpoint take_foods (todo : list Food) (all_ingredients : list Ingredient)
    (total_fetched : nat) : list Ingredient * nat :=
  match todo with
  | [] => (all_ingredients, total_fetched)
  | food :: todo' =>
      match process_and_tag_food_item_simple food with
      | Some ingredient =>
          let all_ingredients := (all_ingredients ++ [ingredient])%list in
          let total_fetched := (total_fetched + 1)%nat in
          if (150 <=? total_fetched)%nat then (all_ingredients, total_fetched)
          else take_foods todo' all_ingredients total_fetched
      | None => take_foods todo' all_ingredients total_fetched
      end
  end.

(** The loop over the queries; [reply i attempt] is what the request of
    that attempt for the [i]-th query meets.  [None] is the [APIError] that
    the [except] clause raises for whatever went wrong. *)
Fixpoint query_loop (reply : nat -> Z -> outcome SearchResponse) (i : nat)
    (queries : list string) (all_ingredients : list Ingredient) (total_fetched : nat)
  : option (list Ingredient) :=
  match queries with
  | [] => Some all_ingredients
  | query :: queries' =>
      match snd (fetch_with_backoff (reply i) 3) with
      | Returned api_response =>
          let '(all_ingredients, total_fetched) :=
            match foods api_response with
            | Val (food :: fs) => take_foods (food :: fs) all_ingredients total_fetched
            | _ => (all_ingredients, total_fetched)
            end in
          if (150 <=? total_fetched)%nat then Some all_ingredients
          else query_loop reply (S i) queries' all_ingredients total_fetched
      | _ => None
      end
  end.

(** The ["data"] of the returned dictionary, or [None] for [APIError]. *)
Definition fetch_paginated_data (reply : nat -> Z -> outcome SearchResponse)
  : option (list Ingredient) :=
  query_loop reply 1 MEAT_QUERIES [] 0.

End ApiUtils.

(** ** recipe_utils.py *)

(** [s.split(sep)] for a non-empty [sep]: the separators are found from
    the left and do not overlap.  [skip] counts the characters of a separator
    that was just found and are still to be passed over. *)
Fixpoint split_from (sep : string) (skip : nat) (s : string) {struct s} : list string :=
  match s with
  | EmptyString => [EmptyString]
  | String c s' =>
      match skip with
      | S k => split_from sep k s'
      | O =>
          if Str.startswith sep s
          then EmptyString :: split_from sep (String.length sep - 1) s'
          else
            match split_from sep 0 s' with
            | piece :: pieces => String c piece :: pieces
            | [] => [String c EmptyString]
            end
      end
  end.

Definition split (sep s : string) : list string := split_from sep 0 s.

Module RecipeUtils.

Import ApiUtils.

(** A meal of TheMealDB, as [filter.php] and [lookup.php] give it;
    [strIngredient i] and [strMeasure i] are the keys [strIngredient1] to
    [strIngredient20] and [strMeasure1] to [strMeasure20]. *)
Record MealJson : Type := mkMealJson {
  idMeal : field string;
  strMeal : field string;
  strInstructions : field string;
  strMealThumb : field string;
  strIngredient : nat -> field string;
  strMeasure : nat -> field string
}.

(** What a request comes to: an exception inside the [try] block (of
    [requests], of [raise_for_status], of [response.json()]), or the value
    of ['meals'] in the body. *)
Inductive outcome : Type :=
| Failed
| Answered (meals : field (list MealJson)).

(** [None] is [RecipeAPIError]. *)
Definition search_recipes_by_ingredient (reply : string -> outcome) (ingredient : string)
  : option (list MealJson) :=
  match reply (Str.lower (Str.strip ingredient)) with
  | Failed => None
  | Answered (Val (meal :: meals)) => Some (take 10 (meal :: meals))
  | Answered _ => Some []
  end.

(** The dictionary that [get_recipe_details] returns. *)
Record Details : Type := mkDetails {
  id : field string;
  title : field string;
  instructions : list string;
  ingredients : list string;
  thumbnail : field string
}.

(** The loop over [range(1, 21)]; [None] is the [AttributeError] of
    [measure.strip()] when the measure is no string. *)
Fixpoint ingredient_loop (meal : MealJson) (todo : list nat) (ingredients : list string)
  : option (list string) :=
  match todo with
  | [] => Some ingredients
  | i :: todo' =>
      match strIngredient meal i with
      | Val ingredient =>
          match Str.strip ingredient with
          | EmptyString => Some ingredients
          | _ =>
              match strMeasure meal i with
              | Val measure =>
                  ingredient_loop meal todo'
                    (ingredients ++ [Str.strip measure +:+ " " +:+ Str.strip ingredient])
              | _ => None
              end
          end
      | _ => Some ingredients
      end
  end.

(** [None] is the function's [None]: returned when there is no meal, and
    from the two [except] clauses. *)
Definition get_recipe_details (reply : outcome) : option Details :=
  match reply with
  | Failed => None
  | Answered meal_details =>
      match meal_details with
      | Val (meal :: _) =>
          ingredients ← ingredient_loop meal (seq 1 20) [];
          instructions ← match strInstructions meal with
                         | Missing => Some (split (String "013" (String "010" "")) "")
                         | Val s => Some (split (String "013" (String "010" "")) s)
                         | Null => None
                         end;
          Some {| id := idMeal meal;
                  title := strMeal meal;
                  instructions := instructions;
                  ingredients := ingredients;
                  thumbnail := strMealThumb meal |}
      | _ => None
      end
  end.

End RecipeUtils.

(** ** app.py: the route [/meal/suggest] *)

Module App.

Import ApiUtils.

(** [[a.strip().lower() for a in additional_allergies.split(',') if a.strip()]] *)
Definition user_allergies (additional_allergies : string) : list string :=
  map (fun a => Str.lower (Str.strip a))
    (List.filter (fun a => match Str.strip a with EmptyString => false | _ => true end)
       (split "," additional_allergies)).

(** What one pass through the [try] block of [generate_enhanced_recipe]
    comes to: any exception, or the parsed answer with what it has under
    ["enhanced_instructions"], if anything. *)
Inductive llm_outcome : Type :=
| LlmFailed
| LlmAnswered (enhanced_instructions : option (list string)).

Inductive llm_event : Type :=
| Post (attempt : Z)
| Sleep (seconds : Z).

Definition max_retries : Z := 3.

(** The loop of [generate_enhanced_recipe] over the attempts still to make;
    the result is the title and the instructions of the returned dictionary. *)
Fixpoint enhance_loop (reply : Z -> llm_outcome) (recipe_details : RecipeUtils.Details)
    (todo : list Z) : list llm_event * (field string * list string) :=
  let original_title := RecipeUtils.title recipe_details in
  match todo with
  | [] => ([], (original_title, RecipeUtils.instructions recipe_details))
  | attempt :: todo' =>
      match reply attempt with
      | LlmAnswered enhanced_instructions =>
          ([Post attempt],
           (original_title,
            default (RecipeUtils.instructions recipe_details) enhanced_instructions))
      | LlmFailed =>
          if (attempt <? max_retries - 1)%Z then
            let delay := (2 ^ attempt)%Z in
            let '(trace, r) := enhance_loop reply recipe_details todo' in
            (Post attempt :: Sleep delay :: trace, r)
          else ([Post attempt], (original_title, RecipeUtils.instructions recipe_details))
      end
  end.

(** [range(max_retries)] *)
Definition generate_enhanced_recipe (reply : Z -> llm_outcome)
    (recipe_details : RecipeUtils.Details)
  : list llm_event * (field string * list string) :=
  enhance_loop reply recipe_details (map Z.of_nat (seq 0 (Z.to_nat max_retries))).

(** A dictionary of the list [safe_and_enhanced_recipes]. *)
Record Recipe : Type := mkRecipe {
  title : field string;
  ingredients : list string;
  instructions : list string;
  thumbnail : field string
}.

(** [check_recipe_dietary(details['title'], ...)]: [None] is the
    [AttributeError] of [recipe_title.lower()] for a title that is no
    string, which the preference ['none'] never reaches. *)
Definition check_details_dietary (details : RecipeUtils.Details) (dietary_preference : string)
  : option bool :=
  match RecipeUtils.title details with
  | Val recipe_title =>
      Some (check_recipe_dietary recipe_title (RecipeUtils.ingredients details)
              dietary_preference)
  | _ => if String.eqb dietary_preference "none" then Some true else None
  end.

(** Step 3, the loop over [potential_recipes]; [i] counts the summaries
    passed, [lookup i] is what the request for the details of summary [i]
    meets and [llm i] what the requests to enhance it meet.  [None] is an
    exception, which the route answers with status 500. *)
Fixpoint filter_loop (lookup : nat -> RecipeUtils.outcome) (llm : nat -> Z -> llm_outcome)
    (excluded_tags : list string) (dietary_preference : string)
    (i : nat) (todo : list RecipeUtils.MealJson) (safe_and_enhanced_recipes : list Recipe)
  : option (list Recipe) :=
  match todo with
  | [] => Some safe_and_enhanced_recipes
  | recipe_summary :: todo' =>
      let continue :=
        filter_loop lookup llm excluded_tags dietary_preference (S i) todo'
          safe_and_enhanced_recipes in
      match RecipeUtils.idMeal recipe_summary with
      | Val (String _ _) =>
          match RecipeUtils.get_recipe_details (lookup i) with
          | None => continue
          | Some details =>
              if negb (check_recipe_allergens (RecipeUtils.ingredients details) excluded_tags)
              then continue
              else
                match check_details_dietary details dietary_preference with
                | None => None
                | Some false => continue
                | Some true =>
                    let enhanced_recipe := snd (generate_enhanced_recipe (llm i) details) in
                    let safe_and_enhanced_recipes :=
                      (safe_and_enhanced_recipes
                       ++ [ {| title := fst enhanced_recipe;
                               ingredients := RecipeUtils.ingredients details;
                               instructions := snd enhanced_recipe;
                               thumbnail := RecipeUtils.thumbnail details |} ])%list in
                    if (5 <=? length safe_and_enhanced_recipes)%nat
                    then Some safe_and_enhanced_recipes
                    else filter_loop lookup llm excluded_tags dietary_preference (S i) todo'
                           safe_and_enhanced_recipes
                end
          end
      | _ => continue
      end
  end.

(** The JSON body of the request, when it is a non-empty object. *)
Record Request : Type := mkRequest {
  additional_allergies : field string;
  available_ingredients : field string;
  dietary_preference : field string
}.

(** The answers of the route: status 400; "No recipes found for your main
    ingredient."; the recipes; "Found recipes, but none matched your
    allergy/diet filters."; status 503; status 500. *)
Inductive response : Type :=
| BadRequest
| NoRecipesFound
| Suggested (recipes : list Recipe)
| NoneMatched
| RecipeApiFailed
| Unexpected.

(** Step 2: the search; [None] is [RecipeAPIError]. *)
Definition potential_recipes (search : string -> RecipeUtils.outcome)
    (available_ingredients_str : field string) : option (list RecipeUtils.MealJson) :=
  match available_ingredients_str with
  | Val (String c s) =>
      let first_ingredient := Str.strip (Str.split_head "," (String c s)) in
      match first_ingredient with
      | EmptyString => Some []
      | _ => RecipeUtils.search_recipes_by_ingredient search first_ingredient
      end
  | _ => RecipeUtils.search_recipes_by_ingredient search "chicken"
  end.

(** [data] is [None] when [request.get_json()] gives nothing or an empty
    object. *)
Definition suggest_recipe (search : string -> RecipeUtils.outcome)
    (lookup : nat -> RecipeUtils.outcome) (llm : nat -> Z -> llm_outcome)
    (data : option Request) : response :=
  match data with
  | None => BadRequest
  | Some data =>
      match additional_allergies data, dietary_preference data with
      | Null, _ | _, Null => BadRequest
      | allergies, preference =>
          let additional_allergies := match allergies with Val s => s | _ => "" end in
          let dietary_preference :=
            Str.lower (match preference with Val s => s | _ => "none" end) in
          let excluded_tags := user_allergies additional_allergies in
          match potential_recipes search (available_ingredients data) with
          | None => RecipeApiFailed
          | Some [] => NoRecipesFound
          | Some potential_recipes =>
              match filter_loop lookup llm excluded_tags dietary_preference 0
                      potential_recipes [] with
              | None => Unexpected
              | Some [] => NoneMatched
              | Some safe_and_enhanced_recipes => Suggested safe_and_enhanced_recipes
              end
          end
      end
  end.

End App.

(** ** Vocabulary of the specification *)

(** [kw] occurs in [s] as a substring. *)
Definition occurs_in (kw s : string) : Prop :=
  exists pre post, s = pre +:+ kw +:+ post.

(** [a] may stand before [b] in the ranking: more diverse, or as diverse
    with more protein, or the same on both and not dearer. *)
Definition ranks_no_later (a b : Meal) : Prop :=
  (diversity_score b < diversity_score a)%nat \/
  (diversity_score a = diversity_score b /\
   (total_protein_g b < total_protein_g a \/
    (total_protein_g a == total_protein_g b /\ total_cost a <= total_cost b))).

(** [a] and [b] have equal sort keys. *)
Definition same_rank (a b : Meal) : bool :=
  negb (meal_lt a b) && negb (meal_lt b a).

(** The record carries functional tags. *)
Definition tagged (item : Ingredient) : Prop := functional_tags item <> None.

(** The combination passes the duplicate check, the diversity floor and the
    three thresholds, so that the loop body goes on to build its record. *)
Definition survives (max_cost min_protein max_fat : Q) (combo : list Ingredient) : bool :=
  match scan_combo combo ∅ ∅ with
  | Ok (Some tags) =>
      (2 <=? size tags)%nat
      && Qle_bool (py_sum cost_per_100g combo) max_cost
      && Qle_bool min_protein (py_sum protein_g combo)
      && Qle_bool (py_sum fat_g combo) max_fat
  | _ => false
  end.

(** What the safety filter leaves in the caller's record. *)
Definition after_filter (excluded_tags : list string) (ingredient : Ingredient) : Ingredient :=
  if is_safe excluded_tags ingredient
  then set_functional_tags ingredient (get_functional_tags (name ingredient))
  else ingredient.

(** ** Catalogs used in the examples *)

(** The four-ingredient catalog of the specification's example. *)
Definition example_catalog : list Ingredient :=
  [ mkIngredient "Rice" 0.10 7.1 80.0 0.7 (Some []) None;
    mkIngredient "Egg" 0.25 12.6 1.1 9.5 (Some ["egg"]) None;
    mkIngredient "Chicken" 0.75 31 0 3.6 (Some ["poultry"; "meat"]) None;
    mkIngredient "Tomato" 0.08 0.9 3.9 0.2 (Some []) None ].

(** Two ingredients whose totals sit just inside the thresholds
    [max_cost = 255/256], [min_protein = 481/32], [max_fat = 31/32]; every
    number is a binary fraction. *)
Definition rounding_catalog : list Ingredient :=
  [ mkIngredient "Rice" (1 # 2) 15 80 (1 # 2) (Some []) None;
    mkIngredient "Egg" (127 # 256) (1 # 32) 1 (15 # 32) (Some []) None ].

(** A dish that is both a starch and a protein, next to a second protein. *)
Definition two_protein_catalog : list Ingredient :=
  [ mkIngredient "Chicken Rice" 0.30 10 20 2 (Some []) None;
    mkIngredient "Egg" 0.25 12.6 1.1 9.5 (Some ["egg"]) None ].

(** A catalog with a name that is all noise. *)
Definition noise_name_catalog : list Ingredient :=
  [ mkIngredient ", raw" 0.10 7.1 80.0 0.7 (Some []) None;
    mkIngredient "Egg" 0.25 12.6 1.1 9.5 (Some ["egg"]) None ].

(** What [find_best_meal] returns on [example_catalog] with [max_cost = 1.0],
    [min_protein = 15], [max_fat = 15], nothing excluded and at most three
    ingredients. *)
Definition example_result : list Meal :=
  [ mkMeal ["Rice"; "Chicken"; "Tomato"] (93 # 100) 39 (9 # 2) 3 3;
    mkMeal ["Rice"; "Egg"; "Tomato"] (43 # 100) (103 # 5) (52 # 5) 3 3;
    mkMeal ["Rice"; "Chicken"] (17 # 20) (381 # 10) (43 # 10) 2 2;
    mkMeal ["Chicken"; "Tomato"] (83 # 100) (319 # 10) (19 # 5) 2 2;
    mkMeal ["Rice"; "Egg"] (7 # 20) (197 # 10) (51 # 5) 2 2 ].

(** The combination named by a record consists of exactly these names, in
    any order. *)
Definition is_combination_of (names : list string) (meal : Meal) : Prop :=
  Permutation (ingredients meal) names.

(** ** The name cleaner as the specification words it *)




(** No whitespace and no comma in [s]. *)
Fixpoint plain (s : string) : bool :=
  match s with
  | EmptyString => true
  | String c s' => negb (Str.isspace c) && negb (Ascii.eqb c ",") && plain s'
  end.

(** A non-empty run of characters without whitespace or comma. *)
Definition plain_word (s : string) : Prop := s <> "" /\ plain s = true.


(** The loop of [clean_ingredient_name] over all noise terms. *)
Definition strip_all (cleaned_name : string) : string :=
  fold_left strip_term replacements cleaned_name.

(** What [strip_term] looks for begins with a space or a comma. *)
Definition fragment (old : string) : Prop :=
  exists o old', old = String o old' /\ (o = " "%char \/ o = ","%char).

(** The role the duplicate check counts a member under: a member tagged
    Starch counts as the starch whether or not it is tagged Protein too. *)
Definition macro_role (tags : gset string) : option string :=
  if bool_decide ("Starch" ∈ tags) then Some "Starch"
  else if bool_decide ("Protein" ∈ tags) then Some "Protein"
  else None.

Definition roles (combo : list Ingredient) : list string :=
  omap (fun item => functional_tags item ≫= macro_role) combo.

(** ** Further vocabulary *)

(** The four keyword groups of [get_functional_tags], each under its tag. *)
Definition functional_groups : list (string * list string) :=
  [ ("Protein", ["chicken"; "turkey"; "fish"; "pork"; "beef"; "lamb"; "egg"; "tofu"; "seitan"]);
    ("Starch", ["rice"; "flour"; "pasta"; "noodle"; "bread"; "oats"; "potato"; "quinoa"; "starch"]);
    ("Fat/Dairy", ["oil"; "butter"; "cream"; "cheese"; "fat"; "margarine"]);
    ("Produce", ["tomato"; "onion"; "garlic"; "carrot"; "pepper"; "broccoli"; "spinach"; "fruit"]) ].

(** A keyword of the group of [tag] occurs in the lower-cased name. *)
Definition group_matches (tag name : string) : Prop :=
  exists words word,
    In (tag, words) functional_groups /\ In word words /\ occurs_in word (Str.lower name).

(** The record as the safety filter hands it on. *)
Definition with_tags (r : Ingredient) : Ingredient :=
  set_functional_tags r (get_functional_tags (name r)).

(** The record without what [find_best_meal] writes into it. *)
Definition forget_tags (r : Ingredient) : Ingredient :=
  {| name := name r;
     cost_per_100g := cost_per_100g r;
     protein_g := protein_g r;
     carbs_g := carbs_g r;
     fat_g := fat_g r;
     allergy_tags := allergy_tags r;
     functional_tags := None |}.

(** The five functional tags. *)
Definition all_functional_tags : gset string :=
  {["Protein"; "Starch"; "Fat/Dairy"; "Produce"; "Other"]}.

(** The name begins with a character that is neither whitespace nor a comma. *)
Definition starts_plain (s : string) : bool :=
  match s with
  | EmptyString => false
  | String c _ => negb (Str.isspace c) && negb (Ascii.eqb c ",")
  end.

(** The first character of the name that is not whitespace exists and is
    no comma. *)
Definition well_named (name : string) : bool := starts_plain (Str.lstrip name).

(** The list that [food.get("foodNutrients", [])] gives when it is one. *)
Definition nutrients_of (food : ApiUtils.Food) : list ApiUtils.Nutrient :=
  match ApiUtils.foodNutrients food with
  | ApiUtils.Val l => l
  | _ => []
  end.

(** The list that [api_response.get("foods", [])] gives when it is one. *)
Definition foods_of (response : ApiUtils.SearchResponse) : list ApiUtils.Food :=
  match ApiUtils.foods response with
  | ApiUtils.Val l => l
  | _ => []
  end.

(** The events of the attempts before [attempt] when each of them failed
    with an exception of the [except] clause: a request and the sleep after. *)
Definition failed_rounds (attempt : Z) : list ApiUtils.event :=
  flat_map (fun j => [ApiUtils.Request j; ApiUtils.Sleep (2 ^ (j - 1))%Z])
    (ApiUtils.attempts (attempt - 1)).

(** The ingredients made of the foods of the responses to the queries 1 to
    [k], in the order of the queries and of the foods in each response. *)
Definition accepted_from (response : nat -> ApiUtils.SearchResponse) (k : nat)
  : list Ingredient :=
  omap ApiUtils.process_and_tag_food_item_simple
    (concat (map (fun i => foods_of (response i)) (seq 1 k))).

(** The string that a field holds, the empty string when it holds none. *)
Definition text (f : ApiUtils.field string) : string :=
  match f with
  | ApiUtils.Val s => s
  | _ => ""
  end.

Definition is_text (f : ApiUtils.field string) : bool :=
  match f with
  | ApiUtils.Val _ => true
  | _ => false
  end.

(** The [i]-th ingredient of the meal is a string with more than whitespace. *)
Definition named (meal : RecipeUtils.MealJson) (i : nat) : bool :=
  match Str.strip (text (RecipeUtils.strIngredient meal i)) with
  | EmptyString => false
  | _ => true
  end.

(** The line made of the [i]-th measure and ingredient. *)
Definition ingredient_line (meal : RecipeUtils.MealJson) (i : nat) : string :=
  Str.strip (text (RecipeUtils.strMeasure meal i)) +:+ " "
  +:+ Str.strip (text (RecipeUtils.strIngredient meal i)).

(** The seconds slept in a trace of [generate_enhanced_recipe], and its
    requests. *)
Fixpoint llm_slept (trace : list App.llm_event) : Z :=
  match trace with
  | [] => 0
  | App.Sleep seconds :: trace' => (seconds + llm_slept trace')%Z
  | App.Post _ :: trace' => llm_slept trace'
  end.

Fixpoint llm_posts (trace : list App.llm_event) : nat :=
  match trace with
  | [] => 0
  | App.Post _ :: trace' => S (llm_posts trace')
  | App.Sleep _ :: trace' => llm_posts trace'
  end.

(** The dietary preference that the route works with. *)
Definition preference_of (data : App.Request) : string :=
  Str.lower (match App.dietary_preference data with
             | ApiUtils.Val s => s
             | _ => "none"
             end).

(** The recipe was made from the details of one of the first [n] summaries
    and passes both filters. *)
Definition safe_recipe (lookup : nat -> RecipeUtils.outcome) (excluded_tags : list string)
    (preference : string) (n : nat) (recipe : App.Recipe) : Prop :=
  check_recipe_allergens (App.ingredients recipe) excluded_tags = true /\
  (forall line tag keyword,
      In line (App.ingredients recipe) -> In tag excluded_tags ->
      keyword ∈ keywords_of_tag tag -> ~ occurs_in keyword (Str.lower line)) /\
  (forall recipe_title,
      App.title recipe = ApiUtils.Val recipe_title ->
      check_recipe_dietary recipe_title (App.ingredients recipe) preference = true) /\
  exists i details,
    (i < n)%nat /\
    RecipeUtils.get_recipe_details (lookup i) = Some details /\
    App.title recipe = RecipeUtils.title details /\
    App.ingredients recipe = RecipeUtils.ingredients details /\
    App.thumbnail recipe = RecipeUtils.thumbnail details.

(** * Properties *)

(** ** Strings *)

Section StringFacts.

Lemma app_nil_str (s : string) : "" +:+ s = s.
Proof. reflexivity. Qed.

Lemma app_cons_str (c : ascii) (a b : string) : String c a +:+ b = String c (a +:+ b).
Proof. reflexivity. Qed.

Lemma app_assoc_str (a b c : string) : (a +:+ b) +:+ c = a +:+ (b +:+ c).
Proof.
  induction a as [|x a IH]; [reflexivity|].
  now rewrite !app_cons_str, IH.
Qed.

Lemma app_empty_str (a : string) : a +:+ "" = a.
Proof.
  induction a as [|x a IH]; [reflexivity|].
  now rewrite app_cons_str, IH.
Qed.

Lemma startswith_nil (s : string) : Str.startswith "" s = true.
Proof. now destruct s. Qed.

Lemma startswith_cons (a b : ascii) (p s : string) :
  Str.startswith (String a p) (String b s) = Ascii.eqb a b && Str.startswith p s.
Proof. simpl. now destruct (Ascii.eqb a b). Qed.

Lemma startswith_spec (p s : string) :
  Str.startswith p s = true <-> exists post, s = p +:+ post.
Proof.
  revert s; induction p as [|a p IH]; intros s.
  - rewrite startswith_nil. split; [intros _; now exists s | reflexivity].
  - destruct s as [|b s].
    + split; [discriminate | intros [post H]; discriminate].
    + rewrite startswith_cons, andb_true_iff, IH.
      destruct (Ascii.eqb_spec a b) as [->|Hne].
      * split; [intros [_ [post H]] | intros [post H]]; [exists post | split; [reflexivity|exists post]].
        -- now rewrite app_cons_str, H.
        -- rewrite app_cons_str in H. now inversion H.
      * split; [intros [H _]; discriminate | intros [post H]].
        rewrite app_cons_str in H. inversion H. congruence.
Qed.

Lemma contains_spec (kw s : string) :
  Str.contains kw s = true <-> occurs_in kw s.
Proof.
  unfold occurs_in. induction s as [|c s IH].
  - cbn [Str.contains]. rewrite orb_false_r, startswith_spec. split.
    + intros [post H]. now exists "", post.
    + intros [pre [post H]]. destruct pre; [now exists post | discriminate].
  - cbn [Str.contains]. rewrite orb_true_iff, IH, startswith_spec. split.
    + intros [[post H] | [pre [post H]]].
      * now exists "", post.
      * exists (String c pre), post. now rewrite app_cons_str, H.
    + intros [pre [post H]]. destruct pre as [|x pre].
      * left. now exists post.
      * right. rewrite app_cons_str in H. inversion H. now exists pre, post.
Qed.

Lemma lower_app (a b : string) : Str.lower (a +:+ b) = Str.lower a +:+ Str.lower b.
Proof.
  induction a as [|x a IH]; [reflexivity|].
  rewrite app_cons_str. simpl. now rewrite app_cons_str, IH.
Qed.

(** An occurrence survives lower-casing. *)
Lemma occurs_in_lower (kw s : string) :
  occurs_in kw s -> occurs_in (Str.lower kw) (Str.lower s).
Proof.
  intros [pre [post ->]]. exists (Str.lower pre), (Str.lower post).
  now rewrite !lower_app.
Qed.

End StringFacts.

(** ** The recipe filters *)

Section RecipeFilters.

Lemma elem_of_keywords_fold (excluded : list string) (acc : gset string) (kw : string) :
  kw ∈ fold_left (fun keywords tag => keywords ∪ keywords_of_tag tag) excluded acc <->
  kw ∈ acc \/ exists tag, In tag excluded /\ kw ∈ keywords_of_tag tag.
Proof.
  revert acc; induction excluded as [|t excluded IH]; intros acc; simpl.
  - split; [now left | intros [H | [tag [[] _]]]; exact H].
  - rewrite IH, elem_of_union. split.
    + intros [[H | H] | [tag [Hin H]]]; [now left | right; exists t; auto | right; exists tag; auto].
    + intros [H | [tag [[-> | Hin] H]]]; [now left; left | now left; right | right; exists tag; auto].
Qed.

Lemma elem_of_keywords_to_check (excluded : list string) (kw : string) :
  kw ∈ keywords_to_check excluded <->
  exists tag, In tag excluded /\ kw ∈ keywords_of_tag tag.
Proof.
  unfold keywords_to_check. rewrite elem_of_keywords_fold.
  split; [intros [H | H]; [set_solver | exact H] | now right].
Qed.

(** The filter rejects exactly when a keyword of an excluded tag occurs in
    a lower-cased ingredient line. *)
Lemma check_recipe_allergens_false (lines excluded : list string) :
  check_recipe_allergens lines excluded = false <->
  exists line tag kw,
    In line lines /\ In tag excluded /\ kw ∈ keywords_of_tag tag /\
    occurs_in kw (Str.lower line).
Proof.
  unfold check_recipe_allergens. destruct excluded as [|t excluded].
  - split; [discriminate | intros [_ [_ [_ [_ [[] _]]]]]].
  - rewrite negb_false_iff, existsb_exists. split.
    + intros [line [Hline H]]. apply existsb_exists in H as [kw [Hkw H]].
      apply list_elem_of_In, elem_of_elements, elem_of_keywords_to_check in Hkw
        as [tag [Htag Hkw]].
      apply contains_spec in H. now exists line, tag, kw.
    + intros [line [tag [kw [Hline [Htag [Hkw H]]]]]].
      exists line. split; [exact Hline|]. apply existsb_exists. exists kw. split.
      * apply list_elem_of_In, elem_of_elements, elem_of_keywords_to_check. now exists tag.
      * now apply contains_spec.
Qed.

Lemma keywords_of_dairy (tag : string) :
  Str.lower tag = "dairy" -> keywords_of_tag tag = list_to_set dairy_keywords.
Proof. unfold keywords_of_tag. now intros ->. Qed.

Lemma keywords_of_unknown (tag : string) :
  ALLERGY_KEYWORD_MAP !! Str.lower tag = None -> keywords_of_tag tag = {[Str.lower tag]}.
Proof. unfold keywords_of_tag. now intros ->. Qed.

Lemma conflict_spec (tags : list string) (body title : string) :
  existsb (fun tag => Str.contains tag body || Str.contains tag title) tags = true <->
  exists tag, In tag tags /\ (occurs_in tag body \/ occurs_in tag title).
Proof.
  rewrite existsb_exists.
  split; intros [tag [Hin H]]; exists tag; (split; [exact Hin|]).
  - apply orb_true_iff in H. now rewrite <- !contains_spec.
  - apply orb_true_iff. now rewrite !contains_spec.
Qed.

End RecipeFilters.

(** C7.  With the excluded tag "dairy" the allergen filter answers false
    exactly when one of milk, cheese, butter, yogurt, cream, whey, casein
    occurs in a lower-cased ingredient line; whatever other tags come with
    it, such a line is rejected; and a tag that is no key of the keyword
    table contributes its own lower-cased text as the only keyword. *)
Theorem check_recipe_allergens_dairy_and_fallback :
  (forall lines : list string,
      check_recipe_allergens lines ["dairy"] = false <->
      exists line kw,
        In line lines /\ In kw dairy_keywords /\ occurs_in kw (Str.lower line))
  /\
  (forall (lines excluded : list string) (tag line kw : string),
      In tag excluded -> Str.lower tag = "dairy" ->
      In line lines -> In kw dairy_keywords -> occurs_in kw (Str.lower line) ->
      check_recipe_allergens lines excluded = false)
  /\
  (forall tag : string,
      ALLERGY_KEYWORD_MAP !! Str.lower tag = None ->
      keywords_of_tag tag = {[Str.lower tag]} /\
      keywords_to_check [tag] = {[Str.lower tag]} /\
      forall lines : list string,
        check_recipe_allergens lines [tag] = false <->
        exists line, In line lines /\ occurs_in (Str.lower tag) (Str.lower line)).
Proof.
  split; [|split].
  - intros lines. rewrite check_recipe_allergens_false. split.
    + intros [line [tag [kw [Hline [[<- | []] [Hkw H]]]]]].
      rewrite keywords_of_dairy in Hkw by reflexivity.
      apply elem_of_list_to_set, list_elem_of_In in Hkw. now exists line, kw.
    + intros [line [kw [Hline [Hkw H]]]]. exists line, "dairy", kw.
      repeat split; [exact Hline | now left | | exact H].
      rewrite keywords_of_dairy by reflexivity.
      now apply elem_of_list_to_set, list_elem_of_In.
  - intros lines excluded tag line kw Htag Hlow Hline Hkw H.
    apply check_recipe_allergens_false. exists line, tag, kw.
    repeat split; try assumption.
    rewrite (keywords_of_dairy _ Hlow). now apply elem_of_list_to_set, list_elem_of_In.
  - intros tag Hnone. split; [now apply keywords_of_unknown|]. split.
    + unfold keywords_to_check. simpl. rewrite (keywords_of_unknown _ Hnone).
      apply (left_id_L ∅ (∪)).
    + intros lines. rewrite check_recipe_allergens_false. split.
      * intros [line [tag' [kw [Hline [[<- | []] [Hkw H]]]]]].
        rewrite (keywords_of_unknown _ Hnone) in Hkw.
        apply elem_of_singleton in Hkw as ->. now exists line.
      * intros [line [Hline H]]. exists line, tag, (Str.lower tag).
        repeat split; [exact Hline | now left | | exact H].
        rewrite (keywords_of_unknown _ Hnone). now apply elem_of_singleton.
Qed.

Lemma check_recipe_allergens_dairy_and_fallback_witness :
  check_recipe_allergens ["200ml Whole Milk"; "2 Eggs"] ["Dairy"; "soy"] = false
  /\ keywords_of_tag "Sesame" = {["sesame"]}.
Proof.
  split.
  - apply (proj1 (proj2 check_recipe_allergens_dairy_and_fallback)
             ["200ml Whole Milk"; "2 Eggs"] ["Dairy"; "soy"] "Dairy" "200ml Whole Milk" "milk").
    + simpl; auto.
    + reflexivity.
    + simpl; auto.
    + simpl; auto.
    + exists "200ml whole ", "". reflexivity.
  - apply (proj2 (proj2 check_recipe_allergens_dairy_and_fallback) "Sesame").
    vm_compute. reflexivity.
Defined.

(** C8.  A vegetarian check rejects any recipe with "chicken" in its title,
    in its lower-cased title or in its lower-cased joined ingredient lines,
    whatever else they hold; once "chicken" is replaced by "salmon" and no
    meat or poultry keyword is left, the pescetarian check accepts; the
    preference none accepts everything. *)
Theorem check_recipe_dietary_preferences :
  (forall (title : string) (lines : list string),
      occurs_in "chicken" title \/
      occurs_in "chicken" (Str.lower title) \/
      occurs_in "chicken" (Str.lower (Str.join " " lines)) ->
      check_recipe_dietary title lines "vegetarian" = false)
  /\
  (forall (title : string) (lines : list string),
      let title' := Str.replace "chicken" "salmon" title in
      let lines' := map (Str.replace "chicken" "salmon") lines in
      (forall tag, In tag meat_poultry_tags ->
                   ~ occurs_in tag (Str.lower title') /\
                   ~ occurs_in tag (Str.lower (Str.join " " lines'))) ->
      check_recipe_dietary title' lines' "pescetarian" = true)
  /\
  (forall (title : string) (lines : list string),
      check_recipe_dietary title lines "none" = true).
Proof.
  split; [|split].
  - intros title lines H. unfold check_recipe_dietary.
    change (String.eqb "vegetarian" "none") with false.
    change (String.eqb "vegetarian" "vegetarian") with true. cbv iota.
    apply negb_false_iff, conflict_spec. exists "chicken". split.
    + apply in_or_app. left. unfold meat_poultry_tags. simpl. tauto.
    + destruct H as [H | [H | H]]; [right | now right | now left].
      exact (occurs_in_lower "chicken" title H).
  - intros title lines title' lines' H. unfold check_recipe_dietary.
    change (String.eqb "pescetarian" "none") with false.
    change (String.eqb "pescetarian" "vegetarian") with false.
    change (String.eqb "pescetarian" "pescetarian") with true. cbv iota.
    apply negb_true_iff, not_true_is_false. intros Hc.
    apply conflict_spec in Hc as [tag [Hin [Hb | Ht]]];
      destruct (H tag Hin) as [H1 H2]; contradiction.
  - intros title lines. reflexivity.
Qed.

Lemma check_recipe_dietary_preferences_witness :
  check_recipe_dietary "Grilled chicken" ["2 chicken breasts"; "1 Lemon"] "vegetarian" = false
  /\ check_recipe_dietary "Grilled salmon" ["2 salmon breasts"; "1 Lemon"] "pescetarian" = true.
Proof.
  split.
  - apply (proj1 check_recipe_dietary_preferences "Grilled chicken" ["2 chicken breasts"; "1 Lemon"]).
    left. exists "Grilled ", "". reflexivity.
  - apply (proj1 (proj2 check_recipe_dietary_preferences)
             "Grilled chicken" ["2 chicken breasts"; "1 Lemon"]).
    intros tag Hin. rewrite <- !contains_spec.
    simpl in Hin.
    repeat (destruct Hin as [<- | Hin]; [split; vm_compute; discriminate|]).
    destruct Hin.
Defined.

(** ** The name cleaner *)

Section NameCleaner.

Lemma plain_head (c : ascii) (s : string) :
  plain (String c s) = true ->
  Str.isspace c = false /\ c <> " "%char /\ c <> ","%char /\ plain s = true.
Proof.
  cbn [plain]. rewrite !andb_true_iff, !negb_true_iff.
  intros [[Hs Hc] Hp]. repeat split; try assumption.
  - intros ->. discriminate Hs.
  - intros ->. discriminate Hc.
Qed.

Lemma replace_from_plain (old new s rest : string) :
  fragment old -> plain s = true ->
  Str.replace_from old new 0 (s +:+ rest) = s +:+ Str.replace_from old new 0 rest.
Proof.
  intros [o [old' [-> Ho]]]. induction s as [|c s IH]; intros Hp; [reflexivity|].
  apply plain_head in Hp as [_ [Hsp [Hco Hp]]].
  rewrite !app_cons_str. cbn [Str.replace_from]. rewrite startswith_cons.
  assert (Hne : Ascii.eqb o c = false)
    by (apply Ascii.eqb_neq; destruct Ho as [-> | ->]; congruence).
  rewrite Hne. cbn [andb]. now rewrite IH.
Qed.

Lemma replace_plain (old new s rest : string) :
  fragment old -> plain s = true ->
  Str.replace old new (s +:+ rest) = s +:+ Str.replace old new rest.
Proof.
  intros Hf Hp. pose proof Hf as [o [old' [-> _]]].
  unfold Str.replace. now apply replace_from_plain.
Qed.

Lemma fragments_of (term : string) :
  fragment (", " +:+ term) /\ fragment (" " +:+ term) /\ fragment ("," +:+ term).
Proof. repeat split; eexists _, _; (split; [reflexivity | auto]). Qed.

(** A plain prefix is carried through the loop untouched. *)
Lemma strip_term_plain (s rest term : string) :
  plain s = true -> strip_term (s +:+ rest) term = s +:+ strip_term rest term.
Proof.
  intros Hp. destruct (fragments_of term) as [H1 [H2 H3]].
  unfold strip_term. now rewrite !replace_plain.
Qed.

Lemma strip_all_plain (s rest : string) :
  plain s = true -> strip_all (s +:+ rest) = s +:+ strip_all rest.
Proof.
  intros Hp. unfold strip_all. generalize replacements as terms. intros terms.
  revert rest. induction terms as [|t terms IH]; intros rest; [reflexivity|].
  cbn [fold_left]. now rewrite strip_term_plain, IH.
Qed.










Section OneTurn.

Variables (term new rest : string).
Hypothesis Hterm : plain_word term.






End OneTurn.





Lemma rstrip_plain (b : string) : plain b = true -> Str.rstrip b = b.
Proof.
  induction b as [|c b IH]; intros Hp; [reflexivity|].
  apply plain_head in Hp as [Hs [_ [_ Hp]]].
  cbn [Str.rstrip]. rewrite (IH Hp), Hs. now destruct b.
Qed.



Lemma strip_plain_word (a : string) : plain_word a -> Str.strip a = a.
Proof.
  intros [Ha Hpa]. unfold Str.strip. destruct a as [|c a]; [congruence|].
  pose proof Hpa as Hpa'. apply plain_head in Hpa as [Hs _].
  cbn [Str.lstrip]. rewrite Hs. now apply rstrip_plain.
Qed.


Lemma clean_ingredient_name_eq (name : string) :
  clean_ingredient_name name =
  match strip_all (Str.strip name) with
  | EmptyString => Raise IndexError
  | String c rest =>
      Ok (Str.strip (Str.split_head "," (String (Str.upper_char c) (Str.strip rest))))
  end.
Proof. reflexivity. Qed.

(** *** The result has no comma *)






End NameCleaner.




(** ** The ranking *)

Section Ranking.

Lemma key_lt_spec (d1 d2 : Z) (p1 p2 c1 c2 : Q) :
  key_lt (d1, p1, c1) (d2, p2, c2) = true <->
  (d1 < d2)%Z \/ (d1 = d2 /\ (p1 < p2 \/ (p1 == p2 /\ c1 < c2))).
Proof.
  unfold key_lt.
  destruct (Z.compare_spec d1 d2) as [Hd | Hd | Hd];
    [| split; [intros _; now left | reflexivity]
     | split; [discriminate | intros [H | [H _]]; lia]].
  destruct (Qcompare_spec p1 p2) as [Hp | Hp | Hp].
  - destruct (Qcompare_spec c1 c2) as [Hc | Hc | Hc].
    + split; [discriminate | intros [H | [_ [H | [_ H]]]]; [lia | lra | lra]].
    + split; [intros _; right; split; [exact Hd | right; split; assumption] | reflexivity].
    + split; [discriminate | intros [H | [_ [H | [_ H]]]]; [lia | lra | lra]].
  - split; [intros _; right; split; [exact Hd | now left] | reflexivity].
  - split; [discriminate | intros [H | [_ [H | [H _]]]]; [lia | lra | lra]].
Qed.

Lemma meal_lt_spec (a b : Meal) :
  meal_lt a b = true <->
  (diversity_score b < diversity_score a)%nat \/
  (diversity_score a = diversity_score b /\
   (total_protein_g b < total_protein_g a \/
    (total_protein_g a == total_protein_g b /\ total_cost a < total_cost b))).
Proof.
  unfold meal_lt, sort_key. rewrite key_lt_spec. split.
  - intros [H | [Hd [H | [Hp Hc]]]].
    + left. lia.
    + right. split; [lia | left; lra].
    + right. split; [lia | right; split; [lra | exact Hc]].
  - intros [H | [Hd [H | [Hp Hc]]]].
    + left. lia.
    + right. split; [lia | left; lra].
    + right. split; [lia | right; split; [lra | exact Hc]].
Qed.

Lemma meal_lt_false (a b : Meal) : meal_lt b a = false <-> ranks_no_later a b.
Proof.
  unfold ranks_no_later. rewrite <- not_true_iff_false, meal_lt_spec. split.
  - intros H.
    destruct (Nat.lt_trichotomy (diversity_score a) (diversity_score b)) as [Hd | [Hd | Hd]].
    + exfalso. apply H. now left.
    + right. split; [exact Hd|].
      destruct (Qlt_le_dec (total_protein_g b) (total_protein_g a)) as [Hp | Hp]; [now left|].
      destruct (Qlt_le_dec (total_protein_g a) (total_protein_g b)) as [Hp' | Hp'].
      * exfalso. apply H. right. split; [now symmetry | now left].
      * right. split; [lra|].
        destruct (Qlt_le_dec (total_cost b) (total_cost a)) as [Hc | Hc]; [|exact Hc].
        exfalso. apply H. right. split; [now symmetry | right; split; [lra | exact Hc]].
    + now left.
  - intros [H | [Hd [H | [Hp Hc]]]] [H' | [Hd' [H' | [Hp' Hc']]]]; try lia; lra.
Qed.

Lemma ranks_no_later_trans (a b c : Meal) :
  ranks_no_later a b -> ranks_no_later b c -> ranks_no_later a c.
Proof.
  unfold ranks_no_later.
  intros [H | [Hd [H | [Hp Hc]]]] [H' | [Hd' [H' | [Hp' Hc']]]];
    try (left; lia); right; (split; [lia|]);
    try (left; lra); right; split; lra.
Qed.

Lemma meal_lt_ranks (a b : Meal) : meal_lt a b = true -> ranks_no_later a b.
Proof.
  rewrite meal_lt_spec. unfold ranks_no_later.
  intros [H | [Hd [H | [Hp Hc]]]]; [now left | right; split; [exact Hd | now left] |].
  right. split; [exact Hd | right; split; [exact Hp | lra]].
Qed.

Lemma same_rank_spec (a b : Meal) :
  same_rank a b = true <->
  diversity_score a = diversity_score b /\
  total_protein_g a == total_protein_g b /\
  total_cost a == total_cost b.
Proof.
  unfold same_rank. rewrite andb_true_iff, !negb_true_iff, !meal_lt_false.
  unfold ranks_no_later. split.
  - intros [[H | [Hd [H | [Hp Hc]]]] [H' | [Hd' [H' | [Hp' Hc']]]]]; try lia; try lra.
    repeat split; [lia | lra | lra].
  - intros [Hd [Hp Hc]]. split; right; (split; [lia|]); right; split; lra.
Qed.

(** A meal that ranks strictly before another shares no key with anything
    that the other may stand before. *)
Lemma same_rank_after (k x y z : Meal) :
  same_rank k x = true -> meal_lt x y = true -> ranks_no_later y z ->
  same_rank k z = false.
Proof.
  intros Hk Hxy Hyz. apply not_true_iff_false. intros Hkz.
  apply same_rank_spec in Hk, Hkz. apply meal_lt_spec in Hxy.
  unfold ranks_no_later in Hyz.
  destruct Hk as [Hd [Hp Hc]], Hkz as [Hd' [Hp' Hc']].
  destruct Hxy as [H | [Hd1 [H | [Hp1 Hc1]]]], Hyz as [H' | [Hd2 [H' | [Hp2 Hc2]]]];
    try lia; lra.
Qed.

Lemma ranks_no_later_refl (a : Meal) : ranks_no_later a a.
Proof. right. split; [reflexivity | right; split; [reflexivity | apply Qle_refl]]. Qed.

Lemma insert_sorted_perm (x : Meal) (l : list Meal) :
  Permutation (insert_sorted x l) (x :: l).
Proof.
  induction l as [|y l IH]; simpl; [reflexivity|].
  destruct (meal_lt x y); [reflexivity|].
  rewrite IH. apply perm_swap.
Qed.

Lemma insert_sorted_sorted (x : Meal) (l : list Meal) :
  StronglySorted ranks_no_later l -> StronglySorted ranks_no_later (insert_sorted x l).
Proof.
  induction l as [|y l IH]; intros Hs; simpl.
  - constructor; [constructor | constructor].
  - inversion Hs as [|? ? Hs' Hall]; subst.
    destruct (meal_lt x y) eqn:Hxy.
    + constructor; [exact Hs|]. constructor; [now apply meal_lt_ranks|].
      eapply Forall_impl; [exact Hall|]. simpl. intros z Hz.
      eapply ranks_no_later_trans; [apply meal_lt_ranks; exact Hxy | exact Hz].
    + constructor; [now apply IH|].
      apply (Permutation_Forall (Permutation_sym (insert_sorted_perm x l))).
      constructor; [now apply meal_lt_false | exact Hall].
Qed.

Lemma insert_sorted_stable (k x : Meal) (l : list Meal) :
  StronglySorted ranks_no_later l ->
  List.filter (same_rank k) (insert_sorted x l) =
  (List.filter (same_rank k) l ++ List.filter (same_rank k) [x])%list.
Proof.
  induction l as [|y l IH]; intros Hs; [reflexivity|].
  inversion Hs as [|? ? Hs' Hall]; subst.
  cbn [insert_sorted]. destruct (meal_lt x y) eqn:Hxy.
  - cbn [List.filter]. destruct (same_rank k x) eqn:Hkx; [|now rewrite app_nil_r].
    assert (Hy : same_rank k y = false)
      by (eapply same_rank_after; [exact Hkx | exact Hxy | apply ranks_no_later_refl]).
    rewrite Hy.
    assert (Hl : List.filter (same_rank k) l = []).
    { clear IH Hs Hs'. induction Hall as [|z l Hz Hall IH]; [reflexivity|].
      cbn [List.filter]. rewrite IH.
      now rewrite (same_rank_after k x y z Hkx Hxy Hz). }
    now rewrite Hl.
  - cbn [List.filter]. rewrite (IH Hs').
    now destruct (same_rank k y).
Qed.

Lemma py_sort_from (l acc : list Meal) :
  StronglySorted ranks_no_later acc ->
  let sorted := fold_left (fun sorted x => insert_sorted x sorted) l acc in
  StronglySorted ranks_no_later sorted /\
  Permutation sorted (acc ++ l) /\
  forall k, List.filter (same_rank k) sorted =
            (List.filter (same_rank k) acc ++ List.filter (same_rank k) l)%list.
Proof.
  revert acc; induction l as [|x l IH]; intros acc Hacc; cbn [fold_left].
  - rewrite app_nil_r. repeat split; [exact Hacc | reflexivity |].
    intros k. now rewrite app_nil_r.
  - destruct (IH (insert_sorted x acc) (insert_sorted_sorted x acc Hacc)) as [Hs [Hp Hf]].
    repeat split; [exact Hs | |].
    + rewrite Hp, insert_sorted_perm. apply Permutation_middle.
    + intros k. rewrite Hf, (insert_sorted_stable k x acc Hacc), <- app_assoc.
      f_equal. cbn [List.filter]. now destruct (same_rank k x).
Qed.

Lemma py_sort_sorted (l : list Meal) : StronglySorted ranks_no_later (py_sort l).
Proof. apply (py_sort_from l []). constructor. Qed.

Lemma py_sort_perm (l : list Meal) : Permutation (py_sort l) l.
Proof. apply (py_sort_from l []). constructor. Qed.

Lemma py_sort_stable (l : list Meal) (k : Meal) :
  List.filter (same_rank k) (py_sort l) = List.filter (same_rank k) l.
Proof. apply (py_sort_from l []). constructor. Qed.

Lemma StronglySorted_take {A : Type} (R : A -> A -> Prop) (n : nat) (l : list A) :
  StronglySorted R l -> StronglySorted R (take n l).
Proof.
  revert n; induction l as [|x l IH]; intros [|n] Hs; simpl; try constructor.
  - inversion Hs; subst. now apply IH.
  - inversion Hs; subst. apply Forall_take. assumption.
Qed.

End Ranking.

(** ** The safety filter *)

Section SafetyFilter.

Variable excluded_tags : list string.

Lemma str_in_spec (tag : string) (l : list string) : str_in tag l = true <-> In tag l.
Proof.
  unfold str_in. rewrite existsb_exists. split.
  - intros [x [Hx H]]. apply String.eqb_eq in H. now subst.
  - intros H. exists tag. split; [exact H | apply String.eqb_refl].
Qed.

Lemma is_safe_true (ingredient : Ingredient) :
  is_safe excluded_tags ingredient = true <->
  forall tag, In tag (default [] (allergy_tags ingredient)) -> ~ In tag excluded_tags.
Proof.
  unfold is_safe. rewrite negb_true_iff, <- not_true_iff_false, existsb_exists. split.
  - intros H tag Hin Hex. apply H. exists tag. split; [exact Hin | now apply str_in_spec].
  - intros H [tag [Hin Hex]]. apply (H tag Hin). now apply str_in_spec.
Qed.

Lemma is_safe_false (ingredient : Ingredient) :
  is_safe excluded_tags ingredient = false <->
  exists tag, In tag (default [] (allergy_tags ingredient)) /\ In tag excluded_tags.
Proof.
  unfold is_safe. rewrite negb_false_iff, existsb_exists.
  split; intros [tag [Hin Hex]]; exists tag; (split; [exact Hin|]); now apply str_in_spec.
Qed.

Lemma safety_filter_stored (data : list Ingredient) :
  fst (safety_filter data excluded_tags) = map (after_filter excluded_tags) data.
Proof.
  induction data as [|r data IH]; [reflexivity|].
  cbn [safety_filter map]. unfold after_filter at 1.
  destruct (safety_filter data excluded_tags) as [stored safe]. simpl in IH.
  destruct (is_safe excluded_tags r); simpl; now rewrite IH.
Qed.

Lemma safety_filter_safe (data : list Ingredient) :
  snd (safety_filter data excluded_tags) =
  map (fun r => set_functional_tags r (get_functional_tags (name r)))
    (List.filter (is_safe excluded_tags) data).
Proof.
  induction data as [|r data IH]; [reflexivity|].
  cbn [safety_filter List.filter].
  destruct (safety_filter data excluded_tags) as [stored safe]. simpl in IH.
  destruct (is_safe excluded_tags r); simpl; now rewrite IH.
Qed.

Lemma safety_filter_tagged (data : list Ingredient) :
  Forall tagged (snd (safety_filter data excluded_tags)).
Proof.
  rewrite safety_filter_safe. apply Forall_forall. intros item Hin.
  apply list_elem_of_In, in_map_iff in Hin as [r [<- _]]. discriminate.
Qed.

End SafetyFilter.

(** ** Enumeration *)

Section Enumeration.

Context {A : Type}.

Lemma combinations_sublist (r : nat) (pool combo : list A) :
  In combo (combinations r pool) -> sublist combo pool /\ length combo = r.
Proof.
  revert r combo; induction pool as [|x pool IH]; intros [|r] combo; simpl.
  - intros [<- | []]. split; [constructor | reflexivity].
  - intros [].
  - intros [<- | []]. split; [apply sublist_nil_l | reflexivity].
  - intros H. apply in_app_or in H as [H | H].
    + apply in_map_iff in H as [c [<- Hc]]. destruct (IH r c Hc) as [Hs Hl].
      split; [now constructor | simpl; now rewrite Hl].
    + destruct (IH (S r) combo H) as [Hs Hl]. split; [now constructor | exact Hl].
Qed.

Lemma combinations_members (P : A -> Prop) (r : nat) (pool combo : list A) :
  Forall P pool -> In combo (combinations r pool) -> Forall P combo.
Proof.
  intros HP Hin. apply combinations_sublist in Hin as [Hs _].
  apply Forall_forall. intros x Hx.
  eapply Forall_forall; [exact HP | eapply elem_of_sublist; eassumption].
Qed.

End Enumeration.

Lemma sizes_spec (max_ingredients : Z) (n : nat) :
  In n (sizes max_ingredients) <-> (2 <= n)%nat /\ (Z.of_nat n <= max_ingredients)%Z.
Proof.
  unfold sizes. rewrite in_map_iff. split.
  - intros [i [<- Hi]]. apply in_seq in Hi. lia.
  - intros [H2 Hm]. exists (n - 2)%nat. split; [lia|]. apply in_seq. lia.
Qed.

Lemma enumerate_spec (safe_ingredients : list Ingredient) (max_ingredients : Z)
    (n : nat) (combo : list Ingredient) :
  In (n, combo) (enumerate safe_ingredients max_ingredients) <->
  In n (sizes max_ingredients) /\ In combo (combinations n safe_ingredients).
Proof.
  unfold enumerate. rewrite in_flat_map. split.
  - intros [k [Hk H]]. apply in_map_iff in H as [c [Heq Hc]]. now inversion Heq; subst.
  - intros [Hn Hc]. exists n. split; [exact Hn|]. apply in_map_iff. now exists combo.
Qed.

(** The sizes run from 2 up to [max_ingredients]. *)
Lemma sizes_seq (max_ingredients : Z) :
  sizes max_ingredients = seq 2 (Z.to_nat (max_ingredients - 1)).
Proof.
  unfold sizes. replace (max_ingredients + 1 - 2)%Z with (max_ingredients - 1)%Z by lia.
  assert (H : forall k start, map (fun i => (2 + i)%nat) (seq start k) = seq (2 + start) k).
  { induction k as [|k IH]; intros start; [reflexivity|].
    cbn [seq map]. f_equal. rewrite IH. f_equal. }
  apply H.
Qed.

(** The order in which itertools yields the pairs of four items. *)
Example combinations_order :
  combinations 2 ["A"; "B"; "C"; "D"]
  = [["A"; "B"]; ["A"; "C"]; ["A"; "D"]; ["B"; "C"]; ["B"; "D"]; ["C"; "D"]].
Proof. reflexivity. Qed.

(** ** Rounding *)

Section Rounding.

Lemma round_half_even_close (y : Q) :
  y - (1 # 2) <= inject_Z (round_half_even y) /\
  inject_Z (round_half_even y) <= y + (1 # 2).
Proof.
  unfold round_half_even.
  pose proof (Qfloor_le y) as Hlo. pose proof (Qlt_floor y) as Hhi.
  rewrite inject_Z_plus in Hhi. change (inject_Z 1) with 1 in Hhi.
  destruct (Qcompare_spec (y - inject_Z (Qfloor y)) (1 # 2)) as [He | Hl | Hg].
  - destruct (Z.even (Qfloor y)); [|rewrite inject_Z_plus; change (inject_Z 1) with 1]; lra.
  - lra.
  - rewrite inject_Z_plus. change (inject_Z 1) with 1. lra.
Qed.

Lemma py_round_2_close (x : Q) :
  x - (1 # 200) <= py_round x 2 /\ py_round x 2 <= x + (1 # 200).
Proof.
  unfold py_round. change (Pos.pow 10 (Pos.of_nat 2)) with 100%positive.
  rewrite Qred_correct, (Qmake_Qdiv (round_half_even _) 100).
  destruct (round_half_even_close (x * inject_Z 100)) as [Hlo Hhi].
  set (r := inject_Z (round_half_even (x * inject_Z 100))) in *.
  change (inject_Z 100) with 100 in *.
  unfold Qdiv. change (/ 100) with (1 # 100). lra.
Qed.

Lemma py_round_1_close (x : Q) :
  x - (1 # 20) <= py_round x 1 /\ py_round x 1 <= x + (1 # 20).
Proof.
  unfold py_round. change (Pos.pow 10 (Pos.of_nat 1)) with 10%positive.
  rewrite Qred_correct, (Qmake_Qdiv (round_half_even _) 10).
  destruct (round_half_even_close (x * inject_Z 10)) as [Hlo Hhi].
  set (r := inject_Z (round_half_even (x * inject_Z 10))) in *.
  change (inject_Z 10) with 10 in *.
  unfold Qdiv. change (/ 10) with (1 # 10). lra.
Qed.

End Rounding.

(** ** The loop body *)

Lemma bind_Ok {A B : Type} (a : A) (k : A -> result B) : (Ok a ≫= k) = k a.
Proof. reflexivity. Qed.

Lemma bind_Raise {A B : Type} (e : exn) (k : A -> result B) : (Raise e ≫= k) = Raise e.
Proof. reflexivity. Qed.

Section LoopBody.

Variables max_cost min_protein max_fat : Q.

Lemma clean_ingredient_name_raises (s : string) (e : exn) :
  clean_ingredient_name s = Raise e -> e = IndexError.
Proof.
  unfold clean_ingredient_name.
  destruct (fold_left strip_term replacements (Str.strip s)); [|discriminate].
  now intros [= <-].
Qed.

Lemma mapM_clean_raises (combo : list Ingredient) (e : exn) :
  mapM (fun item => clean_ingredient_name (name item)) combo = Raise e -> e = IndexError.
Proof.
  induction combo as [|item combo IH]; [discriminate|].
  cbn [mapM]. destruct (clean_ingredient_name (name item)) as [s|e'] eqn:Hc; rewrite ?bind_Ok, ?bind_Raise.
  - destruct (mapM _ combo) as [ys|e'']; rewrite ?bind_Ok, ?bind_Raise; [discriminate|].
    intros [= <-]. now apply IH.
  - intros [= <-]. eapply clean_ingredient_name_raises; eassumption.
Qed.

Lemma mapM_clean_bad (combo : list Ingredient) (item : Ingredient) :
  In item combo -> clean_ingredient_name (name item) = Raise IndexError ->
  mapM (fun item => clean_ingredient_name (name item)) combo = Raise IndexError.
Proof.
  intros Hin Hbad.
  destruct (mapM _ combo) as [ys|e] eqn:Hm.
  - exfalso. revert ys Hm. induction combo as [|x combo IH]; intros ys Hm; [destruct Hin|].
    cbn [mapM] in Hm.
    destruct (clean_ingredient_name (name x)) as [s|e'] eqn:Hc; rewrite ?bind_Ok, ?bind_Raise in Hm; [|discriminate].
    destruct (mapM _ combo) as [ys'|e'']; rewrite ?bind_Ok, ?bind_Raise in Hm; [|discriminate].
    destruct Hin as [-> | Hin]; [congruence | eapply IH; eauto].
  - f_equal. eapply mapM_clean_raises; eassumption.
Qed.

Lemma get_item_tags_tagged (item : Ingredient) :
  tagged item -> exists tags, get_item_tags item = Ok tags.
Proof.
  unfold tagged, get_item_tags. destruct (functional_tags item); [eauto | congruence].
Qed.

Lemma scan_combo_no_raise (combo : list Ingredient) (ftags macro : gset string) :
  Forall tagged combo -> exists r, scan_combo combo ftags macro = Ok r.
Proof.
  intros H. revert ftags macro.
  induction H as [|item combo Hitem _ IH]; intros ftags macro; cbn [scan_combo]; [eauto|].
  destruct (get_item_tags_tagged item Hitem) as [tags ->]. rewrite bind_Ok.
  repeat case_bool_decide; eauto.
Qed.

(** The record the loop body appends for a surviving combination. *)
Lemma try_combo_survives (n : nat) (combo : list Ingredient) :
  survives max_cost min_protein max_fat combo = true ->
  exists tags,
    scan_combo combo ∅ ∅ = Ok (Some tags) /\
    try_combo max_cost min_protein max_fat n combo =
    (cleaned ← mapM (fun item => clean_ingredient_name (name item)) combo;
     Ok (Some {| ingredients := cleaned;
                 total_cost := py_round (py_sum cost_per_100g combo) 2;
                 total_protein_g := py_round (py_sum protein_g combo) 1;
                 total_fat_g := py_round (py_sum fat_g combo) 1;
                 num_ingredients := n;
                 diversity_score := size tags |})).
Proof.
  unfold survives, try_combo.
  destruct (scan_combo combo ∅ ∅) as [[tags|]|e]; try discriminate.
  intros H. exists tags. split; [reflexivity|]. rewrite bind_Ok.
  apply andb_true_iff in H as [H Hf]. apply andb_true_iff in H as [H Hp].
  apply andb_true_iff in H as [Hd Hc].
  apply Nat.leb_le in Hd.
  destruct (Nat.ltb_spec (size tags) 2) as [Hlt | _]; [lia|].
  now rewrite Hc, Hp, Hf.
Qed.

Lemma try_combo_skipped (n : nat) (combo : list Ingredient) :
  Forall tagged combo ->
  survives max_cost min_protein max_fat combo = false ->
  try_combo max_cost min_protein max_fat n combo = Ok None.
Proof.
  intros Ht. unfold survives, try_combo.
  destruct (scan_combo_no_raise combo ∅ ∅ Ht) as [[tags|] ->]; rewrite ?bind_Ok, ?bind_Raise; [|reflexivity].
  intros H.
  destruct (Nat.ltb_spec (size tags) 2) as [Hlt | Hge]; [reflexivity|].
  apply Nat.leb_le in Hge. rewrite Hge in H. simpl andb in H. now rewrite H.
Qed.

(** Reading a kept record back: where it came from. *)
Lemma try_combo_kept (n : nat) (combo : list Ingredient) (meal : Meal) :
  try_combo max_cost min_protein max_fat n combo = Ok (Some meal) ->
  survives max_cost min_protein max_fat combo = true /\
  exists tags,
    scan_combo combo ∅ ∅ = Ok (Some tags) /\
    mapM (fun item => clean_ingredient_name (name item)) combo = Ok (ingredients meal) /\
    total_cost meal = py_round (py_sum cost_per_100g combo) 2 /\
    total_protein_g meal = py_round (py_sum protein_g combo) 1 /\
    total_fat_g meal = py_round (py_sum fat_g combo) 1 /\
    num_ingredients meal = n /\
    diversity_score meal = size tags.
Proof.
  intros H.
  destruct (survives max_cost min_protein max_fat combo) eqn:Hs.
  - split; [reflexivity|].
    destruct (try_combo_survives n combo Hs) as [tags [Hscan Heq]].
    rewrite Heq in H. exists tags. split; [exact Hscan|].
    destruct (mapM _ combo) as [cleaned|e]; rewrite ?bind_Ok, ?bind_Raise in H; [|discriminate].
    injection H as <-. now repeat split.
  - exfalso. revert H Hs. unfold survives, try_combo.
    destruct (scan_combo combo ∅ ∅) as [[tags|]|e]; rewrite ?bind_Ok, ?bind_Raise; try discriminate.
    destruct (Nat.ltb_spec (size tags) 2) as [Hlt | Hge]; [discriminate|].
    apply Nat.leb_le in Hge. rewrite Hge. simpl andb. intros H Hs. now rewrite Hs in H.
Qed.

Lemma try_combo_raises (n : nat) (combo : list Ingredient) (e : exn) :
  Forall tagged combo ->
  try_combo max_cost min_protein max_fat n combo = Raise e -> e = IndexError.
Proof.
  intros Ht H.
  destruct (survives max_cost min_protein max_fat combo) eqn:Hs.
  - destruct (try_combo_survives n combo Hs) as [tags [_ Heq]]. rewrite Heq in H.
    destruct (mapM _ combo) as [cleaned|e'] eqn:Hm; rewrite ?bind_Ok, ?bind_Raise in H; [discriminate|].
    injection H as <-. eapply mapM_clean_raises; eassumption.
  - rewrite (try_combo_skipped n combo Ht Hs) in H. discriminate.
Qed.

(** ** The collected meals *)

Lemma collect_kept (todo : list (nat * list Ingredient)) (valid_meals : list Meal) :
  collect max_cost min_protein max_fat todo = Ok valid_meals ->
  forall meal, In meal valid_meals ->
    exists n combo, In (n, combo) todo /\
      try_combo max_cost min_protein max_fat n combo = Ok (Some meal).
Proof.
  revert valid_meals; induction todo as [|[n combo] todo IH]; intros valid_meals; cbn [collect].
  - intros [= <-] meal [].
  - destruct (try_combo max_cost min_protein max_fat n combo) as [kept|e] eqn:Ht; rewrite ?bind_Ok, ?bind_Raise;
      [|discriminate].
    destruct (collect max_cost min_protein max_fat todo) as [ms|e]; rewrite ?bind_Ok, ?bind_Raise; [|discriminate].
    intros [= <-] meal Hin.
    assert (Hrest : In meal ms -> exists n' combo', In (n', combo') ((n, combo) :: todo) /\
              try_combo max_cost min_protein max_fat n' combo' = Ok (Some meal)).
    { intros Hm. destruct (IH ms eq_refl meal Hm) as [n' [combo' [Hin' H']]].
      exists n', combo'. split; [now right | exact H']. }
    destruct kept as [m|]; [|now apply Hrest].
    destruct Hin as [<- | Hin]; [|now apply Hrest].
    exists n, combo. split; [now left | exact Ht].
Qed.

(** [valid_meals] holds the records of the kept combinations, in the order
    of the enumeration. *)
Lemma collect_in_order (todo : list (nat * list Ingredient)) (valid_meals : list Meal) :
  collect max_cost min_protein max_fat todo = Ok valid_meals ->
  exists outcomes,
    mapM (fun entry => try_combo max_cost min_protein max_fat (fst entry) (snd entry)) todo
    = Ok outcomes /\
    valid_meals = omap id outcomes.
Proof.
  revert valid_meals; induction todo as [|[n combo] todo IH]; intros valid_meals; cbn [collect].
  - intros [= <-]. now exists [].
  - cbn [mapM fst snd].
    destruct (try_combo max_cost min_protein max_fat n combo) as [kept|e];
      rewrite ?bind_Ok, ?bind_Raise; [|discriminate].
    destruct (collect max_cost min_protein max_fat todo) as [ms|e];
      rewrite ?bind_Ok, ?bind_Raise; [|discriminate].
    destruct (IH ms eq_refl) as [outcomes [-> ->]].
    intros [= <-]. exists (kept :: outcomes). rewrite !bind_Ok. split; [reflexivity|].
    now destruct kept.
Qed.

Lemma collect_none (todo : list (nat * list Ingredient)) :
  (forall n combo, In (n, combo) todo ->
     try_combo max_cost min_protein max_fat n combo = Ok None) ->
  collect max_cost min_protein max_fat todo = Ok [].
Proof.
  induction todo as [|[n combo] todo IH]; intros H; cbn [collect]; [reflexivity|].
  rewrite (H n combo) by now left. rewrite ?bind_Ok, ?bind_Raise.
  rewrite IH; [reflexivity|]. intros n' combo' Hin. apply H. now right.
Qed.

Lemma collect_raises (todo : list (nat * list Ingredient)) (e : exn) :
  Forall (fun entry => Forall tagged (snd entry)) todo ->
  collect max_cost min_protein max_fat todo = Raise e -> e = IndexError.
Proof.
  induction 1 as [|[n combo] todo Ht _ IH]; cbn [collect]; [discriminate|].
  destruct (try_combo max_cost min_protein max_fat n combo) as [kept|e'] eqn:Htry; rewrite ?bind_Ok, ?bind_Raise.
  - destruct (collect max_cost min_protein max_fat todo) as [ms|e'']; rewrite ?bind_Ok, ?bind_Raise; [discriminate|].
    intros [= <-]. now apply IH.
  - intros [= <-]. eapply try_combo_raises; eassumption.
Qed.

Lemma collect_bad (todo : list (nat * list Ingredient)) (n : nat) (combo : list Ingredient) :
  Forall (fun entry => Forall tagged (snd entry)) todo ->
  In (n, combo) todo ->
  try_combo max_cost min_protein max_fat n combo = Raise IndexError ->
  collect max_cost min_protein max_fat todo = Raise IndexError.
Proof.
  intros Ht Hin Hbad.
  destruct (collect max_cost min_protein max_fat todo) as [ms|e] eqn:Hc.
  - exfalso. clear Ht. revert ms Hc.
    induction todo as [|[n' combo'] todo IH]; intros ms Hc; [destruct Hin|].
    cbn [collect] in Hc.
    destruct (try_combo max_cost min_protein max_fat n' combo') as [kept|e'] eqn:Htry;
      rewrite ?bind_Ok, ?bind_Raise in Hc; [|discriminate].
    destruct (collect max_cost min_protein max_fat todo) as [ms'|e'']; rewrite ?bind_Ok, ?bind_Raise in Hc;
      [|discriminate].
    destruct Hin as [[= -> ->] | Hin]; [congruence | eapply IH; eauto].
  - f_equal. eapply collect_raises; eassumption.
Qed.

End LoopBody.

Lemma enumerate_tagged (data : list Ingredient) (excluded_tags : list string)
    (max_ingredients : Z) :
  Forall (fun entry => Forall tagged (snd entry))
    (enumerate (snd (safety_filter data excluded_tags)) max_ingredients).
Proof.
  apply Forall_forall. intros [n combo] Hin.
  apply list_elem_of_In, enumerate_spec in Hin as [_ Hc]. simpl.
  eapply combinations_members; [apply safety_filter_tagged | exact Hc].
Qed.

(** The two components of the result of [find_best_meal]. *)
Lemma find_best_meal_unfold (data : list Ingredient) (max_cost min_protein max_fat : Q)
    (excluded_tags : list string) (max_ingredients : Z) :
  find_best_meal data max_cost min_protein max_fat excluded_tags max_ingredients =
  (fst (safety_filter data excluded_tags),
   valid_meals ← collect max_cost min_protein max_fat
                   (enumerate (snd (safety_filter data excluded_tags)) max_ingredients);
   match valid_meals with
   | [] => Ok None
   | _ => Ok (Some (take 5 (py_sort valid_meals)))
   end).
Proof.
  unfold find_best_meal. now destruct (safety_filter data excluded_tags).
Qed.

(** ** Properties of [find_best_meal] *)

Lemma survives_spec (max_cost min_protein max_fat : Q) (combo : list Ingredient) :
  survives max_cost min_protein max_fat combo = true <->
  exists tags,
    scan_combo combo ∅ ∅ = Ok (Some tags) /\ (2 <= size tags)%nat /\
    py_sum cost_per_100g combo <= max_cost /\
    min_protein <= py_sum protein_g combo /\
    py_sum fat_g combo <= max_fat.
Proof.
  unfold survives. destruct (scan_combo combo ∅ ∅) as [[tags|]|e].
  - rewrite !andb_true_iff, !Qle_bool_iff, Nat.leb_le. split.
    + intros [[[Hd Hc] Hp] Hf]. now exists tags.
    + intros [tags' [[= <-] [Hd [Hc [Hp Hf]]]]]. now repeat split.
  - split; [discriminate | intros [tags [H _]]; discriminate].
  - split; [discriminate | intros [tags [H _]]; discriminate].
Qed.

Lemma filter_take_prefix {A : Type} (f : A -> bool) (n : nat) (l : list A) :
  List.filter f (take n l) `prefix_of` List.filter f l.
Proof.
  exists (List.filter f (drop n l)).
  now rewrite <- List.filter_app, take_drop.
Qed.

(** Every returned record was built by the loop body from a combination of
    the enumeration. *)
Lemma find_best_meal_returned (data : list Ingredient) (max_cost min_protein max_fat : Q)
    (excluded_tags : list string) (max_ingredients : Z) (meals : list Meal) :
  snd (find_best_meal data max_cost min_protein max_fat excluded_tags max_ingredients)
  = Ok (Some meals) ->
  exists valid_meals,
    collect max_cost min_protein max_fat
      (enumerate (snd (safety_filter data excluded_tags)) max_ingredients) = Ok valid_meals /\
    valid_meals <> [] /\
    meals = take 5 (py_sort valid_meals).
Proof.
  rewrite find_best_meal_unfold. cbn [snd].
  destruct (collect _ _ _ _) as [valid_meals|e]; rewrite ?bind_Ok, ?bind_Raise; [|discriminate].
  destruct valid_meals as [|m ms]; [discriminate|].
  intros [= <-]. exists (m :: ms). now repeat split.
Qed.

(** C2 (as the code has it).  Every returned record has a diversity score of
    at least 2 and comes from a combination of safe ingredients whose exact
    sums meet the three thresholds; the record reports these sums rounded,
    so the reported cost may exceed [max_cost] by up to 0.005, the reported
    protein may fall short of [min_protein] by up to 0.05 and the reported
    fat may exceed [max_fat] by up to 0.05. *)
Theorem returned_meals_meet_thresholds_before_rounding
    (data : list Ingredient) (max_cost min_protein max_fat : Q)
    (excluded_tags : list string) (max_ingredients : Z) (meals : list Meal) (meal : Meal) :
  snd (find_best_meal data max_cost min_protein max_fat excluded_tags max_ingredients)
  = Ok (Some meals) ->
  In meal meals ->
  (2 <= diversity_score meal)%nat /\
  (exists combo,
      sublist combo (snd (safety_filter data excluded_tags)) /\
      total_cost meal = py_round (py_sum cost_per_100g combo) 2 /\
      total_protein_g meal = py_round (py_sum protein_g combo) 1 /\
      total_fat_g meal = py_round (py_sum fat_g combo) 1 /\
      py_sum cost_per_100g combo <= max_cost /\
      min_protein <= py_sum protein_g combo /\
      py_sum fat_g combo <= max_fat) /\
  total_cost meal <= max_cost + (1 # 200) /\
  min_protein - (1 # 20) <= total_protein_g meal /\
  total_fat_g meal <= max_fat + (1 # 20).
Proof.
  intros Hres Hin.
  destruct (find_best_meal_returned _ _ _ _ _ _ _ Hres) as [valid_meals [Hc [_ ->]]].
  assert (Hv : In meal valid_meals).
  { apply (Permutation_in meal (py_sort_perm valid_meals)).
    apply list_elem_of_In. eapply elem_of_sublist; [|apply sublist_take].
    apply list_elem_of_In. exact Hin. }
  destruct (collect_kept _ _ _ _ _ Hc meal Hv) as [n [combo [Hen Htry]]].
  apply try_combo_kept in Htry as [Hs [tags [Hscan [_ [Hcost [Hprot [Hfat [_ Hdiv]]]]]]]].
  apply survives_spec in Hs as [tags' [Hscan' [Hd [Hmc [Hmp Hmf]]]]].
  rewrite Hscan in Hscan'. injection Hscan' as <-.
  apply enumerate_spec in Hen as [_ Hcomb]. apply combinations_sublist in Hcomb as [Hsub _].
  pose proof (py_round_2_close (py_sum cost_per_100g combo)) as [_ Hrc].
  pose proof (py_round_1_close (py_sum protein_g combo)) as [Hrp _].
  pose proof (py_round_1_close (py_sum fat_g combo)) as [_ Hrf].
  split; [lia|]. split.
  - exists combo. now repeat split.
  - rewrite Hcost, Hprot, Hfat. repeat split; lra.
Qed.

Lemma returned_meals_meet_thresholds_before_rounding_witness :
  (2 <= 3)%nat /\
  (exists combo,
      sublist combo (snd (safety_filter example_catalog [])) /\
      (93 # 100) = py_round (py_sum cost_per_100g combo) 2 /\
      39 = py_round (py_sum protein_g combo) 1 /\
      (9 # 2) = py_round (py_sum fat_g combo) 1 /\
      py_sum cost_per_100g combo <= 1 /\
      15 <= py_sum protein_g combo /\
      py_sum fat_g combo <= 15) /\
  (93 # 100) <= 1 + (1 # 200) /\
  15 - (1 # 20) <= 39 /\
  (9 # 2) <= 15 + (1 # 20).
Proof.
  apply (returned_meals_meet_thresholds_before_rounding example_catalog 1 15 15 [] 3
           example_result
           (mkMeal ["Rice"; "Chicken"; "Tomato"] (93 # 100) 39 (9 # 2) 3 3)).
  - vm_compute. reflexivity.
  - vm_compute. left. reflexivity.
Defined.

(** C2, refuted as stated: on [rounding_catalog] the one returned record
    reports a cost above [max_cost], a protein total below [min_protein]
    and a fat total above [max_fat]. *)
Lemma rounded_totals_break_thresholds :
  exists meal,
    snd (find_best_meal rounding_catalog (255 # 256) (481 # 32) (31 # 32) [] 2)
    = Ok (Some [meal]) /\
    ~ total_cost meal <= 255 # 256 /\
    ~ (481 # 32) <= total_protein_g meal /\
    ~ total_fat_g meal <= 31 # 32.
Proof.
  exists (mkMeal ["Rice"; "Egg"] 1 15 1 2 2).
  split; [vm_compute; reflexivity|].
  repeat split; intros H; vm_compute in H; apply H; reflexivity.
Qed.

(** C3 (as the code has it).  On the example catalog the call returns the
    five records of [example_result]: the first is the triple Rice, Chicken,
    Tomato with diversity 3, ahead of every pair, and no record names both
    Egg and Chicken. *)
Theorem example_catalog_ranking :
  snd (find_best_meal example_catalog 1.0 15 15 [] 3) = Ok (Some example_result) /\
  (exists rest,
      example_result = mkMeal ["Rice"; "Chicken"; "Tomato"] (93 # 100) 39 (9 # 2) 3 3 :: rest) /\
  Forall (fun meal => ~ (In "Egg" (ingredients meal) /\ In "Chicken" (ingredients meal)))
    example_result.
Proof.
  split; [vm_compute; reflexivity|]. split; [eexists; reflexivity|].
  unfold example_result.
  repeat (apply Forall_cons; split;
          [cbn [ingredients In]; intros [He Hc];
           repeat (destruct He as [He | He]; [discriminate He|]);
           repeat (destruct Hc as [Hc | Hc]; [discriminate Hc|]); try contradiction |]).
  apply Forall_nil. exact I.
Qed.

(** C3, refuted as stated: the first-ranked record of the example is neither
    the pair Chicken, Tomato nor the pair Chicken, Rice. *)
Lemma example_top_is_not_a_chicken_pair :
  exists top rest,
    snd (find_best_meal example_catalog 1.0 15 15 [] 3) = Ok (Some (top :: rest)) /\
    ~ (is_combination_of ["Chicken"; "Tomato"] top \/
       is_combination_of ["Chicken"; "Rice"] top).
Proof.
  eexists _, _. split; [vm_compute; reflexivity|].
  unfold is_combination_of. cbn [ingredients].
  intros [H | H]; apply Permutation_length in H; discriminate H.
Qed.

(** C4.  The returned list has at most five entries and is ordered by
    diversity descending, then protein descending, then cost ascending.  It
    is the first five of a stable sort of [valid_meals], the records of the
    kept combinations in the order of the enumeration (sizes 2 up to
    [max_ingredients], each size in the order of [combinations]): records
    with equal keys keep that order, in the sorted list and in the returned
    prefix. *)
Theorem find_best_meal_ranked
    (data : list Ingredient) (max_cost min_protein max_fat : Q)
    (excluded_tags : list string) (max_ingredients : Z) (meals : list Meal) :
  snd (find_best_meal data max_cost min_protein max_fat excluded_tags max_ingredients)
  = Ok (Some meals) ->
  let safe_ingredients := snd (safety_filter data excluded_tags) in
  (length meals <= 5)%nat /\
  StronglySorted ranks_no_later meals /\
  exists outcomes sorted,
    let valid_meals := omap id outcomes in
    mapM (fun entry => try_combo max_cost min_protein max_fat (fst entry) (snd entry))
      (flat_map (fun n => map (pair n) (combinations n safe_ingredients))
         (seq 2 (Z.to_nat (max_ingredients - 1))))
    = Ok outcomes /\
    meals = take 5 sorted /\
    Permutation sorted valid_meals /\
    StronglySorted ranks_no_later sorted /\
    (forall k, List.filter (same_rank k) sorted = List.filter (same_rank k) valid_meals) /\
    (forall k, List.filter (same_rank k) meals `prefix_of` List.filter (same_rank k) valid_meals).
Proof.
  intros Hres safe_ingredients.
  destruct (find_best_meal_returned _ _ _ _ _ _ _ Hres) as [valid_meals [Hc [_ ->]]].
  split; [rewrite length_take; lia|].
  split; [apply StronglySorted_take, py_sort_sorted|].
  apply collect_in_order in Hc as [outcomes [Hm ->]].
  unfold enumerate in Hm. rewrite sizes_seq in Hm.
  exists outcomes, (py_sort (omap id outcomes)). cbv zeta.
  split; [exact Hm|]. split; [reflexivity|].
  split; [apply py_sort_perm|]. split; [apply py_sort_sorted|].
  split; [intros k; apply py_sort_stable|].
  intros k. rewrite <- (py_sort_stable (omap id outcomes) k). apply filter_take_prefix.
Qed.

Lemma find_best_meal_ranked_witness :
  (length example_result <= 5)%nat /\
  StronglySorted ranks_no_later example_result /\
  exists outcomes sorted,
    let valid_meals := omap id outcomes in
    mapM (fun entry => try_combo 1 15 15 (fst entry) (snd entry))
      (flat_map (fun n => map (pair n) (combinations n (snd (safety_filter example_catalog []))))
         (seq 2 (Z.to_nat (3 - 1))))
    = Ok outcomes /\
    example_result = take 5 sorted /\
    Permutation sorted valid_meals /\
    StronglySorted ranks_no_later sorted /\
    (forall k, List.filter (same_rank k) sorted = List.filter (same_rank k) valid_meals) /\
    (forall k, List.filter (same_rank k) example_result
               `prefix_of` List.filter (same_rank k) valid_meals).
Proof.
  apply (find_best_meal_ranked example_catalog 1 15 15 [] 3 example_result).
  vm_compute. reflexivity.
Defined.

(** C5 (as the code has it).  When no combination of the enumeration passes
    the filters the call raises nothing and returns [None]; so it does on
    the empty catalog; and no call ever returns an empty list. *)
Theorem find_best_meal_none_when_nothing_survives :
  (forall (data : list Ingredient) (max_cost min_protein max_fat : Q)
          (excluded_tags : list string) (max_ingredients : Z),
      (forall n combo,
          In (n, combo) (enumerate (snd (safety_filter data excluded_tags)) max_ingredients) ->
          survives max_cost min_protein max_fat combo = false) ->
      snd (find_best_meal data max_cost min_protein max_fat excluded_tags max_ingredients)
      = Ok None)
  /\
  (forall (max_cost min_protein max_fat : Q) (excluded_tags : list string)
          (max_ingredients : Z),
      snd (find_best_meal [] max_cost min_protein max_fat excluded_tags max_ingredients)
      = Ok None)
  /\
  (forall (data : list Ingredient) (max_cost min_protein max_fat : Q)
          (excluded_tags : list string) (max_ingredients : Z),
      snd (find_best_meal data max_cost min_protein max_fat excluded_tags max_ingredients)
      <> Ok (Some [])).
Proof.
  assert (Hnone : forall data max_cost min_protein max_fat excluded_tags max_ingredients,
             (forall n combo,
                 In (n, combo) (enumerate (snd (safety_filter data excluded_tags)) max_ingredients) ->
                 survives max_cost min_protein max_fat combo = false) ->
             snd (find_best_meal data max_cost min_protein max_fat excluded_tags max_ingredients)
             = Ok None).
  { intros data max_cost min_protein max_fat excluded_tags max_ingredients H.
    rewrite find_best_meal_unfold. cbn [snd].
    rewrite collect_none; [reflexivity|].
    intros n combo Hin. apply try_combo_skipped; [|now apply (H n)].
    pose proof (enumerate_tagged data excluded_tags max_ingredients) as Ht.
    rewrite Forall_forall in Ht. apply (Ht (n, combo)). now apply list_elem_of_In. }
  split; [exact Hnone|]. split.
  - intros max_cost min_protein max_fat excluded_tags max_ingredients.
    apply Hnone. intros n combo Hin. exfalso.
    apply enumerate_spec in Hin as [Hn Hc]. apply sizes_spec in Hn as [Hn _].
    destruct n as [|n]; [lia | destruct Hc].
  - intros data max_cost min_protein max_fat excluded_tags max_ingredients Hres.
    destruct (find_best_meal_returned _ _ _ _ _ _ _ Hres) as [valid_meals [_ [Hne Heq]]].
    pose proof (Permutation_length (py_sort_perm valid_meals)) as Hlen.
    destruct valid_meals as [|m ms]; [congruence|].
    destruct (py_sort (m :: ms)); [discriminate Hlen | discriminate Heq].
Qed.

Lemma find_best_meal_none_when_nothing_survives_witness :
  snd (find_best_meal example_catalog 1 100 15 [] 3) = Ok None.
Proof.
  apply (proj1 find_best_meal_none_when_nothing_survives example_catalog 1 100 15 [] 3%Z).
  intros n combo Hin. vm_compute in Hin.
  repeat (destruct Hin as [[= <- <-] | Hin]; [vm_compute; reflexivity|]).
  destruct Hin.
Defined.

(** C5, refuted as stated: on the empty catalog the call returns [None],
    which is not the empty list. *)
Lemma empty_catalog_returns_none_not_empty_list :
  snd (find_best_meal [] 1 15 15 [] 4) = Ok None /\
  snd (find_best_meal [] 1 15 15 [] 4) <> Ok (Some []).
Proof. split; [vm_compute; reflexivity | vm_compute; discriminate]. Qed.

(** ** The duplicate-role rule as the loop applies it *)

Lemma roles_cons (item : Ingredient) (combo : list Ingredient) :
  roles (item :: combo) =
  match functional_tags item with
  | Some tags =>
      match macro_role tags with
      | Some role => role :: roles combo
      | None => roles combo
      end
  | None => roles combo
  end.
Proof. unfold roles. cbn [omap list_omap]. now destruct (functional_tags item). Qed.

Lemma scan_combo_roles (combo : list Ingredient) (ftags macro tags : gset string) :
  scan_combo combo ftags macro = Ok (Some tags) ->
  NoDup (roles combo) /\ forall role, role ∈ roles combo -> role ∉ macro.
Proof.
  revert ftags macro; induction combo as [|item combo IH]; intros ftags macro.
  - intros _. split; [constructor | intros role Hin; inversion Hin].
  - cbn [scan_combo]. rewrite roles_cons. unfold get_item_tags.
    destruct (functional_tags item) as [itags|]; [|discriminate].
    rewrite bind_Ok. unfold macro_role.
    destruct (bool_decide ("Starch" ∈ itags)).
    + case_bool_decide as Hm; [discriminate|]. intros H.
      destruct (IH _ _ H) as [Hnd Hout]. split.
      * constructor; [|exact Hnd]. intros Hin. apply (Hout _ Hin).
        apply elem_of_union. right. now apply elem_of_singleton.
      * intros role Hin. apply elem_of_cons in Hin as [-> | Hin]; [exact Hm|].
        intros Hrole. apply (Hout _ Hin). apply elem_of_union. now left.
    + destruct (bool_decide ("Protein" ∈ itags)).
      * case_bool_decide as Hm; [discriminate|]. intros H.
        destruct (IH _ _ H) as [Hnd Hout]. split.
        -- constructor; [|exact Hnd]. intros Hin. apply (Hout _ Hin).
        apply elem_of_union. right. now apply elem_of_singleton.
        -- intros role Hin. apply elem_of_cons in Hin as [-> | Hin]; [exact Hm|].
           intros Hrole. apply (Hout _ Hin). apply elem_of_union. now left.
      * intros H. destruct (IH _ _ H) as [Hnd Hout]. now split.
Qed.

(** X11.  What holds of every returned record: it names a combination of
    safe ingredients in which no two members count under the same role.  Two
    members tagged Protein are told apart when one of them is tagged Starch
    as well. *)
Theorem duplicate_rule_as_implemented
    (data : list Ingredient) (max_cost min_protein max_fat : Q)
    (excluded_tags : list string) (max_ingredients : Z) (meals : list Meal) (meal : Meal) :
  snd (find_best_meal data max_cost min_protein max_fat excluded_tags max_ingredients)
  = Ok (Some meals) ->
  In meal meals ->
  exists combo,
    sublist combo (snd (safety_filter data excluded_tags)) /\
    mapM (fun item => clean_ingredient_name (name item)) combo = Ok (ingredients meal) /\
    NoDup (roles combo).
Proof.
  intros Hres Hin.
  destruct (find_best_meal_returned _ _ _ _ _ _ _ Hres) as [valid_meals [Hc [_ ->]]].
  assert (Hv : In meal valid_meals).
  { apply (Permutation_in meal (py_sort_perm valid_meals)).
    apply list_elem_of_In. eapply elem_of_sublist; [|apply sublist_take].
    apply list_elem_of_In. exact Hin. }
  destruct (collect_kept _ _ _ _ _ Hc meal Hv) as [n [combo [Hen Htry]]].
  apply try_combo_kept in Htry as [_ [tags [Hscan [Hnames _]]]].
  apply enumerate_spec in Hen as [_ Hcomb]. apply combinations_sublist in Hcomb as [Hsub _].
  exists combo. repeat split; [exact Hsub | exact Hnames |].
  now apply (scan_combo_roles combo ∅ ∅ tags).
Qed.

(** C9.  [clean_ingredient_name] raises [IndexError] on the empty name and
    on a name that is all noise, and [find_best_meal] raises with it: on
    [noise_name_catalog], and whenever a combination that passes the filters
    has a member whose name cannot be cleaned. *)
Theorem clean_ingredient_name_can_raise :
  clean_ingredient_name "" = Raise IndexError /\
  clean_ingredient_name ", raw" = Raise IndexError /\
  snd (find_best_meal noise_name_catalog 1 0 15 [] 4) = Raise IndexError /\
  (forall (data : list Ingredient) (max_cost min_protein max_fat : Q)
          (excluded_tags : list string) (max_ingredients : Z)
          (n : nat) (combo : list Ingredient) (item : Ingredient),
      In (n, combo) (enumerate (snd (safety_filter data excluded_tags)) max_ingredients) ->
      survives max_cost min_protein max_fat combo = true ->
      In item combo ->
      clean_ingredient_name (name item) = Raise IndexError ->
      snd (find_best_meal data max_cost min_protein max_fat excluded_tags max_ingredients)
      = Raise IndexError).
Proof.
  split; [reflexivity|]. split; [vm_compute; reflexivity|].
  split; [vm_compute; reflexivity|].
  intros data max_cost min_protein max_fat excluded_tags max_ingredients n combo item
         Hin Hs Hitem Hbad.
  rewrite find_best_meal_unfold. cbn [snd].
  rewrite (collect_bad max_cost min_protein max_fat _ n combo
             (enumerate_tagged data excluded_tags max_ingredients) Hin); [reflexivity|].
  destruct (try_combo_survives max_cost min_protein max_fat n combo Hs) as [tags [_ ->]].
  now rewrite (mapM_clean_bad combo item Hitem Hbad).
Qed.

Lemma clean_ingredient_name_can_raise_witness :
  snd (find_best_meal noise_name_catalog 1 0 15 [] 2) = Raise IndexError.
Proof.
  apply (proj2 (proj2 (proj2 clean_ingredient_name_can_raise))
           noise_name_catalog 1 0 15 [] 2%Z 2%nat
           (snd (safety_filter noise_name_catalog []))
           (mkIngredient ", raw" 0.10 7.1 80.0 0.7 (Some []) (Some {["Other"]}))).
  - vm_compute. left. reflexivity.
  - vm_compute. reflexivity.
  - vm_compute. left. reflexivity.
  - vm_compute. reflexivity.
Defined.

(** C10.  After the call the caller's list has the same length; a record
    whose allergy tags avoid [excluded_tags] has had ['functional_tags']
    set to the tags of its name, a record with an excluded tag is as it was,
    and no other field of any record has changed. *)
Theorem find_best_meal_writes_functional_tags
    (data : list Ingredient) (max_cost min_protein max_fat : Q)
    (excluded_tags : list string) (max_ingredients : Z) (i : nat) (r : Ingredient) :
  data !! i = Some r ->
  let data' :=
    fst (find_best_meal data max_cost min_protein max_fat excluded_tags max_ingredients) in
  length data' = length data /\
  exists r',
    data' !! i = Some r' /\
    name r' = name r /\
    cost_per_100g r' = cost_per_100g r /\
    protein_g r' = protein_g r /\
    carbs_g r' = carbs_g r /\
    fat_g r' = fat_g r /\
    allergy_tags r' = allergy_tags r /\
    ((forall tag, In tag (default [] (allergy_tags r)) -> ~ In tag excluded_tags) ->
     functional_tags r' = Some (get_functional_tags (name r))) /\
    ((exists tag, In tag (default [] (allergy_tags r)) /\ In tag excluded_tags) ->
     r' = r).
Proof.
  intros Hi data'. subst data'.
  rewrite find_best_meal_unfold. cbn [fst]. rewrite safety_filter_stored.
  split; [apply length_map|].
  exists (after_filter excluded_tags r).
  split; [now rewrite list_lookup_fmap, Hi|].
  unfold after_filter. destruct (is_safe excluded_tags r) eqn:Hs.
  - repeat split; try reflexivity.
    intros Hex. apply is_safe_false in Hex. congruence.
  - repeat split; try reflexivity.
    intros Hsafe. apply is_safe_true in Hsafe. congruence.
Qed.

Lemma find_best_meal_writes_functional_tags_witness :
  let data' := fst (find_best_meal example_catalog 1 15 15 ["poultry"] 3) in
  length data' = 4%nat /\
  exists r',
    data' !! 2%nat = Some r' /\
    name r' = "Chicken" /\
    cost_per_100g r' = 0.75 /\
    protein_g r' = 31 /\
    carbs_g r' = 0 /\
    fat_g r' = 3.6 /\
    allergy_tags r' = Some ["poultry"; "meat"] /\
    ((forall tag, In tag ["poultry"; "meat"] -> ~ In tag ["poultry"]) ->
     functional_tags r' = Some (get_functional_tags "Chicken")) /\
    ((exists tag, In tag ["poultry"; "meat"] /\ In tag ["poultry"]) ->
     r' = mkIngredient "Chicken" 0.75 31 0 3.6 (Some ["poultry"; "meat"]) None).
Proof.
  apply (find_best_meal_writes_functional_tags example_catalog 1 15 15 ["poultry"] 3 2
           (mkIngredient "Chicken" 0.75 31 0 3.6 (Some ["poultry"; "meat"]) None)).
  reflexivity.
Defined.

(** C1, at the input where the code departs from it: "Chicken Rice" carries
    both Starch and Protein, "Egg" carries Protein, and the pair is returned. *)
Theorem two_proteins_are_returned :
  snd (find_best_meal two_protein_catalog 1 15 15 [] 4)
  = Ok (Some [mkMeal ["Chicken Rice"; "Egg"] (11 # 20) (113 # 5) (23 # 2) 2 2]) /\
  get_functional_tags "Chicken Rice" = {["Protein"; "Starch"]} /\
  get_functional_tags "Egg" = {["Protein"]} /\
  map functional_tags (fst (find_best_meal two_protein_catalog 1 15 15 [] 4))
  = [Some {["Protein"; "Starch"]}; Some {["Protein"]}].
Proof.
  repeat split; try (vm_compute; reflexivity);
    apply (bool_decide_unpack _); vm_compute; exact I.
Qed.

(** * Further properties *)

(** ** api_utils.py: reading nutrients *)

Section Nutrients.

Import ApiUtils.

Lemma find_first {A : Type} (test : A -> bool) (pre : list A) (x : A) (post : list A) :
  (forall y, In y pre -> test y = false) -> test x = true ->
  List.find test (pre ++ x :: post) = Some x.
Proof.
  intros Hpre Hx. induction pre as [|y pre IH]; cbn [List.find app].
  - now rewrite Hx.
  - rewrite (Hpre y) by now left. apply IH. intros z Hz. apply Hpre. now right.
Qed.

Lemma find_nowhere {A : Type} (test : A -> bool) (l : list A) :
  (forall y, In y l -> test y = false) -> List.find test l = None.
Proof.
  intros H. induction l as [|y l IH]; [reflexivity|]. cbn [List.find].
  rewrite (H y) by now left. apply IH. intros z Hz. apply H. now right.
Qed.

Lemma name_is_true (nutrient_name : string) (nutrient : Nutrient) :
  name_is nutrient_name nutrient = true <-> nutrientName nutrient = Val nutrient_name.
Proof.
  unfold name_is. destruct (nutrientName nutrient) as [| |s]; try (split; discriminate).
  rewrite String.eqb_eq. split; [now intros -> | now intros [= ->]].
Qed.

Lemma number_is_true (number : string) (nutrient : Nutrient) :
  number_is number nutrient = true <-> nutrientNumber nutrient = Val number.
Proof.
  unfold number_is. destruct (nutrientNumber nutrient) as [| |s]; try (split; discriminate).
  rewrite String.eqb_eq. split; [now intros -> | now intros [= ->]].
Qed.

Lemma name_is_false (nutrient_name : string) (nutrient : Nutrient) :
  nutrientName nutrient <> Val nutrient_name -> name_is nutrient_name nutrient = false.
Proof.
  intros H. apply not_true_iff_false. now rewrite name_is_true.
Qed.

Lemma number_is_false (number : string) (nutrient : Nutrient) :
  nutrientNumber nutrient <> Val number -> number_is number nutrient = false.
Proof.
  intros H. apply not_true_iff_false. now rewrite number_is_true.
Qed.

End Nutrients.

(** X20.  The first entry that carries the nutrient's name decides the value,
    whatever entries stand behind it and whatever numbers any entry has: its
    value when it has one, 0 when it has no ["value"], and an exception of
    [float] when the value is no number. *)
Theorem extract_nutrient_value_first_name_wins
    (pre post : list ApiUtils.Nutrient) (nutrient : ApiUtils.Nutrient)
    (nutrient_name : string) :
  (forall other, In other pre -> ApiUtils.nutrientName other <> ApiUtils.Val nutrient_name) ->
  ApiUtils.nutrientName nutrient = ApiUtils.Val nutrient_name ->
  ApiUtils.extract_nutrient_value (pre ++ nutrient :: post) nutrient_name
  = match ApiUtils.value nutrient with
    | ApiUtils.Val q => Some q
    | ApiUtils.Missing => Some 0
    | ApiUtils.Null => None
    end.
Proof.
  intros Hpre Hn. unfold ApiUtils.extract_nutrient_value.
  rewrite (find_first _ pre nutrient post).
  - unfold ApiUtils.read_value. now destruct (ApiUtils.value nutrient).
  - intros other Hin. now apply name_is_false, Hpre.
  - now apply name_is_true.
Qed.

Lemma extract_nutrient_value_first_name_wins_witness :
  ApiUtils.extract_nutrient_value
    ([ApiUtils.mkNutrient (ApiUtils.Val "Energy") (ApiUtils.Val "203") (ApiUtils.Val 50)]
     ++ ApiUtils.mkNutrient (ApiUtils.Val "Protein") (ApiUtils.Val "999") (ApiUtils.Val 21)
     :: [ApiUtils.mkNutrient (ApiUtils.Val "Protein") (ApiUtils.Val "203") (ApiUtils.Val 7)])
    "Protein"
  = Some 21.
Proof.
  apply (extract_nutrient_value_first_name_wins
           [ApiUtils.mkNutrient (ApiUtils.Val "Energy") (ApiUtils.Val "203") (ApiUtils.Val 50)]
           [ApiUtils.mkNutrient (ApiUtils.Val "Protein") (ApiUtils.Val "203") (ApiUtils.Val 7)]
           (ApiUtils.mkNutrient (ApiUtils.Val "Protein") (ApiUtils.Val "999") (ApiUtils.Val 21))
           "Protein").
  - intros other [<- | []]. discriminate.
  - reflexivity.
Defined.

(** X21.  When no entry carries the name, the number decides, and only for
    three names: "Protein" reads the first entry numbered "203", "Fat" and
    "Total lipid" read the first entry numbered "204".  Under any other name,
    "Total lipid (fat)" among them, and when no entry has the number, the
    value is 0. *)
Theorem extract_nutrient_value_number_fallback
    (nutrients : list ApiUtils.Nutrient) (nutrient_name : string) :
  (forall other, In other nutrients ->
                 ApiUtils.nutrientName other <> ApiUtils.Val nutrient_name) ->
  let number :=
    if String.eqb nutrient_name "Protein" then Some "203"
    else if String.eqb nutrient_name "Fat" || String.eqb nutrient_name "Total lipid"
         then Some "204" else None in
  (number = None -> ApiUtils.extract_nutrient_value nutrients nutrient_name = Some 0) /\
  (forall code, number = Some code ->
     (forall other, In other nutrients -> ApiUtils.nutrientNumber other <> ApiUtils.Val code) ->
     ApiUtils.extract_nutrient_value nutrients nutrient_name = Some 0) /\
  (forall code pre nutrient post, number = Some code ->
     nutrients = (pre ++ nutrient :: post)%list ->
     (forall other, In other pre -> ApiUtils.nutrientNumber other <> ApiUtils.Val code) ->
     ApiUtils.nutrientNumber nutrient = ApiUtils.Val code ->
     ApiUtils.extract_nutrient_value nutrients nutrient_name = ApiUtils.read_value nutrient).
Proof.
  intros Hname number. subst number. unfold ApiUtils.extract_nutrient_value.
  rewrite (find_nowhere (ApiUtils.name_is nutrient_name) nutrients)
    by (intros y Hy; now apply name_is_false, Hname).
  destruct (String.eqb nutrient_name "Protein") eqn:Hp.
  - apply String.eqb_eq in Hp. subst nutrient_name. cbn [String.eqb Ascii.eqb Bool.eqb orb].
    split; [discriminate|]. split.
    + intros code [= <-] Hnone.
      now rewrite (find_nowhere (ApiUtils.number_is "203") nutrients)
        by (intros y Hy; now apply number_is_false, Hnone).
    + intros code pre nutrient post [= <-] -> Hpre Hn.
      rewrite (find_first _ pre nutrient post); [reflexivity | | now apply number_is_true].
      intros y Hy. now apply number_is_false, Hpre.
  - destruct (String.eqb nutrient_name "Fat" || String.eqb nutrient_name "Total lipid").
    + split; [discriminate|]. split.
      * intros code [= <-] Hnone.
        now rewrite (find_nowhere (ApiUtils.number_is "204") nutrients)
          by (intros y Hy; now apply number_is_false, Hnone).
      * intros code pre nutrient post [= <-] -> Hpre Hn.
        rewrite (find_first _ pre nutrient post); [reflexivity | | now apply number_is_true].
        intros y Hy. now apply number_is_false, Hpre.
    + split; [reflexivity|]. split; [discriminate|]. intros; discriminate.
Qed.

Lemma extract_nutrient_value_number_fallback_witness :
  ApiUtils.extract_nutrient_value
    [ApiUtils.mkNutrient (ApiUtils.Val "Total lipid (fat)") (ApiUtils.Val "204") (ApiUtils.Val 3)]
    "Fat" = Some 3
  /\
  ApiUtils.extract_nutrient_value
    [ApiUtils.mkNutrient (ApiUtils.Val "Total lipids") (ApiUtils.Val "204") (ApiUtils.Val 3)]
    "Total lipid (fat)" = Some 0.
Proof.
  split.
  - apply (proj2 (proj2 (extract_nutrient_value_number_fallback
             [ApiUtils.mkNutrient (ApiUtils.Val "Total lipid (fat)") (ApiUtils.Val "204")
                (ApiUtils.Val 3)] "Fat"
             ltac:(intros other [<- | []]; discriminate)))
             "204" []
             (ApiUtils.mkNutrient (ApiUtils.Val "Total lipid (fat)") (ApiUtils.Val "204")
                (ApiUtils.Val 3)) []).
    + reflexivity.
    + reflexivity.
    + intros other [].
    + reflexivity.
  - apply (proj1 (extract_nutrient_value_number_fallback
             [ApiUtils.mkNutrient (ApiUtils.Val "Total lipids") (ApiUtils.Val "204")
                (ApiUtils.Val 3)] "Total lipid (fat)"
             ltac:(intros other [<- | []]; discriminate))).
    reflexivity.
Defined.

(** ** ingredients.py: functional tags *)

Section FunctionalTags.

Lemma any_in_occurs (words : list string) (s : string) :
  any_in words s = true <-> exists word, In word words /\ occurs_in word s.
Proof.
  unfold any_in. rewrite existsb_exists.
  split; intros [w [Hw H]]; exists w; (split; [exact Hw|]); now apply contains_spec.
Qed.

Lemma occurs_in_trans (a b c : string) : occurs_in a b -> occurs_in b c -> occurs_in a c.
Proof.
  intros [p1 [q1 ->]] [p2 [q2 ->]]. exists (p2 +:+ p1), (q1 +:+ q2).
  now rewrite !app_assoc_str.
Qed.

Lemma any_in_mono (words : list string) (s t : string) :
  occurs_in s t -> any_in words s = true -> any_in words t = true.
Proof.
  intros Hst. rewrite !any_in_occurs. intros [w [Hw H]]. exists w.
  split; [exact Hw | now apply (occurs_in_trans w s t)].
Qed.

Lemma lower_char_twice (c : ascii) : Str.lower_char (Str.lower_char c) = Str.lower_char c.
Proof. destruct c as [[] [] [] [] [] [] [] []]; reflexivity. Qed.

Lemma lower_twice (s : string) : Str.lower (Str.lower s) = Str.lower s.
Proof. induction s as [|c s IH]; simpl; [reflexivity | now rewrite lower_char_twice, IH]. Qed.

Lemma functional_groups_keys (tag : string) (words words' : list string) :
  In (tag, words) functional_groups -> In (tag, words') functional_groups -> words = words'.
Proof.
  unfold functional_groups. cbn [In]. intros H H'.
  repeat match goal with
         | H : _ \/ _ |- _ => destruct H
         | H : False |- _ => destruct H
         | H : (_, _) = (_, _) |- _ => inversion H; clear H; subst
         end; reflexivity.
Qed.

Lemma group_matches_iff (tag : string) (words : list string) (name : string) :
  In (tag, words) functional_groups ->
  any_in words (Str.lower name) = true <-> group_matches tag name.
Proof.
  intros Hin. rewrite any_in_occurs. unfold group_matches. split.
  - intros [w [Hw H]]. now exists words, w.
  - intros [words' [w [Hin' [Hw H]]]]. exists w. split; [|exact H].
    now rewrite (functional_groups_keys tag words words' Hin Hin').
Qed.

Lemma elem_of_get_functional_tags (name tag : string) :
  tag ∈ get_functional_tags name <->
  (tag = "Protein" /\ group_matches "Protein" name) \/
  (tag = "Starch" /\ group_matches "Starch" name) \/
  (tag = "Fat/Dairy" /\ group_matches "Fat/Dairy" name) \/
  (tag = "Produce" /\ group_matches "Produce" name) \/
  (tag = "Other" /\ ~ group_matches "Protein" name /\ ~ group_matches "Starch" name /\
   ~ group_matches "Fat/Dairy" name /\ ~ group_matches "Produce" name).
Proof.
  rewrite <- (group_matches_iff "Protein" _ name) by (cbn; tauto).
  rewrite <- (group_matches_iff "Starch" _ name) by (cbn; tauto).
  rewrite <- (group_matches_iff "Fat/Dairy" _ name) by (cbn; tauto).
  rewrite <- (group_matches_iff "Produce" _ name) by (cbn; tauto).
  unfold get_functional_tags.
  destruct (any_in ("chicken" :: _) (Str.lower name)) eqn:H1;
    destruct (any_in ("rice" :: _) (Str.lower name)) eqn:H2;
    destruct (any_in ("oil" :: _) (Str.lower name)) eqn:H3;
    destruct (any_in ("tomato" :: _) (Str.lower name)) eqn:H4;
    cbn [add_if]; case_bool_decide as He;
    try (exfalso; apply (f_equal size) in He; revert He; vm_compute; discriminate);
    try (exfalso; apply He; reflexivity);
    rewrite ?elem_of_union, ?elem_of_singleton, ?elem_of_empty;
    intuition (try discriminate; try congruence).
Qed.


Lemma group_matches_key (tag name : string) :
  group_matches tag name ->
  tag = "Protein" \/ tag = "Starch" \/ tag = "Fat/Dairy" \/ tag = "Produce".
Proof.
  intros [words [w [Hin _]]]. unfold functional_groups in Hin. cbn [In] in Hin.
  repeat (destruct Hin as [[= <- _] | Hin]; [tauto|]). destruct Hin.
Qed.

Lemma elem_of_get_functional_tags_group (name tag : string) :
  tag <> "Other" -> tag ∈ get_functional_tags name <-> group_matches tag name.
Proof.
  intros Hne. rewrite elem_of_get_functional_tags. split.
  - intros [[-> H] | [[-> H] | [[-> H] | [[-> H] | [-> _]]]]]; congruence.
  - intros H. destruct (group_matches_key tag name H) as [-> | [-> | [-> | ->]]]; tauto.
Qed.

Lemma get_functional_tags_cases (name : string) :
  exists b1 b2 b3 b4 : bool,
    get_functional_tags name =
    let tags := add_if b4 "Produce" (add_if b3 "Fat/Dairy" (add_if b2 "Starch"
                  (add_if b1 "Protein" ∅))) in
    if bool_decide (tags = ∅) then tags ∪ {["Other"]} else tags.
Proof. unfold get_functional_tags. eexists _, _, _, _. reflexivity. Qed.

End FunctionalTags.

(** X1.  Every name gets at least one and at most four of the five tags;
    "Other" is given exactly when no keyword of the four groups occurs in the
    lower-cased name, and then it is the only tag; each of the other four
    tags is given exactly when a keyword of its group occurs. *)
Theorem get_functional_tags_shape (name : string) :
  (1 <= size (get_functional_tags name) <= 4)%nat /\
  get_functional_tags name ⊆ {["Protein"; "Starch"; "Fat/Dairy"; "Produce"; "Other"]} /\
  ("Other" ∈ get_functional_tags name <-> get_functional_tags name = {["Other"]}) /\
  ("Other" ∈ get_functional_tags name <->
   forall tag, ~ group_matches tag name) /\
  (forall tag, tag <> "Other" ->
     tag ∈ get_functional_tags name <-> group_matches tag name).
Proof.
  split; [|split; [|split; [|split]]].
  - destruct (get_functional_tags_cases name) as [b1 [b2 [b3 [b4 ->]]]].
    destruct b1, b2, b3, b4; vm_compute; split; lia.
  - intros tag. rewrite elem_of_get_functional_tags.
    rewrite !elem_of_union, !elem_of_singleton. tauto.
  - split.
    + intros H. apply elem_of_get_functional_tags in H.
      destruct H as [[H _] | [[H _] | [[H _] | [[H _] | [_ [N1 [N2 [N3 N4]]]]]]]];
        try discriminate H.
      apply set_eq. intros tag. rewrite elem_of_get_functional_tags, elem_of_singleton.
      tauto.
    + intros ->. now apply elem_of_singleton.
  - rewrite elem_of_get_functional_tags. split.
    + intros [[H _] | [[H _] | [[H _] | [[H _] | [_ [N1 [N2 [N3 N4]]]]]]]];
        try discriminate H.
      intros tag Hm. destruct (group_matches_key tag name Hm) as [-> | [-> | [-> | ->]]]; tauto.
    + intros H. right. right. right. right. repeat split; auto.
  - apply elem_of_get_functional_tags_group.
Qed.

Lemma get_functional_tags_shape_witness :
  "Protein" ∈ get_functional_tags "Chicken Breast (Raw)" <->
  group_matches "Protein" "Chicken Breast (Raw)".
Proof.
  apply (proj2 (proj2 (proj2 (proj2 (get_functional_tags_shape "Chicken Breast (Raw)"))))).
  discriminate.
Defined.

(** X2.  The tags do not depend on the case of the name, and a name that
    contains another (case aside) has every tag of the shorter name except
    "Other". *)
Theorem get_functional_tags_of_longer_name (short long : string) :
  occurs_in (Str.lower short) (Str.lower long) ->
  get_functional_tags (Str.lower long) = get_functional_tags long /\
  forall tag, tag <> "Other" ->
    tag ∈ get_functional_tags short -> tag ∈ get_functional_tags long.
Proof.
  intros Hocc. split.
  - apply set_eq. intros tag. rewrite !elem_of_get_functional_tags.
    unfold group_matches. now rewrite lower_twice.
  - intros tag Hne. rewrite !elem_of_get_functional_tags_group by exact Hne.
    intros [words [w [Hin [Hw H]]]]. exists words, w.
    split; [exact Hin|]. split; [exact Hw|]. now apply (occurs_in_trans w _ _ H).
Qed.

Lemma get_functional_tags_of_longer_name_witness :
  get_functional_tags (Str.lower "Chicken Rice") = get_functional_tags "Chicken Rice" /\
  forall tag, tag <> "Other" ->
    tag ∈ get_functional_tags "RICE" -> tag ∈ get_functional_tags "Chicken Rice".
Proof.
  apply (get_functional_tags_of_longer_name "RICE" "Chicken Rice").
  exists "chicken ", "". reflexivity.
Defined.

(** ** ingredients.py: more on [find_best_meal] *)

Section EngineFacts.

Lemma mapM_result_length {A B : Type} (f : A -> result B) (l : list A) (ys : list B) :
  mapM f l = Ok ys -> length ys = length l.
Proof.
  revert ys; induction l as [|x l IH]; intros ys; cbn [mapM].
  - now intros [= <-].
  - destruct (f x) as [y|e]; rewrite ?bind_Ok, ?bind_Raise; [|discriminate].
    destruct (mapM f l) as [ys'|e]; rewrite ?bind_Ok, ?bind_Raise; [|discriminate].
    intros [= <-]. cbn [length]. now rewrite (IH ys' eq_refl).
Qed.

Lemma mapM_result_map {A B C : Type} (f : B -> result C) (g : A -> B) (l : list A) :
  mapM f (map g l) = mapM (fun x => f (g x)) l.
Proof.
  induction l as [|x l IH]; [reflexivity|]. cbn [map mapM]. now rewrite IH.
Qed.

Lemma sublist_of_map {A B : Type} (f : A -> B) (k : list B) (l : list A) :
  sublist k (map f l) -> exists l', k = map f l' /\ sublist l' l.
Proof.
  revert k; induction l as [|x l IH]; intros k Hs; cbn [map] in Hs.
  - apply sublist_nil_r in Hs as ->. exists []. split; [reflexivity | constructor].
  - inversion Hs as [| y k' ? Hs' | y k' ? Hs']; subst.
    + destruct (IH k' Hs') as [l' [-> Hl']]. exists (x :: l').
      split; [reflexivity | now constructor].
    + destruct (IH k Hs') as [l' [-> Hl']]. exists l'. split; [reflexivity | now constructor].
Qed.

Lemma sublist_filter_bool {A : Type} (f : A -> bool) (l : list A) :
  sublist (List.filter f l) l.
Proof.
  induction l as [|x l IH]; cbn [List.filter]; [constructor|].
  destruct (f x); now constructor.
Qed.

Lemma sublist_Forall_filter {A : Type} (f : A -> bool) (k l : list A) :
  sublist k (List.filter f l) -> Forall (fun x => f x = true) k.
Proof.
  intros Hs. apply Forall_forall. intros x Hx.
  apply (elem_of_sublist _ _ _ Hx), list_elem_of_In, filter_In in Hs. tauto.
Qed.

(** A combination of the enumeration is made of safe records of the
    catalog, in the catalog's order, with their tags attached. *)
Lemma enumerated_combo (data : list Ingredient) (excluded_tags : list string)
    (max_ingredients : Z) (n : nat) (combo : list Ingredient) :
  In (n, combo) (enumerate (snd (safety_filter data excluded_tags)) max_ingredients) ->
  exists members,
    combo = map with_tags members /\
    sublist members (List.filter (is_safe excluded_tags) data) /\
    length members = n /\ (2 <= n)%nat /\ (Z.of_nat n <= max_ingredients)%Z.
Proof.
  intros Hin. apply enumerate_spec in Hin as [Hn Hc].
  apply sizes_spec in Hn as [H2 Hmax].
  apply combinations_sublist in Hc as [Hs Hl].
  rewrite safety_filter_safe in Hs.
  apply sublist_of_map in Hs as [members [-> Hm]].
  exists members. rewrite length_map in Hl. now repeat split.
Qed.

(** Where a returned record comes from. *)
Lemma returned_from (data : list Ingredient) (max_cost min_protein max_fat : Q)
    (excluded_tags : list string) (max_ingredients : Z) (meals : list Meal) (meal : Meal) :
  snd (find_best_meal data max_cost min_protein max_fat excluded_tags max_ingredients)
  = Ok (Some meals) ->
  In meal meals ->
  exists n combo,
    In (n, combo) (enumerate (snd (safety_filter data excluded_tags)) max_ingredients) /\
    try_combo max_cost min_protein max_fat n combo = Ok (Some meal).
Proof.
  intros Hres Hin.
  destruct (find_best_meal_returned _ _ _ _ _ _ _ Hres) as [valid_meals [Hc [_ ->]]].
  apply (collect_kept _ _ _ _ _ Hc).
  apply (Permutation_in meal (py_sort_perm valid_meals)).
  apply list_elem_of_In. eapply elem_of_sublist; [|apply sublist_take].
  apply list_elem_of_In. exact Hin.
Qed.

End EngineFacts.

(** X5.  A returned combination is made of records of the catalog, in the
    catalog's order, none of which has an allergy tag that is excluded; the
    names in the record are their cleaned names. *)
Theorem find_best_meal_uses_safe_ingredients_only
    (data : list Ingredient) (max_cost min_protein max_fat : Q)
    (excluded_tags : list string) (max_ingredients : Z) (meals : list Meal) (meal : Meal) :
  snd (find_best_meal data max_cost min_protein max_fat excluded_tags max_ingredients)
  = Ok (Some meals) ->
  In meal meals ->
  exists members,
    sublist members data /\
    Forall (fun r => forall tag, In tag (default [] (allergy_tags r)) ->
                                 ~ In tag excluded_tags) members /\
    mapM (fun r => clean_ingredient_name (name r)) members = Ok (ingredients meal).
Proof.
  intros Hres Hin.
  destruct (returned_from _ _ _ _ _ _ _ _ Hres Hin) as [n [combo [Hen Htry]]].
  apply enumerated_combo in Hen as [members [-> [Hsub _]]].
  apply try_combo_kept in Htry as [_ [tags [_ [Hnames _]]]].
  exists members. split; [|split].
  - etransitivity; [exact Hsub | apply sublist_filter_bool].
  - eapply Forall_impl; [exact (sublist_Forall_filter _ _ _ Hsub)|].
    intros r Hr. now apply is_safe_true.
  - now rewrite mapM_result_map in Hnames.
Qed.

Lemma find_best_meal_uses_safe_ingredients_only_witness :
  exists members,
    sublist members example_catalog /\
    Forall (fun r => forall tag, In tag (default [] (allergy_tags r)) ->
                                 ~ In tag ["poultry"]) members /\
    mapM (fun r => clean_ingredient_name (name r)) members = Ok ["Rice"; "Egg"; "Tomato"].
Proof.
  apply (find_best_meal_uses_safe_ingredients_only example_catalog 1 15 15 ["poultry"] 3
           [mkMeal ["Rice"; "Egg"; "Tomato"] (43 # 100) (103 # 5) (52 # 5) 3 3;
            mkMeal ["Rice"; "Egg"] (7 # 20) (197 # 10) (51 # 5) 2 2]
           (mkMeal ["Rice"; "Egg"; "Tomato"] (43 # 100) (103 # 5) (52 # 5) 3 3)).
  - vm_compute. reflexivity.
  - left. reflexivity.
Defined.

Section EngineFacts2.

Lemma get_functional_tags_subset (name : string) :
  get_functional_tags name ⊆ all_functional_tags.
Proof.
  intros tag. rewrite elem_of_get_functional_tags. unfold all_functional_tags.
  rewrite !elem_of_union, !elem_of_singleton. tauto.
Qed.

Lemma scan_combo_union (combo : list Ingredient) (ftags macro tags : gset string) :
  scan_combo combo ftags macro = Ok (Some tags) ->
  tags = ftags ∪ ⋃ (omap functional_tags combo).
Proof.
  revert ftags macro; induction combo as [|item combo IH]; intros ftags macro.
  - cbn [scan_combo omap list_omap]. rewrite union_list_nil. intros [= <-].
    apply set_eq. intros x. rewrite elem_of_union, elem_of_empty. tauto.
  - cbn [scan_combo omap list_omap]. unfold get_item_tags.
    destruct (functional_tags item) as [itags|]; [|discriminate].
    rewrite bind_Ok, union_list_cons.
    assert (Hgoal : forall macro', scan_combo combo (ftags ∪ itags) macro' = Ok (Some tags) ->
                                   tags = ftags ∪ (itags ∪ ⋃ omap functional_tags combo)).
    { intros macro' H. rewrite (IH _ _ H). apply set_eq. intros x.
      rewrite !elem_of_union. tauto. }
    repeat case_bool_decide; try discriminate; apply Hgoal.
Qed.

Lemma omap_tags_with_tags (members : list Ingredient) :
  omap functional_tags (map with_tags members)
  = map (fun r => get_functional_tags (name r)) members.
Proof.
  induction members as [|r members IH]; [reflexivity|].
  cbn [map omap list_omap with_tags set_functional_tags functional_tags].
  f_equal. exact IH.
Qed.

Lemma union_list_subset (U : gset string) (l : list (gset string)) :
  Forall (fun X => X ⊆ U) l -> ⋃ l ⊆ U.
Proof.
  induction 1 as [|X l HX _ IH]; rewrite ?union_list_nil, ?union_list_cons.
  - intros x Hx. now apply elem_of_empty in Hx.
  - intros x Hx. apply elem_of_union in Hx as [Hx | Hx]; [now apply HX | now apply IH].
Qed.

End EngineFacts2.

(** X6.  In a returned record [num_ingredients] is the number of names in
    it, at least 2, at most [max_ingredients] and at most the number of safe
    records; [diversity_score] is the number of distinct functional tags of
    the members, which is at most 5. *)
Theorem find_best_meal_record_consistent
    (data : list Ingredient) (max_cost min_protein max_fat : Q)
    (excluded_tags : list string) (max_ingredients : Z) (meals : list Meal) (meal : Meal) :
  snd (find_best_meal data max_cost min_protein max_fat excluded_tags max_ingredients)
  = Ok (Some meals) ->
  In meal meals ->
  num_ingredients meal = length (ingredients meal) /\
  (2 <= num_ingredients meal)%nat /\
  (Z.of_nat (num_ingredients meal) <= max_ingredients)%Z /\
  (num_ingredients meal <= length (List.filter (is_safe excluded_tags) data))%nat /\
  (diversity_score meal <= 5)%nat /\
  exists members,
    sublist members data /\
    length members = num_ingredients meal /\
    diversity_score meal
    = size (⋃ (map (fun r => get_functional_tags (name r)) members)).
Proof.
  intros Hres Hin.
  destruct (returned_from _ _ _ _ _ _ _ _ Hres Hin) as [n [combo [Hen Htry]]].
  apply enumerated_combo in Hen as [members [-> [Hsub [Hlen [H2 Hmax]]]]].
  apply try_combo_kept in Htry as [_ [tags [Hscan [Hnames [_ [_ [_ [Hnum Hdiv]]]]]]]].
  apply mapM_result_length in Hnames. rewrite length_map in Hnames.
  apply scan_combo_union in Hscan. rewrite omap_tags_with_tags in Hscan.
  assert (Htags : tags = ⋃ map (fun r => get_functional_tags (name r)) members).
  { rewrite Hscan. apply set_eq. intros x. rewrite elem_of_union, elem_of_empty. tauto. }
  rewrite Hnum, Hdiv.
  split; [congruence|]. split; [exact H2|]. split; [exact Hmax|].
  split; [rewrite <- Hlen; now apply sublist_length|].
  split.
  - transitivity (size all_functional_tags); [|vm_compute; lia].
    apply subseteq_size. rewrite Htags. apply union_list_subset, Forall_forall.
    intros X HX. apply list_elem_of_In, in_map_iff in HX as [r [<- _]].
    apply get_functional_tags_subset.
  - exists members. split; [|split; [exact Hlen | now rewrite Htags]].
    etransitivity; [exact Hsub | apply sublist_filter_bool].
Qed.

Lemma find_best_meal_record_consistent_witness :
  3%nat = length ["Rice"; "Chicken"; "Tomato"] /\
  (2 <= 3)%nat /\
  (Z.of_nat 3 <= 3)%Z /\
  (3 <= length (List.filter (is_safe []) example_catalog))%nat /\
  (3 <= 5)%nat /\
  exists members,
    sublist members example_catalog /\
    length members = 3%nat /\
    3%nat = size (⋃ (map (fun r => get_functional_tags (name r)) members)).
Proof.
  apply (find_best_meal_record_consistent example_catalog 1 15 15 [] 3 example_result
           (mkMeal ["Rice"; "Chicken"; "Tomato"] (93 # 100) 39 (9 # 2) 3 3)).
  - vm_compute. reflexivity.
  - left. reflexivity.
Defined.

(** X7.  With [max_ingredients] below 2, or with fewer than two records
    that pass the safety filter, nothing is enumerated and the call returns
    [None], whatever the thresholds. *)
Theorem find_best_meal_needs_two_safe_ingredients
    (data : list Ingredient) (max_cost min_protein max_fat : Q)
    (excluded_tags : list string) (max_ingredients : Z) :
  (max_ingredients < 2)%Z \/ (length (List.filter (is_safe excluded_tags) data) < 2)%nat ->
  snd (find_best_meal data max_cost min_protein max_fat excluded_tags max_ingredients)
  = Ok None.
Proof.
  intros H. rewrite find_best_meal_unfold. cbn [snd].
  rewrite collect_none; [reflexivity|].
  intros n combo Hin. exfalso.
  apply enumerated_combo in Hin as [members [_ [Hsub [Hlen [H2 Hmax]]]]].
  apply sublist_length in Hsub. destruct H as [H | H]; lia.
Qed.

Lemma find_best_meal_needs_two_safe_ingredients_witness :
  snd (find_best_meal example_catalog 1 15 15 ["egg"; "poultry"] 1) = Ok None /\
  snd (find_best_meal [mkIngredient "Rice" 0.10 7.1 80.0 0.7 (Some []) None;
                       mkIngredient "Egg" 0.25 12.6 1.1 9.5 (Some ["egg"]) None]
         1 0 15 ["egg"] 4) = Ok None.
Proof.
  split.
  - apply find_best_meal_needs_two_safe_ingredients. left. lia.
  - apply find_best_meal_needs_two_safe_ingredients. right. vm_compute. lia.
Defined.

Section EngineFacts3.

Lemma is_safe_forget (excluded_tags : list string) (r : Ingredient) :
  is_safe excluded_tags (forget_tags r) = is_safe excluded_tags r.
Proof. reflexivity. Qed.

Lemma with_tags_forget (r : Ingredient) : with_tags (forget_tags r) = with_tags r.
Proof. reflexivity. Qed.

(** The safe list depends on the records only up to their functional tags. *)
Lemma safe_ingredients_forget (excluded_tags : list string) (data : list Ingredient) :
  snd (safety_filter data excluded_tags)
  = snd (safety_filter (map forget_tags data) excluded_tags).
Proof.
  rewrite !safety_filter_safe. induction data as [|r data IH]; [reflexivity|].
  cbn [map List.filter]. rewrite is_safe_forget.
  destruct (is_safe excluded_tags r); [|exact IH].
  cbn [map]. rewrite IH. reflexivity.
Qed.

Lemma forget_after_filter (excluded_tags : list string) (r : Ingredient) :
  forget_tags (after_filter excluded_tags r) = forget_tags r.
Proof. unfold after_filter. now destruct (is_safe excluded_tags r). Qed.

Lemma after_filter_twice (excluded_tags : list string) (r : Ingredient) :
  after_filter excluded_tags (after_filter excluded_tags r) = after_filter excluded_tags r.
Proof.
  unfold after_filter at 2 3. destruct (is_safe excluded_tags r) eqn:Hs.
  - unfold after_filter.
    change (is_safe excluded_tags (set_functional_tags r (get_functional_tags (name r))))
      with (is_safe excluded_tags r).
    now rewrite Hs.
  - unfold after_filter. now rewrite Hs.
Qed.

Lemma result_of_safe (data data' : list Ingredient) (max_cost min_protein max_fat : Q)
    (excluded_tags : list string) (max_ingredients : Z) :
  snd (safety_filter data excluded_tags) = snd (safety_filter data' excluded_tags) ->
  snd (find_best_meal data max_cost min_protein max_fat excluded_tags max_ingredients)
  = snd (find_best_meal data' max_cost min_protein max_fat excluded_tags max_ingredients).
Proof. intros H. rewrite !find_best_meal_unfold. cbn [snd]. now rewrite H. Qed.

End EngineFacts3.

(** X8.  What a call returns does not depend on the functional tags the
    records arrive with, so the tags an earlier call has written, under
    whatever arguments, do not change the result of a later call; and a
    second call with the same exclusions leaves the catalog as the first
    call left it. *)
Theorem find_best_meal_ignores_incoming_tags :
  (forall (data data' : list Ingredient) (max_cost min_protein max_fat : Q)
          (excluded_tags : list string) (max_ingredients : Z),
      map forget_tags data = map forget_tags data' ->
      snd (find_best_meal data max_cost min_protein max_fat excluded_tags max_ingredients)
      = snd (find_best_meal data' max_cost min_protein max_fat excluded_tags max_ingredients))
  /\
  (forall (data : list Ingredient) (c1 p1 f1 : Q) (e1 : list string) (m1 : Z)
          (c2 p2 f2 : Q) (e2 : list string) (m2 : Z),
      snd (find_best_meal (fst (find_best_meal data c1 p1 f1 e1 m1)) c2 p2 f2 e2 m2)
      = snd (find_best_meal data c2 p2 f2 e2 m2))
  /\
  (forall (data : list Ingredient) (c1 p1 f1 : Q) (excluded_tags : list string) (m1 : Z)
          (c2 p2 f2 : Q) (m2 : Z),
      fst (find_best_meal (fst (find_best_meal data c1 p1 f1 excluded_tags m1))
             c2 p2 f2 excluded_tags m2)
      = fst (find_best_meal data c1 p1 f1 excluded_tags m1)).
Proof.
  assert (H1 : forall data data' max_cost min_protein max_fat excluded_tags max_ingredients,
             map forget_tags data = map forget_tags data' ->
             snd (find_best_meal data max_cost min_protein max_fat excluded_tags max_ingredients)
             = snd (find_best_meal data' max_cost min_protein max_fat excluded_tags
                      max_ingredients)).
  { intros data data' max_cost min_protein max_fat excluded_tags max_ingredients H.
    apply result_of_safe.
    now rewrite (safe_ingredients_forget _ data), (safe_ingredients_forget _ data'), H. }
  split; [exact H1|]. split.
  - intros data c1 p1 f1 e1 m1 c2 p2 f2 e2 m2. apply H1.
    rewrite find_best_meal_unfold. cbn [fst]. rewrite safety_filter_stored, map_map.
    apply map_ext. intros r. apply forget_after_filter.
  - intros data c1 p1 f1 excluded_tags m1 c2 p2 f2 m2.
    rewrite !find_best_meal_unfold. cbn [fst]. rewrite !safety_filter_stored, map_map.
    apply map_ext. intros r. apply after_filter_twice.
Qed.

Lemma find_best_meal_ignores_incoming_tags_witness :
  snd (find_best_meal
         [mkIngredient "Rice" 0.10 7.1 80.0 0.7 (Some []) (Some {["Protein"]});
          mkIngredient "Egg" 0.25 12.6 1.1 9.5 (Some ["egg"]) (Some {["Protein"]})]
         1 15 15 [] 2)
  = snd (find_best_meal
           [mkIngredient "Rice" 0.10 7.1 80.0 0.7 (Some []) None;
            mkIngredient "Egg" 0.25 12.6 1.1 9.5 (Some ["egg"]) None]
           1 15 15 [] 2).
Proof.
  apply (proj1 find_best_meal_ignores_incoming_tags). reflexivity.
Defined.

Section EngineFacts4.

Lemma StronglySorted_app_cross {A : Type} (R : A -> A -> Prop) (l1 l2 : list A) :
  StronglySorted R (l1 ++ l2) -> forall x y, In x l1 -> In y l2 -> R x y.
Proof.
  induction l1 as [|a l1 IH]; intros Hs x y Hx Hy; [destruct Hx|].
  cbn [app] in Hs. inversion Hs as [|? ? Hs' Hall]; subst.
  destruct Hx as [<- | Hx]; [|now apply IH].
  rewrite Forall_forall in Hall. apply Hall, list_elem_of_In, in_or_app. now right.
Qed.

End EngineFacts4.

(** X9.  The call returns as many records as combinations came through,
    up to five, and they are the best of them: a record that came through
    and was not returned is outranked by every returned one. *)
Theorem find_best_meal_returns_the_best
    (data : list Ingredient) (max_cost min_protein max_fat : Q)
    (excluded_tags : list string) (max_ingredients : Z) (meals : list Meal) :
  snd (find_best_meal data max_cost min_protein max_fat excluded_tags max_ingredients)
  = Ok (Some meals) ->
  exists valid_meals,
    collect max_cost min_protein max_fat
      (enumerate (snd (safety_filter data excluded_tags)) max_ingredients) = Ok valid_meals /\
    length meals = Nat.min 5 (length valid_meals) /\
    (forall meal, In meal meals -> In meal valid_meals) /\
    (forall other, In other valid_meals ->
       In other meals \/ forall meal, In meal meals -> ranks_no_later meal other).
Proof.
  intros Hres.
  destruct (find_best_meal_returned _ _ _ _ _ _ _ Hres) as [valid_meals [Hc [_ ->]]].
  exists valid_meals. split; [exact Hc|].
  pose proof (py_sort_perm valid_meals) as Hperm.
  pose proof (py_sort_sorted valid_meals) as Hsorted.
  split; [rewrite length_take, (Permutation_length Hperm); reflexivity|].
  split.
  - intros meal Hin. apply (Permutation_in meal Hperm).
    apply list_elem_of_In. eapply elem_of_sublist; [|apply sublist_take].
    apply list_elem_of_In. exact Hin.
  - intros other Hin. apply (Permutation_in other (Permutation_sym Hperm)) in Hin.
    rewrite <- (take_drop 5 (py_sort valid_meals)) in Hin, Hsorted.
    apply in_app_or in Hin as [Hin | Hin]; [now left|].
    right. intros meal Hmeal.
    now apply (StronglySorted_app_cross _ _ _ Hsorted).
Qed.

Lemma find_best_meal_returns_the_best_witness :
  exists valid_meals,
    collect 1 15 15 (enumerate (snd (safety_filter example_catalog [])) 3) = Ok valid_meals /\
    length example_result = Nat.min 5 (length valid_meals) /\
    (forall meal, In meal example_result -> In meal valid_meals) /\
    (forall other, In other valid_meals ->
       In other example_result \/
       forall meal, In meal example_result -> ranks_no_later meal other).
Proof.
  apply (find_best_meal_returns_the_best example_catalog 1 15 15 [] 3 example_result).
  vm_compute. reflexivity.
Defined.

(** ** ingredients.py: more on [clean_ingredient_name] *)

Section CleanFacts.

Lemma rstrip_cons_nonspace (c : ascii) (s : string) :
  Str.isspace c = false -> Str.rstrip (String c s) = String c (Str.rstrip s).
Proof. intros Hc. cbn [Str.rstrip]. rewrite Hc. now destruct (Str.rstrip s). Qed.

Lemma rstrip_cons (c : ascii) (s : string) :
  Str.rstrip (String c s)
  = match Str.rstrip s with
    | EmptyString => if Str.isspace c then EmptyString else String c EmptyString
    | r => String c r
    end.
Proof. reflexivity. Qed.

Lemma rstrip_twice (s : string) : Str.rstrip (Str.rstrip s) = Str.rstrip s.
Proof.
  induction s as [|c s IH]; [reflexivity|].
  rewrite rstrip_cons. destruct (Str.rstrip s) as [|r rs] eqn:Hr.
  - destruct (Str.isspace c) eqn:Hc; [reflexivity|]. rewrite rstrip_cons, Hc. reflexivity.
  - rewrite rstrip_cons, IH. reflexivity.
Qed.

Lemma lstrip_head (s : string) :
  Str.lstrip s = "" \/ exists c r, Str.lstrip s = String c r /\ Str.isspace c = false.
Proof.
  induction s as [|c s IH]; [now left|]. cbn [Str.lstrip].
  destruct (Str.isspace c) eqn:Hc; [exact IH | right; now exists c, s].
Qed.

Lemma strip_twice (s : string) : Str.strip (Str.strip s) = Str.strip s.
Proof.
  unfold Str.strip. destruct (lstrip_head s) as [-> | [c [r [-> Hc]]]]; [reflexivity|].
  rewrite (rstrip_cons_nonspace c r Hc). cbn [Str.lstrip]. rewrite Hc.
  now rewrite (rstrip_cons_nonspace c _ Hc), rstrip_twice.
Qed.

Lemma starts_plain_head (s : string) :
  starts_plain s = true ->
  exists c rest, s = String c rest /\ Str.isspace c = false /\ c <> ","%char.
Proof.
  destruct s as [|c rest]; [discriminate|]. cbn [starts_plain].
  rewrite andb_true_iff, !negb_true_iff. intros [Hs Hc].
  exists c, rest. repeat split; [exact Hs|]. intros ->. discriminate Hc.
Qed.

Lemma upper_char_plain (c : ascii) :
  Str.isspace c = false -> c <> ","%char ->
  Str.isspace (Str.upper_char c) = false /\ Ascii.eqb (Str.upper_char c) "," = false.
Proof.
  destruct c as [[] [] [] [] [] [] [] []]; intros Hs Hc;
    try discriminate Hs; try (exfalso; apply Hc; reflexivity); split; reflexivity.
Qed.

Lemma strip_all_head (c : ascii) (rest : string) :
  Str.isspace c = false -> c <> ","%char ->
  strip_all (String c rest) = String c (strip_all rest).
Proof.
  intros Hs Hc. change (String c rest) with (String c "" +:+ rest).
  rewrite strip_all_plain; [reflexivity|].
  cbn [plain]. rewrite Hs. apply Ascii.eqb_neq in Hc. now rewrite Hc.
Qed.

(** What the cleaner returns for a name whose first character that is not
    whitespace is no comma. *)
Lemma clean_ingredient_name_well_named (name : string) :
  well_named name = true ->
  exists c rest,
    Str.lstrip name = String c rest /\
    clean_ingredient_name name
    = Ok (String (Str.upper_char c)
            (Str.rstrip (Str.split_head "," (Str.strip (strip_all (Str.rstrip rest)))))).
Proof.
  intros H. apply starts_plain_head in H as [c [rest [Hl [Hs Hc]]]].
  exists c, rest. split; [exact Hl|].
  rewrite clean_ingredient_name_eq. unfold Str.strip at 1. rewrite Hl.
  rewrite (rstrip_cons_nonspace c rest Hs), (strip_all_head c _ Hs Hc).
  destruct (upper_char_plain c Hs Hc) as [Hus Huc].
  cbn [Str.split_head]. rewrite Huc. unfold Str.strip at 1.
  cbn [Str.lstrip]. rewrite Hus. now rewrite (rstrip_cons_nonspace _ _ Hus).
Qed.

Lemma split_head_plain (s : string) : plain s = true -> Str.split_head "," s = s.
Proof.
  induction s as [|c s IH]; [reflexivity|]. intros Hp.
  apply plain_head in Hp as [_ [_ [Hc Hp]]]. cbn [Str.split_head].
  apply Ascii.eqb_neq in Hc. now rewrite Hc, IH.
Qed.

Lemma strip_plain (s : string) : plain s = true -> Str.strip s = s.
Proof.
  destruct s as [|c s]; [reflexivity|]. intros Hp.
  apply strip_plain_word. split; [discriminate | exact Hp].
Qed.

Lemma strip_all_plain_all (s : string) : plain s = true -> strip_all s = s.
Proof.
  intros Hp. rewrite <- (app_empty_str s) at 1.
  rewrite strip_all_plain by exact Hp. change (strip_all "") with "". apply app_empty_str.
Qed.

(** *** Lengths *)









End CleanFacts.



(** X4.  A single word without whitespace or comma only has its first
    letter capitalized; this holds for a noise term standing alone as well,
    which is kept. *)
Theorem clean_ingredient_name_plain_word (c : ascii) (rest : string) :
  plain_word (String c rest) ->
  clean_ingredient_name (String c rest) = Ok (String (Str.upper_char c) rest).
Proof.
  intros [_ Hp]. pose proof Hp as Hp'. apply plain_head in Hp' as [Hs [_ [Hc Hrest]]].
  assert (Hw : well_named (String c rest) = true).
  { unfold well_named. cbn [Str.lstrip]. rewrite Hs. cbn [starts_plain].
    rewrite Hs. apply Ascii.eqb_neq in Hc. now rewrite Hc. }
  destruct (clean_ingredient_name_well_named _ Hw) as [c' [rest' [Hl ->]]].
  cbn [Str.lstrip] in Hl. rewrite Hs in Hl. injection Hl as <- <-.
  now rewrite (rstrip_plain rest Hrest), (strip_all_plain_all rest Hrest),
    (strip_plain rest Hrest), (split_head_plain rest Hrest), (rstrip_plain rest Hrest).
Qed.

Lemma clean_ingredient_name_plain_word_witness :
  clean_ingredient_name "raw" = Ok "Raw".
Proof.
  apply (clean_ingredient_name_plain_word "r" "aw").
  split; [discriminate | reflexivity].
Defined.

Section EngineFacts5.

Variables max_cost min_protein max_fat : Q.

Lemma mapM_clean_well_named (combo : list Ingredient) :
  Forall (fun item => well_named (name item) = true) combo ->
  exists cleaned, mapM (fun item => clean_ingredient_name (name item)) combo = Ok cleaned.
Proof.
  induction 1 as [|item combo Hitem _ [cleaned IH]]; [now exists []|].
  destruct (clean_ingredient_name_well_named _ Hitem) as [c [rest [_ Hc]]].
  cbn [mapM]. rewrite Hc, bind_Ok, IH, bind_Ok. eauto.
Qed.

Lemma try_combo_well_named (n : nat) (combo : list Ingredient) :
  Forall tagged combo ->
  Forall (fun item => well_named (name item) = true) combo ->
  exists kept, try_combo max_cost min_protein max_fat n combo = Ok kept.
Proof.
  intros Ht Hn. destruct (survives max_cost min_protein max_fat combo) eqn:Hs.
  - destruct (try_combo_survives max_cost min_protein max_fat n combo Hs) as [tags [_ ->]].
    destruct (mapM_clean_well_named combo Hn) as [cleaned ->]. rewrite bind_Ok. eauto.
  - rewrite (try_combo_skipped max_cost min_protein max_fat n combo Ht Hs). eauto.
Qed.

Lemma collect_well_named (todo : list (nat * list Ingredient)) :
  Forall (fun entry => Forall tagged (snd entry) /\
                       Forall (fun item => well_named (name item) = true) (snd entry)) todo ->
  exists valid_meals, collect max_cost min_protein max_fat todo = Ok valid_meals.
Proof.
  induction 1 as [|[n combo] todo [Ht Hn] _ [valid_meals IH]]; [now exists []|].
  cbn [collect]. cbn [snd] in Ht, Hn.
  destruct (try_combo_well_named n combo Ht Hn) as [kept ->].
  rewrite bind_Ok, IH, bind_Ok. eauto.
Qed.

End EngineFacts5.

(** X10.  When the name of every record that passes the safety filter has a
    first character, whitespace aside, that is no comma, the call raises
    nothing: it returns [None] or a list. *)
Theorem find_best_meal_does_not_raise
    (data : list Ingredient) (max_cost min_protein max_fat : Q)
    (excluded_tags : list string) (max_ingredients : Z) :
  (forall r, In r data -> is_safe excluded_tags r = true -> well_named (name r) = true) ->
  exists returned,
    snd (find_best_meal data max_cost min_protein max_fat excluded_tags max_ingredients)
    = Ok returned.
Proof.
  intros H. rewrite find_best_meal_unfold. cbn [snd].
  destruct (collect_well_named max_cost min_protein max_fat
              (enumerate (snd (safety_filter data excluded_tags)) max_ingredients))
    as [valid_meals ->].
  - apply Forall_forall. intros [n combo] Hin. apply list_elem_of_In in Hin. cbn [snd].
    split.
    + pose proof (enumerate_tagged data excluded_tags max_ingredients) as Ht.
      rewrite Forall_forall in Ht. apply (Ht (n, combo)). now apply list_elem_of_In.
    + apply enumerated_combo in Hin as [members [-> [Hsub _]]].
      apply Forall_forall. intros item Hitem.
      apply list_elem_of_In, in_map_iff in Hitem as [r [<- Hr]].
      pose proof (elem_of_sublist _ _ r (proj2 (list_elem_of_In _ _) Hr) Hsub) as Hx.
      apply list_elem_of_In, filter_In in Hx. apply (H r); tauto.
  - rewrite bind_Ok. destruct valid_meals; eauto.
Qed.

Lemma find_best_meal_does_not_raise_witness :
  exists returned, snd (find_best_meal example_catalog 1 15 15 ["poultry"] 3) = Ok returned.
Proof.
  apply (find_best_meal_does_not_raise example_catalog 1 15 15 ["poultry"] 3).
  intros r Hr _. unfold example_catalog in Hr. cbn [In] in Hr.
  repeat (destruct Hr as [<- | Hr]; [reflexivity|]). destruct Hr.
Defined.

(** X11 on the example catalog. *)
Lemma duplicate_rule_as_implemented_witness :
  exists combo,
    sublist combo (snd (safety_filter example_catalog [])) /\
    mapM (fun item => clean_ingredient_name (name item)) combo = Ok ["Rice"; "Chicken"] /\
    NoDup (roles combo).
Proof.
  apply (duplicate_rule_as_implemented example_catalog 1 15 15 [] 3 example_result
           (mkMeal ["Rice"; "Chicken"] (17 # 20) (381 # 10) (43 # 10) 2 2)).
  - vm_compute. reflexivity.
  - right. right. left. reflexivity.
Defined.

(** ** app.py: more on the recipe filters *)

Section FilterFacts.

Lemma bool_eq_by_false (a b : bool) : (a = false <-> b = false) -> a = b.
Proof. destruct a, b; intros [H1 H2]; try reflexivity; [now rewrite H2 | now rewrite H1]. Qed.

Lemma lower_join (sep : string) (l : list string) :
  Str.lower (Str.join sep l) = Str.join (Str.lower sep) (map Str.lower l).
Proof.
  induction l as [|s l IH]; [reflexivity|].
  destruct l as [|s' l]; [reflexivity|].
  change (Str.join sep (s :: s' :: l)) with (s +:+ sep +:+ Str.join sep (s' :: l)).
  change (Str.join (Str.lower sep) (map Str.lower (s :: s' :: l)))
    with (Str.lower s +:+ Str.lower sep +:+ Str.join (Str.lower sep) (map Str.lower (s' :: l))).
  now rewrite !lower_app, IH.
Qed.

Lemma keywords_of_tag_lower (tag : string) :
  keywords_of_tag (Str.lower tag) = keywords_of_tag tag.
Proof. unfold keywords_of_tag. now rewrite lower_twice. Qed.

(** The preference is one the function knows and acts on. *)
Lemma check_recipe_dietary_false (title : string) (lines : list string) (preference : string) :
  check_recipe_dietary title lines preference = false <->
  exists tag,
    ((preference = "vegetarian" /\ In tag (meat_poultry_tags ++ fish_shellfish_tags)%list) \/
     (preference = "pescetarian" /\ In tag meat_poultry_tags)) /\
    (occurs_in tag (Str.lower (Str.join " " lines)) \/ occurs_in tag (Str.lower title)).
Proof.
  unfold check_recipe_dietary.
  destruct (String.eqb_spec preference "none") as [-> | Hn].
  - split; [discriminate | intros [tag [[[H _] | [H _]] _]]; discriminate H].
  - destruct (String.eqb_spec preference "vegetarian") as [-> | Hv].
    + rewrite negb_false_iff, conflict_spec. split.
      * intros [tag [Hin H]]. exists tag. split; [left; now split | exact H].
      * intros [tag [[[_ Hin] | [H _]] Hocc]]; [now exists tag | discriminate H].
    + destruct (String.eqb_spec preference "pescetarian") as [-> | Hp].
      * rewrite negb_false_iff, conflict_spec. split.
        -- intros [tag [Hin H]]. exists tag. split; [right; now split | exact H].
        -- intros [tag [[[H _] | [_ Hin]] Hocc]]; [discriminate H | now exists tag].
      * split; [discriminate | intros [tag [[[H _] | [H _]] _]]; congruence].
Qed.

End FilterFacts.

(** X12.  The allergen filter accepts when there is no tag or no line, and
    it is the conjunction of its verdicts on parts: splitting the lines, or
    the tags, in two and checking each part gives the same answer, so more
    tags or more lines can only reject more, and neither the order nor the
    repetition nor the case of the tags matters. *)
Theorem check_recipe_allergens_by_parts :
  (forall lines, check_recipe_allergens lines [] = true) /\
  (forall tags, check_recipe_allergens [] tags = true) /\
  (forall lines1 lines2 tags,
      check_recipe_allergens (lines1 ++ lines2)%list tags
      = check_recipe_allergens lines1 tags && check_recipe_allergens lines2 tags) /\
  (forall lines tags1 tags2,
      check_recipe_allergens lines (tags1 ++ tags2)%list
      = check_recipe_allergens lines tags1 && check_recipe_allergens lines tags2) /\
  (forall lines tags tags',
      (forall tag, In tag tags <-> In tag tags') ->
      check_recipe_allergens lines tags = check_recipe_allergens lines tags') /\
  (forall lines tags,
      check_recipe_allergens lines (map Str.lower tags) = check_recipe_allergens lines tags).
Proof.
  split; [reflexivity|]. split.
  { intros tags. apply not_false_iff_true. rewrite check_recipe_allergens_false.
    intros [line [_ [_ [[] _]]]]. }
  split.
  { intros lines1 lines2 tags. apply bool_eq_by_false.
    rewrite andb_false_iff, !check_recipe_allergens_false. split.
    - intros [line [tag [kw [Hl H]]]]. apply in_app_or in Hl as [Hl | Hl];
        [left | right]; now exists line, tag, kw.
    - intros [[line [tag [kw [Hl H]]]] | [line [tag [kw [Hl H]]]]];
        exists line, tag, kw; (split; [apply in_or_app; tauto | exact H]). }
  split.
  { intros lines tags1 tags2. apply bool_eq_by_false.
    rewrite andb_false_iff, !check_recipe_allergens_false. split.
    - intros [line [tag [kw [Hl [Ht H]]]]]. apply in_app_or in Ht as [Ht | Ht];
        [left | right]; now exists line, tag, kw.
    - intros [[line [tag [kw [Hl [Ht H]]]]] | [line [tag [kw [Hl [Ht H]]]]]];
        exists line, tag, kw; (split; [exact Hl|]); (split; [apply in_or_app; tauto | exact H]). }
  split.
  { intros lines tags tags' Hsame. apply bool_eq_by_false.
    rewrite !check_recipe_allergens_false.
    split; intros [line [tag [kw [Hl [Ht H]]]]]; exists line, tag, kw;
      (split; [exact Hl|]); (split; [now apply Hsame | exact H]). }
  intros lines tags. apply bool_eq_by_false. rewrite !check_recipe_allergens_false. split.
  - intros [line [tag [kw [Hl [Ht [Hkw H]]]]]]. apply in_map_iff in Ht as [tag' [<- Ht]].
    rewrite keywords_of_tag_lower in Hkw. now exists line, tag', kw.
  - intros [line [tag [kw [Hl [Ht [Hkw H]]]]]]. exists line, (Str.lower tag), kw.
    split; [exact Hl|]. split; [now apply in_map|].
    split; [now rewrite keywords_of_tag_lower | exact H].
Qed.

Lemma check_recipe_allergens_by_parts_witness :
  check_recipe_allergens ["2 Eggs"; "1 cup flour"] ["wheat"; "egg"]
  = check_recipe_allergens ["2 Eggs"; "1 cup flour"] ["egg"; "wheat"; "egg"].
Proof.
  apply (proj1 (proj2 (proj2 (proj2 (proj2 check_recipe_allergens_by_parts))))).
  intros tag. cbn [In]. tauto.
Defined.

(** X13.  The dietary check rejects exactly on a keyword of the preference's
    lists in the lower-cased title or joined lines; whatever the vegetarian
    check accepts the pescetarian check accepts; a preference other than
    these two, also one in other case, accepts every recipe; and the case of
    title and lines does not matter. *)
Theorem check_recipe_dietary_strictness (title : string) (lines : list string) :
  (check_recipe_dietary title lines "vegetarian" = false <->
   exists tag, In tag (meat_poultry_tags ++ fish_shellfish_tags)%list /\
               (occurs_in tag (Str.lower (Str.join " " lines)) \/
                occurs_in tag (Str.lower title))) /\
  (check_recipe_dietary title lines "pescetarian" = false <->
   exists tag, In tag meat_poultry_tags /\
               (occurs_in tag (Str.lower (Str.join " " lines)) \/
                occurs_in tag (Str.lower title))) /\
  (check_recipe_dietary title lines "vegetarian" = true ->
   check_recipe_dietary title lines "pescetarian" = true) /\
  (forall preference, preference <> "vegetarian" -> preference <> "pescetarian" ->
     check_recipe_dietary title lines preference = true) /\
  (forall preference,
     check_recipe_dietary (Str.lower title) (map Str.lower lines) preference
     = check_recipe_dietary title lines preference).
Proof.
  split; [|split; [|split; [|split]]].
  - rewrite check_recipe_dietary_false. split.
    + intros [tag [[[_ Hin] | [H _]] Hocc]]; [now exists tag | discriminate H].
    + intros [tag [Hin Hocc]]. exists tag. split; [left; now split | exact Hocc].
  - rewrite check_recipe_dietary_false. split.
    + intros [tag [[[H _] | [_ Hin]] Hocc]]; [discriminate H | now exists tag].
    + intros [tag [Hin Hocc]]. exists tag. split; [right; now split | exact Hocc].
  - intros Hv. apply not_false_iff_true. intros Hp. apply not_false_iff_true in Hv. apply Hv.
    apply check_recipe_dietary_false in Hp as [tag [[[H _] | [_ Hin]] Hocc]];
      [discriminate H|].
    apply check_recipe_dietary_false. exists tag.
    split; [left; split; [reflexivity | apply in_or_app; now left] | exact Hocc].
  - intros preference Hv Hp. apply not_false_iff_true. rewrite check_recipe_dietary_false.
    intros [tag [[[H _] | [H _]] _]]; congruence.
  - intros preference. apply bool_eq_by_false. rewrite !check_recipe_dietary_false.
    pose proof (lower_join " " lines) as Hj. change (Str.lower " ") with " " in Hj.
    rewrite <- Hj, !lower_twice. reflexivity.
Qed.

Lemma check_recipe_dietary_strictness_witness :
  check_recipe_dietary "Tomato Soup" ["2 Tomatoes"] "pescetarian" = true /\
  check_recipe_dietary "Roast Chicken" ["1 chicken"] "Vegetarian" = true.
Proof.
  split.
  - apply (proj1 (proj2 (proj2 (check_recipe_dietary_strictness "Tomato Soup" ["2 Tomatoes"])))).
    vm_compute. reflexivity.
  - apply (proj1 (proj2 (proj2 (proj2
             (check_recipe_dietary_strictness "Roast Chicken" ["1 chicken"]))))).
    + discriminate.
    + discriminate.
Defined.

(** ** api_utils.py: tagging and pricing *)

Section Tagging.

Import ApiUtils.

Lemma in_tags_of_table (table : list (string * list string)) (food_lower tag : string) :
  In tag (tags_of_table table food_lower) <->
  exists keywords, In (tag, keywords) table /\ any_in keywords food_lower = true.
Proof.
  induction table as [|[allergen keywords] table IH]; cbn [tags_of_table].
  - split; [intros [] | intros [k [[] _]]].
  - destruct (any_in keywords food_lower) eqn:Ha; cbn [In]; rewrite IH; split.
    + intros [<- | [k [Hin Hk]]]; [now exists keywords; split; [left|] | exists k; tauto].
    + intros [k [[[= <- <-] | Hin] Hk]]; [now left | right; now exists k].
    + intros [k [Hin Hk]]. exists k. tauto.
    + intros [k [[[= <- <-] | Hin] Hk]]; [congruence | now exists k].
Qed.

Lemma tags_of_table_sublist (table : list (string * list string)) (food_lower : string) :
  sublist (tags_of_table table food_lower) (map fst table).
Proof.
  induction table as [|[allergen keywords] table IH]; cbn [tags_of_table map fst];
    [constructor|].
  destruct (any_in keywords food_lower); now constructor.
Qed.

Lemma in_assign_allergy_tags_simple (food_name tag : string) :
  In tag (assign_allergy_tags_simple food_name) <->
  exists keywords keyword,
    In (tag, keywords) ALLERGY_TAGGING_KEYWORDS /\ In keyword keywords /\
    occurs_in keyword (Str.lower food_name).
Proof.
  unfold assign_allergy_tags_simple. rewrite in_tags_of_table. split.
  - intros [k [Hin Hk]]. apply any_in_occurs in Hk as [w [Hw H]]. now exists k, w.
  - intros [k [w [Hin [Hw H]]]]. exists k. split; [exact Hin|].
    apply any_in_occurs. now exists w.
Qed.

End Tagging.

(** X22.  A food gets an allergy tag exactly when one of the tag's keywords
    occurs in its lower-cased name; the tags come in the order of the table,
    each at most once. *)
Theorem assign_allergy_tags_simple_spec (food_name : string) :
  (forall tag,
      In tag (ApiUtils.assign_allergy_tags_simple food_name) <->
      exists keywords keyword,
        In (tag, keywords) ApiUtils.ALLERGY_TAGGING_KEYWORDS /\ In keyword keywords /\
        occurs_in keyword (Str.lower food_name)) /\
  sublist (ApiUtils.assign_allergy_tags_simple food_name)
    ["legume"; "treenut"; "peanut"; "meat"; "poultry"; "fish"; "shellfish"; "dairy"; "egg";
     "wheat"; "gluten"] /\
  NoDup (ApiUtils.assign_allergy_tags_simple food_name).
Proof.
  split; [intros tag; apply in_assign_allergy_tags_simple|].
  assert (Hs : sublist (ApiUtils.assign_allergy_tags_simple food_name)
                 ["legume"; "treenut"; "peanut"; "meat"; "poultry"; "fish"; "shellfish";
                  "dairy"; "egg"; "wheat"; "gluten"])
    by apply (tags_of_table_sublist ApiUtils.ALLERGY_TAGGING_KEYWORDS).
  split; [exact Hs|].
  eapply sublist_NoDup; [|exact Hs].
  apply (bool_decide_unpack _). vm_compute. exact I.
Qed.

(** X23.  The tags imply one another where the keywords do: a food tagged
    "wheat" is tagged "gluten", and a food tagged "peanut" is tagged
    "legume", because "pea" occurs in "peanut". *)
Theorem assign_allergy_tags_simple_implied (food_name : string) :
  (In "wheat" (ApiUtils.assign_allergy_tags_simple food_name) ->
   In "gluten" (ApiUtils.assign_allergy_tags_simple food_name)) /\
  (In "peanut" (ApiUtils.assign_allergy_tags_simple food_name) ->
   In "legume" (ApiUtils.assign_allergy_tags_simple food_name)).
Proof.
  split; rewrite !in_assign_allergy_tags_simple; intros [k [w [Hin [Hw H]]]];
    unfold ApiUtils.ALLERGY_TAGGING_KEYWORDS in Hin; cbn [In] in Hin;
    repeat (destruct Hin as [Hin | Hin]; [try discriminate Hin|]);
    try (exfalso; exact Hin); injection Hin as <-.
  - eexists _, w. split; [do 10 right; left; reflexivity|]. split; [|exact H].
    cbn [In] in *. tauto.
  - eexists _, "pea". split; [left; reflexivity|]. split; [cbn [In]; tauto|].
    destruct Hw as [<- | []]. apply (occurs_in_trans "pea" "peanut"); [|exact H].
    exists "", "nut". reflexivity.
Qed.

Lemma assign_allergy_tags_simple_implied_witness :
  In "gluten" (ApiUtils.assign_allergy_tags_simple "Bread, whole-wheat") /\
  In "legume" (ApiUtils.assign_allergy_tags_simple "Peanut butter, smooth").
Proof.
  split.
  - apply (proj1 (assign_allergy_tags_simple_implied "Bread, whole-wheat")).
    vm_compute. tauto.
  - apply (proj2 (assign_allergy_tags_simple_implied "Peanut butter, smooth")).
    vm_compute. tauto.
Defined.

(** X24.  The estimated cost never reads the carbohydrates or the fat; it is
    at least 0.10 when the protein is not negative, and a name with a grain
    word costs 0.15 whatever else it names and whatever the protein. *)
Theorem estimate_ingredient_cost_bounds (name : string) (protein_g carbs_g fat_g : Q) :
  (forall carbs_g' fat_g',
      ApiUtils.estimate_ingredient_cost name protein_g carbs_g fat_g
      = ApiUtils.estimate_ingredient_cost name protein_g carbs_g' fat_g') /\
  (0 <= protein_g ->
   0.10 <= ApiUtils.estimate_ingredient_cost name protein_g carbs_g fat_g) /\
  ((exists word, In word ["rice"; "grain"; "cereal"; "oats"; "quinoa"] /\
                 occurs_in word (Str.lower name)) ->
   ApiUtils.estimate_ingredient_cost name protein_g carbs_g fat_g = 0.15).
Proof.
  split; [reflexivity|]. unfold ApiUtils.estimate_ingredient_cost.
  split.
  - intros Hp. repeat (destruct (any_in _ _); [lra|]). lra.
  - intros H. apply any_in_occurs in H. now rewrite H.
Qed.

Lemma estimate_ingredient_cost_bounds_witness :
  0.10 <= ApiUtils.estimate_ingredient_cost "Salt" 0 0 0 /\
  ApiUtils.estimate_ingredient_cost "Chicken fried rice" 12 30 5 = 0.15.
Proof.
  split.
  - apply (proj1 (proj2 (estimate_ingredient_cost_bounds "Salt" 0 0 0))). lra.
  - apply (proj2 (proj2 (estimate_ingredient_cost_bounds "Chicken fried rice" 12 30 5))).
    exists "rice". split; [cbn [In]; tauto|]. exists "chicken fried ", "". reflexivity.
Defined.

(** ** api_utils.py: [process_and_tag_food_item_simple] *)

Section Process.

Import ApiUtils.

Lemma process_some (food : Food) (r : Ingredient) :
  process_and_tag_food_item_simple food = Some r <->
  exists s protein fat,
    description food = Val s /\ Str.strip s <> "" /\ foodNutrients food <> Null /\
    extract_nutrient_value (nutrients_of food) "Protein" = Some protein /\
    extract_nutrient_value (nutrients_of food) "Fat" = Some fat /\
    r = mkIngredient (Str.strip s) (estimate_ingredient_cost (Str.strip s) protein 0.0 fat)
          (py_round protein 1) 0.0 (py_round fat 1)
          (Some (assign_allergy_tags_simple (Str.strip s))) None.
Proof.
  unfold process_and_tag_food_item_simple, nutrients_of.
  destruct (description food) as [| |s] eqn:Hd.
  - cbn. split; [discriminate | intros [s [p [f [H _]]]]; discriminate].
  - split; [discriminate | intros [s [p [f [H _]]]]; discriminate].
  - destruct (Str.strip s) as [|c name] eqn:Hs.
    + split; [discriminate | intros [s' [p [f [[= <-] [H _]]]]]; congruence].
    + destruct (foodNutrients food) as [| |l] eqn:Hn.
      * destruct (extract_nutrient_value [] "Protein") as [p|] eqn:Hp;
          destruct (extract_nutrient_value [] "Fat") as [f|] eqn:Hf; cbn [mbind option_bind];
          (split; [try discriminate; intros [= <-]; exists s, p, f; rewrite Hs;
                   repeat split; congruence
                  | intros [s' [p' [f' [[= <-] [_ [_ [Hp' [Hf' ->]]]]]]]];
                    rewrite Hs; congruence]).
      * split; [discriminate | intros [s' [p [f [_ [_ [H _]]]]]]; congruence].
      * destruct (extract_nutrient_value l "Protein") as [p|] eqn:Hp;
          destruct (extract_nutrient_value l "Fat") as [f|] eqn:Hf; cbn [mbind option_bind];
          (split; [try discriminate; intros [= <-]; exists s, p, f; rewrite Hs;
                   repeat split; congruence
                  | intros [s' [p' [f' [[= <-] [_ [_ [Hp' [Hf' ->]]]]]]]];
                    rewrite Hs; congruence]).
Qed.

End Process.

(** X25.  An ingredient that [process_and_tag_food_item_simple] returns carries
    the trimmed description as its name, which is not empty and has no
    whitespace at either end; its allergy tags are those of that name, its
    carbohydrates are 0, it has no functional tags yet, and its price is at
    least 0.10 whenever the protein found is not negative. *)
Theorem process_and_tag_food_item_simple_returns
    (food : ApiUtils.Food) (r : Ingredient) :
  ApiUtils.process_and_tag_food_item_simple food = Some r ->
  (exists s, ApiUtils.description food = ApiUtils.Val s /\ name r = Str.strip s) /\
  name r <> "" /\
  Str.strip (name r) = name r /\
  allergy_tags r = Some (ApiUtils.assign_allergy_tags_simple (name r)) /\
  functional_tags r = None /\
  carbs_g r == 0 /\
  (forall protein,
      ApiUtils.extract_nutrient_value (nutrients_of food) "Protein" = Some protein ->
      protein_g r = py_round protein 1 /\
      (0 <= protein -> 0.10 <= cost_per_100g r)).
Proof.
  intros H. apply process_some in H as [s [p [f [Hd [Hs [Hn [Hp [Hf ->]]]]]]]]. cbn.
  split; [now exists s|]. split; [exact Hs|]. split; [apply strip_twice|].
  split; [reflexivity|]. split; [reflexivity|]. split; [reflexivity|].
  intros p' Hp'. rewrite Hp in Hp'. injection Hp' as <-. split; [reflexivity|].
  intros H0. unfold ApiUtils.estimate_ingredient_cost.
  repeat (destruct (any_in _ _); [lra|]). lra.
Qed.

Lemma process_and_tag_food_item_simple_returns_witness :
  exists r,
    ApiUtils.process_and_tag_food_item_simple
      (ApiUtils.mkFood (ApiUtils.Val "  Chicken, breast, raw ")
         (ApiUtils.Val [ApiUtils.mkNutrient (ApiUtils.Val "Protein") (ApiUtils.Val "203")
                          (ApiUtils.Val 22.5)])) = Some r /\
    name r = "Chicken, breast, raw" /\
    allergy_tags r = Some ["poultry"] /\
    functional_tags r = None.
Proof.
  eexists. split; [vm_compute; reflexivity|].
  pose proof (process_and_tag_food_item_simple_returns
    (ApiUtils.mkFood (ApiUtils.Val "  Chicken, breast, raw ")
         (ApiUtils.Val [ApiUtils.mkNutrient (ApiUtils.Val "Protein") (ApiUtils.Val "203")
                          (ApiUtils.Val 22.5)])) _ ltac:(vm_compute; reflexivity))
    as [[s [Hd Hname]] [_ [_ [Htags [Hf _]]]]].
  split; [|split; [exact Htags | exact Hf]].
  injection Hd as <-. exact Hname.
Defined.


(** ** api_utils.py: [fetch_with_backoff] *)

Section Backoff.

Import ApiUtils.

Context {J : Type}.
Variable reply : Z -> outcome J.
Variable max_retries : Z.

Lemma pow2_pred (a : nat) :
  (1 <= a)%nat -> (2 ^ (Z.of_nat (S a) - 1) = 2 * 2 ^ (Z.of_nat a - 1))%Z.
Proof.
  intros Ha. replace (Z.of_nat (S a) - 1)%Z with (Z.succ (Z.of_nat a - 1)) by lia.
  apply Z.pow_succ_r. lia.
Qed.

Lemma pow2_pos (x : Z) : (0 <= x -> 1 <= 2 ^ x)%Z.
Proof. intros Hx. pose proof (Z.pow_pos_nonneg 2 x). lia. Qed.

Lemma slept_app (t1 t2 : list event) : slept (t1 ++ t2) = (slept t1 + slept t2)%Z.
Proof.
  induction t1 as [|[a|s] t1 IH]; cbn [slept app]; [reflexivity | exact IH | lia].
Qed.

Lemma requests_app (t1 t2 : list event) :
  requests (t1 ++ t2) = (requests t1 + requests t2)%nat.
Proof.
  induction t1 as [|[a|s] t1 IH]; cbn [requests app]; [reflexivity | lia | exact IH].
Qed.

(** The rounds of the attempts [a], ..., [a + d - 1]. *)
Lemma rounds_cons (a d : nat) :
  flat_map (fun j => [Request j; Sleep (2 ^ (j - 1))%Z]) (map Z.of_nat (seq a (S d)))
  = Request (Z.of_nat a) :: Sleep (2 ^ (Z.of_nat a - 1))%Z
      :: flat_map (fun j => [Request j; Sleep (2 ^ (j - 1))%Z]) (map Z.of_nat (seq (S a) d)).
Proof. reflexivity. Qed.

Lemma slept_rounds (d : nat) : forall a : nat,
  (1 <= a)%nat ->
  slept (flat_map (fun j => [Request j; Sleep (2 ^ (j - 1))%Z]) (map Z.of_nat (seq a d)))
  = (2 ^ (Z.of_nat (a + d) - 1) - 2 ^ (Z.of_nat a - 1))%Z.
Proof.
  induction d as [|d IH]; intros a Ha.
  - cbn [seq map flat_map slept]. rewrite Nat.add_0_r. lia.
  - rewrite rounds_cons. cbn [slept]. rewrite (IH (S a)) by lia.
    replace (S a + d)%nat with (a + S d)%nat by lia. rewrite (pow2_pred a Ha). lia.
Qed.

Lemma requests_rounds (d : nat) : forall a : nat,
  requests (flat_map (fun j => [Request j; Sleep (2 ^ (j - 1))%Z]) (map Z.of_nat (seq a d)))
  = d.
Proof.
  induction d as [|d IH]; intros a; [reflexivity|].
  rewrite rounds_cons. cbn [requests]. now rewrite IH.
Qed.

Lemma backoff_loop_success (body : J) (d : nat) : forall a n : nat,
  (d < n)%nat ->
  (Z.of_nat (a + d) <= max_retries)%Z ->
  (forall j, (a <= j < a + d)%nat -> reply (Z.of_nat j) = RequestFailed) ->
  reply (Z.of_nat (a + d)) = Response200 body ->
  backoff_loop reply max_retries (map Z.of_nat (seq a n))
  = ((flat_map (fun j => [Request j; Sleep (2 ^ (j - 1))%Z]) (map Z.of_nat (seq a d))
      ++ [Request (Z.of_nat (a + d))])%list, Returned body).
Proof.
  induction d as [|d IH]; intros a n Hn Hmax Hfail Hok.
  - destruct n as [|n]; [lia|]. rewrite Nat.add_0_r in *.
    cbn [seq map backoff_loop flat_map app]. now rewrite Hok.
  - destruct n as [|n]; [lia|]. rewrite rounds_cons.
    cbn [seq map backoff_loop]. rewrite (Hfail a) by lia.
    destruct (Z.eqb_spec (Z.of_nat a) max_retries) as [E | _]; [lia|].
    rewrite (IH (S a) n); [| lia | lia | intros j Hj; apply Hfail; lia
                           | now replace (S a + d)%nat with (a + S d)%nat by lia].
    now replace (S a + d)%nat with (a + S d)%nat by lia.
Qed.

Lemma backoff_loop_other (n : nat) : forall a : nat,
  (forall j, (a <= j < a + n)%nat -> reply (Z.of_nat j) = OtherStatus) ->
  backoff_loop reply max_retries (map Z.of_nat (seq a n))
  = (map Request (map Z.of_nat (seq a n)), APIError).
Proof.
  induction n as [|n IH]; intros a Hother; [reflexivity|].
  cbn [seq map backoff_loop]. rewrite (Hother a) by lia.
  rewrite (IH (S a)) by (intros j Hj; apply Hother; lia). reflexivity.
Qed.

(** What holds of the loop from attempt [a] on, with [n] attempts to go. *)
Lemma backoff_loop_inv (n : nat) : forall a : nat,
  (1 <= a)%nat ->
  n = 0%nat \/ Z.of_nat (a + n) = (max_retries + 1)%Z ->
  let run := backoff_loop reply max_retries (map Z.of_nat (seq a n)) in
  (requests (fst run) <= n)%nat /\
  (0 <= slept (fst run))%Z /\
  ((1 <= n)%nat ->
   (slept (fst run) <= 2 ^ (max_retries - 1) - 2 ^ (Z.of_nat a - 1))%Z /\
   exists trace, fst run = Request (Z.of_nat a) :: trace) /\
  (forall seconds, last (fst run) <> Some (Sleep seconds)) /\
  (forall body, snd run = Returned body ->
                (1 <= requests (fst run))%nat /\
                reply (Z.of_nat (a + requests (fst run) - 1)) = Response200 body) /\
  (snd run = APIError -> requests (fst run) = n).
Proof.
  induction n as [|n IH]; intros a Ha Hmax run.
  - subst run. cbn. repeat split; try lia; try discriminate.
  - destruct Hmax as [Hmax | Hmax]; [discriminate|].
    assert (Hle : (2 ^ (Z.of_nat a - 1) <= 2 ^ (max_retries - 1))%Z)
      by (apply Z.pow_le_mono_r; lia).
    specialize (IH (S a) ltac:(lia)
                  ltac:(destruct n; [now left | right; lia])).
    subst run. cbn [seq map backoff_loop].
    destruct (reply (Z.of_nat a)) as [body| | |] eqn:Hr.
    + cbn [fst snd requests slept last]. repeat split; try lia; try discriminate.
      * now eexists.
      * injection H as <-. now replace (a + 1 - 1)%nat with a by lia.
    + destruct (Z.eqb_spec (Z.of_nat a) max_retries) as [E | E].
      * cbn [fst snd requests slept last]. repeat split; try lia; try discriminate.
        now eexists.
      * destruct n as [|n]; [lia|].
        destruct (backoff_loop reply max_retries (map Z.of_nat (seq (S a) (S n))))
          as [trace r]. cbn [fst snd] in IH |- *.
        destruct IH as [Hreq [Hs0 [Hs [Hlast [Hret Herr]]]]].
        destruct (Hs ltac:(lia)) as [Hbound [trace' ->]].
        rewrite (pow2_pred a Ha) in Hbound.
        pose proof (pow2_pos (Z.of_nat a - 1) ltac:(lia)) as Hpos.
        cbn [requests slept] in *. repeat split; try lia.
        -- now eexists.
        -- exact Hlast.
        -- destruct (Hret body H) as [_ Hb].
           now replace (a + S (S (requests trace')) - 1)%nat
             with (S a + S (requests trace') - 1)%nat by lia.
        -- intros H. specialize (Herr H). lia.
    + destruct n as [|n].
      * cbn [seq map backoff_loop fst snd requests slept last].
        repeat split; try lia; try discriminate. now eexists.
      * destruct (backoff_loop reply max_retries (map Z.of_nat (seq (S a) (S n))))
          as [trace r]. cbn [fst snd] in IH |- *.
        destruct IH as [Hreq [Hs0 [Hs [Hlast [Hret Herr]]]]].
        destruct (Hs ltac:(lia)) as [Hbound [trace' ->]].
        rewrite (pow2_pred a Ha) in Hbound.
        pose proof (pow2_pos (Z.of_nat a - 1) ltac:(lia)) as Hpos.
        cbn [requests slept] in *. repeat split; try lia.
        -- now eexists.
        -- exact Hlast.
        -- destruct (Hret body H) as [_ Hb].
           now replace (a + S (S (requests trace')) - 1)%nat
             with (S a + S (requests trace') - 1)%nat by lia.
        -- intros H. specialize (Herr H). lia.
    + cbn [fst snd requests slept last]. repeat split; try lia; try discriminate.
      now eexists.
Qed.

End Backoff.

(** X26.  When the first [k - 1] attempts fail with a request exception and
    attempt [k] is answered with status 200, [fetch_with_backoff] returns that
    body after [k] requests, having slept 1, 2, 4, ... seconds between them:
    [2 ^ (k - 1) - 1] seconds in all. *)
Theorem fetch_with_backoff_success_after_failures
    {J : Type} (reply : Z -> ApiUtils.outcome J) (max_retries k : Z) (body : J) :
  (1 <= k <= max_retries)%Z ->
  (forall j, (1 <= j < k)%Z -> reply j = ApiUtils.RequestFailed) ->
  reply k = ApiUtils.Response200 body ->
  ApiUtils.fetch_with_backoff reply max_retries
  = ((failed_rounds k ++ [ApiUtils.Request k])%list, ApiUtils.Returned body) /\
  ApiUtils.requests (failed_rounds k ++ [ApiUtils.Request k]) = Z.to_nat k /\
  ApiUtils.slept (failed_rounds k ++ [ApiUtils.Request k]) = (2 ^ (k - 1) - 1)%Z.
Proof.
  intros Hk Hfail Hok.
  unfold ApiUtils.fetch_with_backoff, failed_rounds, ApiUtils.attempts.
  assert (Hkd : Z.of_nat (1 + Z.to_nat (k - 1)) = k) by lia.
  rewrite (backoff_loop_success reply max_retries body (Z.to_nat (k - 1)) 1
             (Z.to_nat max_retries));
    [| lia | lia | intros j Hj; apply Hfail; lia | now rewrite Hkd].
  rewrite Hkd. split; [reflexivity|].
  rewrite requests_app, requests_rounds, slept_app, slept_rounds by lia.
  rewrite Hkd. cbn [ApiUtils.requests ApiUtils.slept]. split; [lia|].
  change (2 ^ (Z.of_nat 1 - 1))%Z with 1%Z. lia.
Qed.

Lemma fetch_with_backoff_success_after_failures_witness :
  ApiUtils.fetch_with_backoff
    (fun attempt => if (attempt <? 3)%Z then ApiUtils.RequestFailed
                    else ApiUtils.Response200 "body") 5
  = ((failed_rounds 3 ++ [ApiUtils.Request 3])%list, ApiUtils.Returned "body") /\
  ApiUtils.requests (failed_rounds 3 ++ [ApiUtils.Request 3]) = Z.to_nat 3 /\
  ApiUtils.slept (failed_rounds 3 ++ [ApiUtils.Request 3]) = (2 ^ (3 - 1) - 1)%Z.
Proof.
  apply (fetch_with_backoff_success_after_failures
           (fun attempt => if (attempt <? 3)%Z then ApiUtils.RequestFailed
                           else ApiUtils.Response200 "body") 5 3 "body").
  - lia.
  - intros j Hj. destruct (Z.ltb_spec j 3); [reflexivity | lia].
  - reflexivity.
Defined.

(** X27.  A response whose status is not 200 and that [raise_for_status] lets
    pass is retried at once: when every attempt meets one, the requests follow
    each other with no sleep and the function raises [APIError] from the line
    after the loop. *)
Theorem fetch_with_backoff_other_status
    {J : Type} (reply : Z -> ApiUtils.outcome J) (max_retries : Z) :
  (forall j, (1 <= j <= max_retries)%Z -> reply j = ApiUtils.OtherStatus) ->
  ApiUtils.fetch_with_backoff reply max_retries
  = (map ApiUtils.Request (ApiUtils.attempts max_retries), ApiUtils.APIError) /\
  ApiUtils.slept (map ApiUtils.Request (ApiUtils.attempts max_retries)) = 0%Z.
Proof.
  intros Hother. unfold ApiUtils.fetch_with_backoff, ApiUtils.attempts. split.
  - apply backoff_loop_other. intros j Hj. apply Hother. lia.
  - induction (map Z.of_nat (seq 1 (Z.to_nat max_retries))) as [|a l IH];
      [reflexivity | exact IH].
Qed.

Lemma fetch_with_backoff_other_status_witness :
  ApiUtils.fetch_with_backoff (fun _ => @ApiUtils.OtherStatus string) 3
  = ([ApiUtils.Request 1; ApiUtils.Request 2; ApiUtils.Request 3], ApiUtils.APIError) /\
  ApiUtils.slept [ApiUtils.Request 1; ApiUtils.Request 2; ApiUtils.Request 3] = 0%Z.
Proof.
  apply (fetch_with_backoff_other_status (fun _ => @ApiUtils.OtherStatus string) 3).
  reflexivity.
Defined.

(** X28.  Whatever the requests meet, [fetch_with_backoff] makes at most
    [max_retries] requests, sleeps at most [2 ^ (max_retries - 1) - 1] seconds
    and never as its last act; a returned body is the one of the last request,
    [APIError] is raised only after [max_retries] requests, and with
    [max_retries] below 1 it is raised with no request made. *)
Theorem fetch_with_backoff_bounds
    {J : Type} (reply : Z -> ApiUtils.outcome J) (max_retries : Z) :
  let run := ApiUtils.fetch_with_backoff reply max_retries in
  (ApiUtils.requests (fst run) <= Z.to_nat max_retries)%nat /\
  (0 <= ApiUtils.slept (fst run))%Z /\
  ((1 <= max_retries)%Z -> (ApiUtils.slept (fst run) <= 2 ^ (max_retries - 1) - 1)%Z) /\
  (forall seconds, last (fst run) <> Some (ApiUtils.Sleep seconds)) /\
  (forall body, snd run = ApiUtils.Returned body ->
                reply (Z.of_nat (ApiUtils.requests (fst run))) = ApiUtils.Response200 body) /\
  (snd run = ApiUtils.APIError -> ApiUtils.requests (fst run) = Z.to_nat max_retries) /\
  ((max_retries <= 0)%Z -> run = ([], ApiUtils.APIError)).
Proof.
  intros run. subst run. unfold ApiUtils.fetch_with_backoff, ApiUtils.attempts.
  destruct (backoff_loop_inv reply max_retries (Z.to_nat max_retries) 1 ltac:(lia)
              ltac:(lia)) as [Hreq [Hs0 [Hs [Hlast [Hret Herr]]]]].
  split; [exact Hreq|]. split; [exact Hs0|]. split.
  { intros Hmax. destruct (Hs ltac:(lia)) as [Hb _].
    change (2 ^ (Z.of_nat 1 - 1))%Z with 1%Z in Hb. exact Hb. }
  split; [exact Hlast|]. split.
  { intros body H. destruct (Hret body H) as [H1 Hb].
    rewrite <- Hb. f_equal. lia. }
  split; [exact Herr|].
  intros Hmax. now replace (Z.to_nat max_retries) with 0%nat by lia.
Qed.

Lemma fetch_with_backoff_bounds_witness :
  ApiUtils.fetch_with_backoff (fun _ => ApiUtils.Response200 "body") 0
  = ([], ApiUtils.APIError).
Proof.
  apply (proj2 (proj2 (proj2 (proj2 (proj2 (proj2
    (fetch_with_backoff_bounds (fun _ => ApiUtils.Response200 "body") 0))))))).
  lia.
Defined.

(** ** api_utils.py: [fetch_paginated_data] *)

Section Paginated.

Import ApiUtils.

Variable reply : nat -> Z -> outcome SearchResponse.

Lemma take_all {A : Type} (l : list A) (n : nat) : (length l <= n)%nat -> take n l = l.
Proof. intros H. now apply take_ge. Qed.

Lemma take_prefix_full {A : Type} (l1 l2 : list A) (n : nat) :
  (n <= length l1)%nat -> take n (l1 ++ l2) = take n l1.
Proof. intros H. now apply take_app_le. Qed.

Lemma omap_nil_eq {A B : Type} (f : A -> option B) : omap f [] = [].
Proof. reflexivity. Qed.

Lemma omap_cons_eq {A B : Type} (f : A -> option B) (x : A) (l : list A) :
  omap f (x :: l) = match f x with Some y => y :: omap f l | None => omap f l end.
Proof. reflexivity. Qed.

Lemma take_foods_spec (todo : list Food) : forall (acc : list Ingredient) (n : nat),
  length acc = n -> (n < 150)%nat ->
  take_foods todo acc n
  = (take 150 (acc ++ omap process_and_tag_food_item_simple todo)%list,
     length (take 150 (acc ++ omap process_and_tag_food_item_simple todo)%list)).
Proof.
  induction todo as [|food todo IH]; intros acc n Hlen Hn; cbn [take_foods].
  - rewrite omap_nil_eq, app_nil_r, take_all by lia. now rewrite Hlen.
  - rewrite omap_cons_eq.
    destruct (process_and_tag_food_item_simple food) as [r|]; [|now apply IH].
    destruct (Nat.leb_spec 150 (n + 1)) as [Hcap | Hcap].
    + replace (acc ++ r :: omap process_and_tag_food_item_simple todo)%list
        with ((acc ++ [r]) ++ omap process_and_tag_food_item_simple todo)%list
        by now rewrite <- app_assoc.
      rewrite take_prefix_full by (rewrite length_app; cbn; lia).
      rewrite take_all by (rewrite length_app; cbn; lia).
      rewrite length_app. cbn [length]. now rewrite Hlen.
    + rewrite (IH (acc ++ [r])%list (n + 1)%nat); [| rewrite length_app; cbn; lia | lia].
      now rewrite <- app_assoc.
Qed.

Lemma foods_step (response : SearchResponse) (acc : list Ingredient) (n : nat) :
  match foods response with
  | Val (food :: fs) => take_foods (food :: fs) acc n
  | _ => (acc, n)
  end = take_foods (foods_of response) acc n.
Proof.
  unfold foods_of. destruct (foods response) as [| |[|food fs]]; reflexivity.
Qed.

(** One turn of the loop over the queries, when the request was answered. *)
Lemma query_loop_step (i : nat) (query : string) (queries : list string)
    (acc : list Ingredient) (response : SearchResponse) :
  (length acc < 150)%nat ->
  snd (fetch_with_backoff (reply i) 3) = Returned response ->
  query_loop reply i (query :: queries) acc (length acc)
  = let acc' := (acc ++ omap process_and_tag_food_item_simple (foods_of response))%list in
    if (150 <=? length acc')%nat then Some (take 150 acc')
    else query_loop reply (S i) queries acc' (length acc').
Proof.
  intros Hacc Hret. cbn [query_loop]. rewrite Hret, foods_step.
  rewrite (take_foods_spec _ acc (length acc) eq_refl Hacc). cbn zeta.
  rewrite length_take.
  destruct (Nat.leb_spec 150 (length (acc ++ omap process_and_tag_food_item_simple
                                              (foods_of response))%list)) as [Hcap | Hcap].
  - now replace (150 <=? _ `min` _)%nat with true by (symmetry; apply Nat.leb_le; lia).
  - replace (150 <=? _ `min` _)%nat with false by (symmetry; apply Nat.leb_gt; lia).
    rewrite take_all by lia. f_equal. lia.
Qed.

Lemma accepted_cons (response : nat -> SearchResponse) (i d : nat) :
  omap process_and_tag_food_item_simple
    (concat (map (fun i => foods_of (response i)) (seq i (S d))))
  = (omap process_and_tag_food_item_simple (foods_of (response i))
     ++ omap process_and_tag_food_item_simple
          (concat (map (fun i => foods_of (response i)) (seq (S i) d))))%list.
Proof. cbn [seq map concat]. apply omap_app. Qed.

Lemma query_loop_returned (response : nat -> SearchResponse) (d : nat) :
  forall (i : nat) (queries : list string) (acc : list Ingredient),
    (d <= length queries)%nat ->
    (length acc < 150)%nat ->
    (forall j, (i <= j < i + d)%nat ->
               snd (fetch_with_backoff (reply j) 3) = Returned (response j)) ->
    let all := (acc ++ omap process_and_tag_food_item_simple
                         (concat (map (fun i => foods_of (response i)) (seq i d))))%list in
    d = length queries \/ (150 <= length all)%nat ->
    query_loop reply i queries acc (length acc) = Some (take 150 all).
Proof.
  induction d as [|d IH]; intros i queries acc Hd Hacc Hret all Hend; subst all.
  - cbn [seq map concat] in *. rewrite omap_nil_eq, app_nil_r in *.
    destruct Hend as [Hend | Hend]; [|lia].
    destruct queries; [|discriminate]. cbn [query_loop]. now rewrite take_all by lia.
  - destruct queries as [|query queries]; [cbn in Hd; lia|].
    rewrite (query_loop_step i query queries acc (response i) Hacc) by (apply Hret; lia).
    cbn zeta. rewrite accepted_cons in *. rewrite app_assoc in *.
    destruct (Nat.leb_spec 150 (length (acc ++ omap process_and_tag_food_item_simple
                                              (foods_of (response i)))%list)) as [Hcap | Hcap].
    + f_equal. symmetry. apply take_prefix_full. exact Hcap.
    + apply IH; [cbn in Hd; lia | lia | intros j Hj; apply Hret; lia |].
      destruct Hend as [Hend | Hend]; [left; cbn in Hend; lia | now right].
Qed.

Lemma query_loop_fails (response : nat -> SearchResponse) (d : nat) :
  forall (i : nat) (queries : list string) (acc : list Ingredient),
    (d < length queries)%nat ->
    (forall j, (i <= j < i + d)%nat ->
               snd (fetch_with_backoff (reply j) 3) = Returned (response j)) ->
    (length (acc ++ omap process_and_tag_food_item_simple
                      (concat (map (fun i => foods_of (response i)) (seq i d))))%list
     < 150)%nat ->
    (forall body, snd (fetch_with_backoff (reply (i + d)) 3) <> Returned body) ->
    query_loop reply i queries acc (length acc) = None.
Proof.
  induction d as [|d IH]; intros i queries acc Hd Hret Hlen Hfail.
  - destruct queries as [|query queries]; [cbn in Hd; lia|].
    rewrite Nat.add_0_r in Hfail. cbn [query_loop].
    destruct (snd (fetch_with_backoff (reply i) 3)) as [body| |]; [|reflexivity..].
    now destruct (Hfail body).
  - destruct queries as [|query queries]; [cbn in Hd; lia|].
    rewrite accepted_cons, app_assoc in Hlen.
    assert (Hacc : (length acc < 150)%nat) by (rewrite !length_app in Hlen; lia).
    rewrite (query_loop_step i query queries acc (response i) Hacc) by (apply Hret; lia).
    cbn zeta.
    destruct (Nat.leb_spec 150 (length (acc ++ omap process_and_tag_food_item_simple
                                              (foods_of (response i)))%list)) as [Hcap | Hcap];
      [rewrite length_app in Hlen; lia|].
    apply IH; [cbn in Hd; lia | intros j Hj; apply Hret; lia | exact Hlen |].
    now replace (S i + d)%nat with (i + S d)%nat by lia.
Qed.

End Paginated.

(** X29.  When the queries 1 to [k] are answered, and [k] is the last query or
    their foods already give 150 ingredients, [fetch_paginated_data] returns
    the first 150 ingredients that [process_and_tag_food_item_simple] makes of
    the foods of these responses, in order; later queries are not needed. *)
Theorem fetch_paginated_data_returned
    (reply : nat -> Z -> ApiUtils.outcome ApiUtils.SearchResponse)
    (response : nat -> ApiUtils.SearchResponse) (k : nat) :
  (k <= 3)%nat ->
  (forall i, (1 <= i <= k)%nat ->
             snd (ApiUtils.fetch_with_backoff (reply i) 3) = ApiUtils.Returned (response i)) ->
  k = 3%nat \/ (150 <= length (accepted_from response k))%nat ->
  ApiUtils.fetch_paginated_data reply = Some (take 150 (accepted_from response k)).
Proof.
  intros Hk Hret Hend. unfold ApiUtils.fetch_paginated_data, accepted_from.
  apply (query_loop_returned reply response k 1 ApiUtils.MEAT_QUERIES []).
  - exact Hk.
  - cbn. lia.
  - intros j Hj. apply Hret. lia.
  - exact Hend.
Qed.

Lemma fetch_paginated_data_returned_witness :
  ApiUtils.fetch_paginated_data
    (fun i _ =>
       ApiUtils.Response200
         (ApiUtils.mkSearchResponse
            (if (i =? 2)%nat
             then ApiUtils.Val [ApiUtils.mkFood (ApiUtils.Val "Rice, white") ApiUtils.Missing;
                                ApiUtils.mkFood (ApiUtils.Val "   ") ApiUtils.Missing]
             else ApiUtils.Null)))
  = Some [mkIngredient "Rice, white" 0.15 0 0.0 0 (Some []) None].
Proof.
  apply (fetch_paginated_data_returned _
           (fun i =>
              ApiUtils.mkSearchResponse
                (if (i =? 2)%nat
                 then ApiUtils.Val [ApiUtils.mkFood (ApiUtils.Val "Rice, white") ApiUtils.Missing;
                                    ApiUtils.mkFood (ApiUtils.Val "   ") ApiUtils.Missing]
                 else ApiUtils.Null)) 3).
  - lia.
  - intros i Hi. reflexivity.
  - now left.
Defined.

(** X30.  [fetch_paginated_data] is all or nothing: when a query that is
    reached is not answered, [APIError] is raised and the ingredients made of
    the earlier responses are lost. *)
Theorem fetch_paginated_data_all_or_nothing
    (reply : nat -> Z -> ApiUtils.outcome ApiUtils.SearchResponse)
    (response : nat -> ApiUtils.SearchResponse) (k : nat) :
  (k < 3)%nat ->
  (forall i, (1 <= i <= k)%nat ->
             snd (ApiUtils.fetch_with_backoff (reply i) 3) = ApiUtils.Returned (response i)) ->
  (length (accepted_from response k) < 150)%nat ->
  (forall body, snd (ApiUtils.fetch_with_backoff (reply (S k)) 3) <> ApiUtils.Returned body) ->
  ApiUtils.fetch_paginated_data reply = None.
Proof.
  intros Hk Hret Hlen Hfail. unfold ApiUtils.fetch_paginated_data.
  apply (query_loop_fails reply response k 1 ApiUtils.MEAT_QUERIES []).
  - exact Hk.
  - intros j Hj. apply Hret. lia.
  - exact Hlen.
  - exact Hfail.
Qed.

Lemma fetch_paginated_data_all_or_nothing_witness :
  ApiUtils.fetch_paginated_data
    (fun i _ =>
       if (i =? 3)%nat then ApiUtils.RequestFailed
       else ApiUtils.Response200
              (ApiUtils.mkSearchResponse
                 (ApiUtils.Val [ApiUtils.mkFood (ApiUtils.Val "Rice, white")
                                  ApiUtils.Missing])))
  = None.
Proof.
  apply (fetch_paginated_data_all_or_nothing _
           (fun _ => ApiUtils.mkSearchResponse
                       (ApiUtils.Val [ApiUtils.mkFood (ApiUtils.Val "Rice, white")
                                        ApiUtils.Missing])) 2).
  - lia.
  - intros i Hi. destruct i as [|[|[|i]]]; [lia | reflexivity | reflexivity | lia].
  - vm_compute. lia.
  - intros body. discriminate.
Defined.


(** ** recipe_utils.py: [get_recipe_details] *)

Section RecipeDetails.

Import ApiUtils.

Variable meal : RecipeUtils.MealJson.

Lemma ingredient_loop_some (n : nat) : forall (a : nat) (acc l : list string),
  RecipeUtils.ingredient_loop meal (seq a n) acc = Some l ->
  exists k,
    (k <= n)%nat /\
    l = (acc ++ map (ingredient_line meal) (seq a k))%list /\
    (forall i, (a <= i < a + k)%nat ->
               named meal i = true /\ is_text (RecipeUtils.strMeasure meal i) = true) /\
    ((k < n)%nat -> named meal (a + k) = false).
Proof.
  induction n as [|n IH]; intros a acc l H.
  - injection H as <-. exists 0%nat. cbn [seq map]. rewrite app_nil_r.
    repeat split; try lia.
  - cbn [seq RecipeUtils.ingredient_loop] in H.
    assert (Hstop : named meal a = false -> Some acc = Some l ->
                    exists k, (k <= S n)%nat /\
                      l = (acc ++ map (ingredient_line meal) (seq a k))%list /\
                      (forall i, (a <= i < a + k)%nat ->
                                 named meal i = true /\
                                 is_text (RecipeUtils.strMeasure meal i) = true) /\
                      ((k < S n)%nat -> named meal (a + k) = false)).
    { intros Hn [= <-]. exists 0%nat. cbn [seq map]. rewrite app_nil_r, Nat.add_0_r.
      repeat split; try lia. intros _. exact Hn. }
    unfold named, text in Hstop.
    destruct (RecipeUtils.strIngredient meal a) as [| |ingredient] eqn:Hi;
      [now apply Hstop..|].
    destruct (Str.strip ingredient) as [|c s] eqn:Hs; [now apply Hstop|].
    destruct (RecipeUtils.strMeasure meal a) as [| |measure] eqn:Hm; [discriminate..|].
    apply IH in H as [k [Hk [-> [Hall Hnext]]]]. exists (S k).
    split; [lia|]. split.
    { cbn [seq map]. rewrite <- app_assoc. cbn [app]. do 2 f_equal.
      unfold ingredient_line, text. now rewrite Hi, Hm, Hs. }
    split.
    { intros i Hi'. destruct (Nat.eq_dec i a) as [-> | Hne].
      - unfold named, text, is_text. now rewrite Hi, Hm, Hs.
      - apply Hall. lia. }
    intros Hlt. replace (a + S k)%nat with (S a + k)%nat by lia. apply Hnext. lia.
Qed.

Lemma ingredient_loop_none (n : nat) : forall (a i : nat) (acc : list string),
  (a <= i < a + n)%nat ->
  (forall j, (a <= j <= i)%nat -> named meal j = true) ->
  is_text (RecipeUtils.strMeasure meal i) = false ->
  RecipeUtils.ingredient_loop meal (seq a n) acc = None.
Proof.
  induction n as [|n IH]; intros a i acc Hi Hnamed Hm; [lia|].
  cbn [seq RecipeUtils.ingredient_loop].
  pose proof (Hnamed a ltac:(lia)) as Ha. unfold named, text in Ha.
  destruct (RecipeUtils.strIngredient meal a) as [| |ingredient]; [discriminate..|].
  destruct (Str.strip ingredient) as [|c s]; [discriminate|].
  destruct (RecipeUtils.strMeasure meal a) as [| |measure] eqn:Hma; [reflexivity..|].
  destruct (Nat.eq_dec i a) as [-> | Hne].
  - unfold is_text in Hm. now rewrite Hma in Hm.
  - apply (IH (S a) i); [lia | intros j Hj; apply Hnamed; lia | exact Hm].
Qed.

End RecipeDetails.

(** X18.  The ingredient lines of the details are made of the first [k]
    numbered ingredients, [k] at most 20: those before the first one that is
    missing, null or blank, whatever follows it; each line is the trimmed
    measure, one space and the trimmed ingredient, and the other entries are
    those of the first meal of the response. *)
Theorem get_recipe_details_ingredients
    (reply : RecipeUtils.outcome) (details : RecipeUtils.Details) :
  RecipeUtils.get_recipe_details reply = Some details ->
  exists meal others k,
    reply = RecipeUtils.Answered (ApiUtils.Val (meal :: others)) /\
    (k <= 20)%nat /\
    RecipeUtils.ingredients details = map (ingredient_line meal) (seq 1 k) /\
    (forall i, (1 <= i <= k)%nat ->
               named meal i = true /\ is_text (RecipeUtils.strMeasure meal i) = true) /\
    ((k < 20)%nat -> named meal (S k) = false) /\
    RecipeUtils.title details = RecipeUtils.strMeal meal /\
    RecipeUtils.id details = RecipeUtils.idMeal meal /\
    RecipeUtils.thumbnail details = RecipeUtils.strMealThumb meal.
Proof.
  unfold RecipeUtils.get_recipe_details. intros H.
  destruct reply as [|[| |[|meal others]]]; try discriminate.
  destruct (RecipeUtils.ingredient_loop meal (seq 1 20) []) as [lines|] eqn:Hl;
    [|discriminate].
  apply ingredient_loop_some in Hl as [k [Hk [-> [Hall Hnext]]]].
  assert (Hd : exists steps,
             details = RecipeUtils.mkDetails (RecipeUtils.idMeal meal) (RecipeUtils.strMeal meal)
                         steps (map (ingredient_line meal) (seq 1 k))
                         (RecipeUtils.strMealThumb meal)).
  { cbn [mbind option_bind app] in H.
    destruct (RecipeUtils.strInstructions meal); cbn [mbind option_bind] in H;
      [injection H as <-; now eexists | discriminate | injection H as <-; now eexists]. }
  destruct Hd as [steps ->]. exists meal, others, k. cbn.
  repeat split; try lia; try (apply Hall; lia).
  intros Hlt. apply (Hnext Hlt).
Qed.

Lemma get_recipe_details_ingredients_witness :
  exists meal others k,
    RecipeUtils.Answered
      (ApiUtils.Val
         [RecipeUtils.mkMealJson (ApiUtils.Val "52772") (ApiUtils.Val "Teriyaki Chicken")
            (ApiUtils.Val "Mix. Cook.") ApiUtils.Null
            (fun i => match i with
                      | 1 => ApiUtils.Val "soy sauce"
                      | 2 => ApiUtils.Val "water"
                      | 4 => ApiUtils.Val "rice"
                      | _ => ApiUtils.Val " "
                      end%nat)
            (fun i => match i with 1 => ApiUtils.Val "3/4 cup " | _ => ApiUtils.Val "" end%nat)])
    = RecipeUtils.Answered (ApiUtils.Val (meal :: others)) /\
    (k <= 20)%nat /\
    ["3/4 cup soy sauce"; " water"] = map (ingredient_line meal) (seq 1 k) /\
    (forall i, (1 <= i <= k)%nat ->
               named meal i = true /\ is_text (RecipeUtils.strMeasure meal i) = true) /\
    ((k < 20)%nat -> named meal (S k) = false) /\
    ApiUtils.Val "Teriyaki Chicken" = RecipeUtils.strMeal meal /\
    ApiUtils.Val "52772" = RecipeUtils.idMeal meal /\
    ApiUtils.Null = RecipeUtils.strMealThumb meal.
Proof.
  apply (get_recipe_details_ingredients _
           (RecipeUtils.mkDetails (ApiUtils.Val "52772") (ApiUtils.Val "Teriyaki Chicken")
              ["Mix. Cook."] ["3/4 cup soy sauce"; " water"] ApiUtils.Null)).
  vm_compute. reflexivity.
Defined.

(** X19.  When a numbered ingredient that the loop reaches has a measure that
    is missing or null, [get_recipe_details] returns [None] for the whole
    meal. *)
Theorem get_recipe_details_null_measure
    (meal : RecipeUtils.MealJson) (others : list RecipeUtils.MealJson) (i : nat) :
  (1 <= i <= 20)%nat ->
  (forall j, (1 <= j <= i)%nat -> named meal j = true) ->
  is_text (RecipeUtils.strMeasure meal i) = false ->
  RecipeUtils.get_recipe_details (RecipeUtils.Answered (ApiUtils.Val (meal :: others))) = None.
Proof.
  intros Hi Hnamed Hm. unfold RecipeUtils.get_recipe_details.
  now rewrite (ingredient_loop_none meal 20 1 i []) by (try lia; assumption).
Qed.

Lemma get_recipe_details_null_measure_witness :
  RecipeUtils.get_recipe_details
    (RecipeUtils.Answered
       (ApiUtils.Val
          [RecipeUtils.mkMealJson (ApiUtils.Val "1") (ApiUtils.Val "Toast")
             (ApiUtils.Val "Toast it.") ApiUtils.Null
             (fun i => match i with
                       | 1 => ApiUtils.Val "Bread"
                       | 2 => ApiUtils.Val "Salt"
                       | _ => ApiUtils.Null
                       end%nat)
             (fun i => match i with 1 => ApiUtils.Val "2 slices" | _ => ApiUtils.Null end%nat)]))
  = None.
Proof.
  apply (get_recipe_details_null_measure _ [] 2).
  - lia.
  - intros j Hj. destruct j as [|[|[|j]]]; [lia | reflexivity | reflexivity | lia].
  - reflexivity.
Defined.

(** ** app.py: [generate_enhanced_recipe] *)

(** X15.  [generate_enhanced_recipe] always returns, with the title it was
    given; the instructions are those of the first attempt that is answered,
    the original ones when that answer has none or when all three attempts
    fail; it posts at most three times and sleeps 1 and then 2 seconds between
    failed attempts, never after the last. *)
Theorem generate_enhanced_recipe_fallback
    (reply : Z -> App.llm_outcome) (recipe_details : RecipeUtils.Details) :
  let run := App.generate_enhanced_recipe reply recipe_details in
  fst (snd run) = RecipeUtils.title recipe_details /\
  (llm_posts (fst run) <= 3)%nat /\
  (llm_slept (fst run) <= 3)%Z /\
  (forall seconds, last (fst run) <> Some (App.Sleep seconds)) /\
  ((exists k enhanced,
       (0 <= k < 3)%Z /\ (forall j, (0 <= j < k)%Z -> reply j = App.LlmFailed) /\
       reply k = App.LlmAnswered enhanced /\
       llm_posts (fst run) = Z.to_nat (k + 1) /\ llm_slept (fst run) = (2 ^ k - 1)%Z /\
       snd (snd run) = default (RecipeUtils.instructions recipe_details) enhanced) \/
   ((forall j, (0 <= j < 3)%Z -> reply j = App.LlmFailed) /\
    fst run = [App.Post 0; App.Sleep 1; App.Post 1; App.Sleep 2; App.Post 2] /\
    snd (snd run) = RecipeUtils.instructions recipe_details)).
Proof.
  intros run. subst run. unfold App.generate_enhanced_recipe.
  change (map Z.of_nat (seq 0 (Z.to_nat App.max_retries))) with [0; 1; 2]%Z.
  assert (Hcases : forall j, (0 <= j < 3)%Z -> j = 0%Z \/ j = 1%Z \/ j = 2%Z) by lia.
  cbn [App.enhance_loop].
  change (0 <? App.max_retries - 1)%Z with true.
  change (1 <? App.max_retries - 1)%Z with true.
  change (2 <? App.max_retries - 1)%Z with false.
  change (2 ^ 0)%Z with 1%Z. change (2 ^ 1)%Z with 2%Z. cbv iota.
  destruct (reply 0%Z) as [|e0] eqn:H0.
  2:{ cbn. repeat split; try lia; try discriminate.
      left. exists 0%Z, e0. repeat split; try lia. exact H0. }
  destruct (reply 1%Z) as [|e1] eqn:H1.
  2:{ cbn. repeat split; try lia; try discriminate.
      left. exists 1%Z, e1. repeat split; try lia; [|exact H1].
      intros j Hj. now replace j with 0%Z by lia. }
  destruct (reply 2%Z) as [|e2] eqn:H2.
  2:{ cbn. repeat split; try lia; try discriminate.
      left. exists 2%Z, e2. repeat split; try lia; [|exact H2].
      intros j Hj. destruct (Hcases j ltac:(lia)) as [-> | [-> | ->]]; [assumption.. | lia]. }
  cbn. repeat split; try lia; try discriminate.
  right. repeat split.
  intros j Hj. destruct (Hcases j Hj) as [-> | [-> | ->]]; assumption.
Qed.

(** ** app.py: the allergy list of the request *)

Section UserAllergies.

Lemma contains_comma_cons (c : ascii) (s : string) :
  Str.contains "," (String c s) = Ascii.eqb "," c || Str.contains "," s.
Proof.
  cbn [Str.contains]. rewrite startswith_cons, startswith_nil. now rewrite andb_true_r.
Qed.

Lemma split_comma_cons (c : ascii) (s : string) :
  split "," (String c s)
  = if Ascii.eqb "," c then "" :: split "," s
    else match split "," s with
         | piece :: pieces => String c piece :: pieces
         | [] => [String c ""]
         end.
Proof.
  unfold split. cbn [split_from]. rewrite startswith_cons, startswith_nil, andb_true_r.
  reflexivity.
Qed.

Lemma split_from_cons (sep : string) (s : string) : forall skip,
  exists piece pieces, split_from sep skip s = piece :: pieces.
Proof.
  induction s as [|c s IH]; intros skip; [now eexists _, _|].
  cbn [split_from]. destruct skip as [|k]; [|apply IH].
  destruct (Str.startswith sep (String c s)); [now eexists _, _|].
  destruct (IH 0%nat) as [p [ps ->]]. now eexists _, _.
Qed.

Lemma split_comma_pieces (s piece : string) :
  In piece (split "," s) -> Str.contains "," piece = false.
Proof.
  revert piece. induction s as [|c s IH]; intros piece.
  - intros [<- | []]. reflexivity.
  - rewrite split_comma_cons. destruct (Ascii.eqb "," c) eqn:Hc.
    + intros [<- | H]; [reflexivity | now apply IH].
    + destruct (split_from_cons "," s 0) as [p [ps Hp]]. fold (split "," s) in Hp.
      rewrite Hp in *. intros [<- | H].
      * rewrite contains_comma_cons, Hc. apply IH. now left.
      * apply IH. now right.
Qed.

Lemma comma_free_lstrip (s : string) :
  Str.contains "," s = false -> Str.contains "," (Str.lstrip s) = false.
Proof.
  induction s as [|c s IH]; [easy|]. intros H. cbn [Str.lstrip].
  destruct (Str.isspace c); [|exact H].
  rewrite contains_comma_cons in H. apply orb_false_iff in H as [_ H]. now apply IH.
Qed.

Lemma comma_free_rstrip (s : string) :
  Str.contains "," s = false -> Str.contains "," (Str.rstrip s) = false.
Proof.
  induction s as [|c s IH]; [easy|]. intros H. rewrite rstrip_cons.
  rewrite contains_comma_cons in H. apply orb_false_iff in H as [Hc H].
  specialize (IH H). destruct (Str.rstrip s) as [|r rs].
  - destruct (Str.isspace c); [reflexivity|]. rewrite contains_comma_cons, Hc. reflexivity.
  - rewrite contains_comma_cons, Hc. exact IH.
Qed.

Lemma comma_lower_char (c : ascii) : Ascii.eqb "," (Str.lower_char c) = Ascii.eqb "," c.
Proof. destruct c as [[] [] [] [] [] [] [] []]; reflexivity. Qed.

Lemma comma_free_lower (s : string) :
  Str.contains "," (Str.lower s) = Str.contains "," s.
Proof.
  induction s as [|c s IH]; [reflexivity|]. cbn [Str.lower].
  now rewrite !contains_comma_cons, comma_lower_char, IH.
Qed.

Lemma isspace_lower_char (c : ascii) : Str.isspace (Str.lower_char c) = Str.isspace c.
Proof. destruct c as [[] [] [] [] [] [] [] []]; reflexivity. Qed.

Lemma lstrip_lower (s : string) : Str.lstrip (Str.lower s) = Str.lower (Str.lstrip s).
Proof.
  induction s as [|c s IH]; [reflexivity|]. cbn [Str.lower Str.lstrip].
  rewrite isspace_lower_char. now destruct (Str.isspace c).
Qed.

Lemma rstrip_lower (s : string) : Str.rstrip (Str.lower s) = Str.lower (Str.rstrip s).
Proof.
  induction s as [|c s IH]; [reflexivity|]. cbn [Str.lower]. rewrite !rstrip_cons, IH.
  rewrite isspace_lower_char.
  destruct (Str.rstrip s) as [|r rs]; [now destruct (Str.isspace c) | reflexivity].
Qed.

Lemma strip_lower (s : string) : Str.strip (Str.lower s) = Str.lower (Str.strip s).
Proof. unfold Str.strip. now rewrite lstrip_lower, rstrip_lower. Qed.

Lemma lower_empty (s : string) : Str.lower s = "" -> s = "".
Proof. now destruct s. Qed.

Lemma split_comma_single (a : string) :
  Str.contains "," a = false -> split "," a = [a].
Proof.
  induction a as [|c a IH]; [reflexivity|]. rewrite contains_comma_cons, split_comma_cons.
  intros H. apply orb_false_iff in H as [-> H]. now rewrite (IH H).
Qed.

Lemma split_comma_app (a rest : string) :
  Str.contains "," a = false -> split "," (a +:+ "," +:+ rest) = a :: split "," rest.
Proof.
  induction a as [|c a IH]; intros H.
  - rewrite app_nil_str, app_cons_str, split_comma_cons. reflexivity.
  - rewrite contains_comma_cons in H. apply orb_false_iff in H as [Hc H].
    rewrite app_cons_str, split_comma_cons, Hc. now rewrite (IH H).
Qed.

Lemma filter_cons_eq {A : Type} (f : A -> bool) (x : A) (l : list A) :
  List.filter f (x :: l) = if f x then x :: List.filter f l else List.filter f l.
Proof. reflexivity. Qed.

(** What one piece of the split gives. *)
Lemma user_allergies_single (a : string) :
  Str.contains "," a = false ->
  App.user_allergies a
  = match Str.strip a with EmptyString => [] | _ => [Str.lower (Str.strip a)] end.
Proof.
  intros H. unfold App.user_allergies. rewrite (split_comma_single a H), filter_cons_eq.
  destruct (Str.strip a) eqn:Hs; [reflexivity|]. cbn [map List.filter]. now rewrite Hs.
Qed.

Lemma user_allergies_app (a rest : string) :
  Str.contains "," a = false ->
  App.user_allergies (a +:+ "," +:+ rest)
  = (App.user_allergies a ++ App.user_allergies rest)%list.
Proof.
  intros H. rewrite (user_allergies_single a H). unfold App.user_allergies.
  rewrite (split_comma_app a rest H), filter_cons_eq.
  destruct (Str.strip a) eqn:Hs; [reflexivity|]. cbn [map app]. now rewrite Hs.
Qed.

Lemma user_allergies_space (c : ascii) (s : string) :
  Str.isspace c = true -> App.user_allergies (String c s) = App.user_allergies s.
Proof.
  intros Hc. unfold App.user_allergies. rewrite split_comma_cons.
  assert (Hne : Ascii.eqb "," c = false)
    by (destruct c as [[] [] [] [] [] [] [] []]; try reflexivity; discriminate Hc).
  rewrite Hne. destruct (split_from_cons "," s 0) as [p [ps Hp]]. fold (split "," s) in Hp.
  rewrite Hp, !filter_cons_eq.
  assert (Hs : Str.strip (String c p) = Str.strip p)
    by (unfold Str.strip; cbn [Str.lstrip]; now rewrite Hc).
  rewrite Hs. destruct (Str.strip p) eqn:Hp'; [reflexivity|].
  cbn [map]. now rewrite Hs, Hp'.
Qed.

Lemma user_allergies_clean (t : string) :
  t <> "" -> Str.strip t = t -> Str.lower t = t -> Str.contains "," t = false ->
  App.user_allergies t = [t].
Proof.
  intros Hne Hs Hl Hc. rewrite (user_allergies_single t Hc), Hs, Hl.
  now destruct t.
Qed.

End UserAllergies.

(** X14.  Every tag parsed from the allergy text is non-empty, trimmed,
    lower-case and free of commas; and a list of such tags, joined with
    commas or with a comma and a space, is parsed back to itself. *)
Theorem user_allergies_parse :
  (forall (additional_allergies tag : string),
      In tag (App.user_allergies additional_allergies) ->
      tag <> "" /\ Str.strip tag = tag /\ Str.lower tag = tag /\
      Str.contains "," tag = false) /\
  (forall tags : list string,
      Forall (fun tag => tag <> "" /\ Str.strip tag = tag /\ Str.lower tag = tag /\
                         Str.contains "," tag = false) tags ->
      App.user_allergies (Str.join "," tags) = tags /\
      App.user_allergies (Str.join ", " tags) = tags).
Proof.
  split.
  - intros s tag Hin. unfold App.user_allergies in Hin.
    apply in_map_iff in Hin as [a [<- Ha]]. apply filter_In in Ha as [Ha Hkeep].
    split; [|split; [|split]].
    + intros He. apply lower_empty in He. now rewrite He in Hkeep.
    + now rewrite strip_lower, strip_twice.
    + apply lower_twice.
    + rewrite comma_free_lower. unfold Str.strip.
      apply comma_free_rstrip, comma_free_lstrip. now apply (split_comma_pieces s).
  - intros tags Hall. induction Hall as [|t tags [Hne [Hs [Hl Hc]]] Hall [IH1 IH2]];
      [split; reflexivity|].
    destruct tags as [|t' tags].
    + split; apply (user_allergies_clean t Hne Hs Hl Hc).
    + split.
      * change (Str.join "," (t :: t' :: tags))
          with (t +:+ "," +:+ Str.join "," (t' :: tags)).
        rewrite (user_allergies_app _ _ Hc), IH1.
        now rewrite (user_allergies_clean t Hne Hs Hl Hc).
      * change (Str.join ", " (t :: t' :: tags))
          with (t +:+ "," +:+ String " " (Str.join ", " (t' :: tags))).
        rewrite (user_allergies_app _ _ Hc), (user_allergies_space " " _ eq_refl), IH2.
        now rewrite (user_allergies_clean t Hne Hs Hl Hc).
Qed.

Lemma user_allergies_parse_witness :
  App.user_allergies (Str.join ", " ["milk"; "tree nut"; "soy"]) = ["milk"; "tree nut"; "soy"].
Proof.
  apply (proj2 user_allergies_parse ["milk"; "tree nut"; "soy"]).
  repeat constructor; try discriminate.
Defined.

(** ** app.py: [suggest_recipe] *)

Section Suggest.

Import ApiUtils.

Variable search : string -> RecipeUtils.outcome.
Variable lookup : nat -> RecipeUtils.outcome.
Variable llm : nat -> Z -> App.llm_outcome.

Lemma enhance_loop_title (reply : Z -> App.llm_outcome) (details : RecipeUtils.Details)
    (todo : list Z) :
  fst (snd (App.enhance_loop reply details todo)) = RecipeUtils.title details.
Proof.
  induction todo as [|attempt todo IH]; [reflexivity|]. cbn [App.enhance_loop].
  destruct (reply attempt); [|reflexivity].
  destruct (attempt <? App.max_retries - 1)%Z; [|reflexivity].
  now destruct (App.enhance_loop reply details todo).
Qed.

Lemma safe_recipe_mono (excluded_tags : list string) (preference : string) (n m : nat)
    (recipe : App.Recipe) :
  (n <= m)%nat ->
  safe_recipe lookup excluded_tags preference n recipe ->
  safe_recipe lookup excluded_tags preference m recipe.
Proof.
  intros Hnm [Ha [Hk [Hd [i [details [Hi H]]]]]]. split; [exact Ha|]. split; [exact Hk|].
  split; [exact Hd|]. exists i, details. split; [lia | exact H].
Qed.

Lemma filter_loop_safe (excluded_tags : list string) (preference : string)
    (todo : list RecipeUtils.MealJson) :
  forall (i : nat) (acc recipes : list App.Recipe),
    (length acc < 5)%nat ->
    Forall (safe_recipe lookup excluded_tags preference i) acc ->
    App.filter_loop lookup llm excluded_tags preference i todo acc = Some recipes ->
    (length recipes <= 5)%nat /\
    Forall (safe_recipe lookup excluded_tags preference (i + length todo)) recipes.
Proof.
  induction todo as [|summary todo IH]; intros i acc recipes Hlen Hacc Hres.
  - injection Hres as <-. split; [lia|]. cbn [length]. now rewrite Nat.add_0_r.
  - assert (Hcont : App.filter_loop lookup llm excluded_tags preference (S i) todo acc
                    = Some recipes ->
                    (length recipes <= 5)%nat /\
                    Forall (safe_recipe lookup excluded_tags preference
                              (i + length (summary :: todo))) recipes).
    { intros H. apply IH in H; [| exact Hlen |].
      - cbn [length]. now replace (i + S (length todo))%nat with (S i + length todo)%nat by lia.
      - eapply Forall_impl; [exact Hacc|]. intros r. apply safe_recipe_mono. lia. }
    cbn [App.filter_loop] in Hres. cbv zeta in Hres.
    destruct (RecipeUtils.idMeal summary) as [| |[|c meal_id]]; try now apply Hcont.
    destruct (RecipeUtils.get_recipe_details (lookup i)) as [details|] eqn:Hd;
      [|now apply Hcont].
    destruct (check_recipe_allergens (RecipeUtils.ingredients details) excluded_tags) eqn:Ha;
      cbn [negb] in Hres; [|now apply Hcont].
    destruct (App.check_details_dietary details preference) as [[|]|] eqn:Hp;
      [| now apply Hcont | discriminate].
    set (recipe := {| App.title := _ |}) in Hres.
    assert (Hsafe : safe_recipe lookup excluded_tags preference (S i) recipe).
    { split; [exact Ha|]. split.
      { intros line tag keyword Hline Htag Hkw Hocc.
        assert (Hf : check_recipe_allergens (RecipeUtils.ingredients details) excluded_tags
                     = false)
          by (apply check_recipe_allergens_false; now exists line, tag, keyword).
        congruence. }
      split.
      { intros recipe_title Ht. subst recipe. cbn [App.title App.ingredients] in *.
        unfold App.generate_enhanced_recipe in Ht. rewrite enhance_loop_title in Ht.
        unfold App.check_details_dietary in Hp. rewrite Ht in Hp. now injection Hp. }
      exists i, details. split; [lia|]. split; [exact Hd|]. subst recipe.
      cbn [App.title App.ingredients App.thumbnail].
      unfold App.generate_enhanced_recipe. rewrite enhance_loop_title. now repeat split. }
    assert (Hacc' : Forall (safe_recipe lookup excluded_tags preference (S i))
                      (acc ++ [recipe])).
    { apply Forall_app. split; [|now constructor].
      eapply Forall_impl; [exact Hacc|]. intros r. apply safe_recipe_mono. lia. }
    destruct (Nat.leb_spec 5 (length (acc ++ [recipe]))) as [Hcap | Hcap].
    + injection Hres as <-. rewrite length_app in *. cbn [length] in *. split; [lia|].
      eapply Forall_impl; [exact Hacc'|]. intros r. apply safe_recipe_mono. lia.
    + apply IH in Hres; [| exact Hcap | exact Hacc'].
      cbn [length]. now replace (i + S (length todo))%nat with (S i + length todo)%nat by lia.
Qed.

Lemma search_recipes_by_ingredient_length (ingredient : string)
    (recipes : list RecipeUtils.MealJson) :
  RecipeUtils.search_recipes_by_ingredient search ingredient = Some recipes ->
  (length recipes <= 10)%nat.
Proof.
  unfold RecipeUtils.search_recipes_by_ingredient.
  destruct (search _) as [|[| |[|meal meals]]]; try discriminate;
    intros [= <-]; try (cbn; lia).
  cbn [length]. rewrite length_take. lia.
Qed.

Lemma potential_recipes_length (available : field string)
    (recipes : list RecipeUtils.MealJson) :
  App.potential_recipes search available = Some recipes -> (length recipes <= 10)%nat.
Proof.
  unfold App.potential_recipes.
  destruct available as [| |[|c s]]; try apply search_recipes_by_ingredient_length.
  destruct (Str.strip _); [intros [= <-]; cbn; lia|].
  apply search_recipes_by_ingredient_length.
Qed.

End Suggest.

(** X16.  The route suggests between one and five recipes; each was made
    from the details of one of the at most ten recipes found, keeps their
    title and ingredient lines, has no ingredient line in which a keyword of a
    requested allergy occurs, and passes the dietary check of the requested
    preference. *)
Theorem suggest_recipe_suggests_safe_recipes
    (search : string -> RecipeUtils.outcome) (lookup : nat -> RecipeUtils.outcome)
    (llm : nat -> Z -> App.llm_outcome) (data : App.Request) (recipes : list App.Recipe) :
  App.suggest_recipe search lookup llm (Some data) = App.Suggested recipes ->
  (1 <= length recipes <= 5)%nat /\
  Forall (safe_recipe lookup (App.user_allergies (text (App.additional_allergies data)))
            (preference_of data) 10) recipes.
Proof.
  unfold App.suggest_recipe, preference_of. intros H.
  destruct (App.additional_allergies data) as [| |a];
    destruct (App.dietary_preference data) as [| |p]; try discriminate H;
    cbn [text];
    (destruct (App.potential_recipes search (App.available_ingredients data))
       as [[|r rs]|] eqn:Hp; try discriminate H);
    apply potential_recipes_length in Hp;
    match type of H with
    | match ?loop with _ => _ end = _ =>
        destruct loop as [[|x xs]|] eqn:Hl; try discriminate H
    end;
    injection H as <-;
    (apply filter_loop_safe in Hl as [Hlen Hall]; [| cbn; lia | constructor]);
    (split; [cbn [length] in *; lia|]);
    (eapply Forall_impl; [exact Hall|]); intros recipe; apply safe_recipe_mono;
    cbn [Nat.add]; exact Hp.
Qed.

Lemma suggest_recipe_suggests_safe_recipes_witness :
  (1 <= length [App.mkRecipe (ApiUtils.Val "Rice bowl") ["1 cup rice"] ["Boil."]
                  ApiUtils.Missing] <= 5)%nat /\
  Forall (safe_recipe
            (fun i => RecipeUtils.Answered
                        (ApiUtils.Val
                           [RecipeUtils.mkMealJson (ApiUtils.Val "7")
                              (ApiUtils.Val (if (i =? 1)%nat then "Rice bowl" else "Egg fried rice"))
                              (ApiUtils.Val "Boil.") ApiUtils.Missing
                              (fun k => match k with
                                        | 1 => ApiUtils.Val "rice"
                                        | 2 => if (i =? 1)%nat then ApiUtils.Null
                                               else ApiUtils.Val "Eggs"
                                        | _ => ApiUtils.Null
                                        end%nat)
                              (fun k => ApiUtils.Val "1 cup")]))
            (App.user_allergies (text (ApiUtils.Val "Egg, soy"))) (preference_of
               (App.mkRequest (ApiUtils.Val "Egg, soy") (ApiUtils.Val "Rice, peas")
                  ApiUtils.Missing)) 10)
    [App.mkRecipe (ApiUtils.Val "Rice bowl") ["1 cup rice"] ["Boil."] ApiUtils.Missing].
Proof.
  apply (suggest_recipe_suggests_safe_recipes
           (fun _ => RecipeUtils.Answered
                       (ApiUtils.Val
                          [RecipeUtils.mkMealJson (ApiUtils.Val "6") ApiUtils.Missing
                             ApiUtils.Missing ApiUtils.Missing (fun _ => ApiUtils.Missing)
                             (fun _ => ApiUtils.Missing);
                           RecipeUtils.mkMealJson (ApiUtils.Val "7") ApiUtils.Missing
                             ApiUtils.Missing ApiUtils.Missing (fun _ => ApiUtils.Missing)
                             (fun _ => ApiUtils.Missing)]))
           _ (fun _ _ => App.LlmFailed)
           (App.mkRequest (ApiUtils.Val "Egg, soy") (ApiUtils.Val "Rice, peas")
              ApiUtils.Missing)).
  vm_compute. reflexivity.
Defined.

(** X17.  When the text of available ingredients is not empty but has
    nothing except whitespace before its first comma, the route searches
    nothing and answers that no recipes were found, whatever follows the
    comma. *)
Theorem suggest_recipe_blank_first_ingredient
    (search : string -> RecipeUtils.outcome) (lookup : nat -> RecipeUtils.outcome)
    (llm : nat -> Z -> App.llm_outcome) (data : App.Request) (available : string) :
  App.additional_allergies data <> ApiUtils.Null ->
  App.dietary_preference data <> ApiUtils.Null ->
  App.available_ingredients data = ApiUtils.Val available ->
  available <> "" ->
  Str.strip (Str.split_head "," available) = "" ->
  App.suggest_recipe search lookup llm (Some data) = App.NoRecipesFound.
Proof.
  intros Ha Hp Hav Hne Hblank. unfold App.suggest_recipe, App.potential_recipes.
  rewrite Hav. destruct available as [|c s]; [congruence|]. rewrite Hblank.
  destruct (App.additional_allergies data); destruct (App.dietary_preference data);
    congruence.
Qed.

Lemma suggest_recipe_blank_first_ingredient_witness :
  App.suggest_recipe (fun _ => RecipeUtils.Failed) (fun _ => RecipeUtils.Failed)
    (fun _ _ => App.LlmFailed)
    (Some (App.mkRequest ApiUtils.Missing (ApiUtils.Val " , rice, egg") ApiUtils.Missing))
  = App.NoRecipesFound.
Proof.
  apply (suggest_recipe_blank_first_ingredient _ _ _ _ " , rice, egg");
    [discriminate | discriminate | reflexivity | discriminate | reflexivity].
Defined.
